(** * TestVerse backend: the exam attempt life cycle, deadlines and grading

    A shallow embedding of [utils/helpers.py], [exams/views.py] (the student
    start / save / submit views and the staff grading view), [exams/tasks.py]
    and [exams/management/commands/auto_submit_exams.py], followed by the
    properties of the attempt state machine, of the deadline sweep and of the
    grading engine.

    Conventions of the embedding:
    - text is a [string] whose characters are the code points 0..255;
    - a JSON payload is a value of [json]; JSON numbers are integers;
    - a [Decimal] of a two-place [DecimalField] is its number of hundredths;
      a row holds decimals that fit its columns, and a decimal the code
      computes is converted to its column when the row is written, which
      raises [decimal.InvalidOperation] when it has too many digits;
    - a timestamp is a number of microseconds, a [timedelta] likewise;
    - a table is the list of its rows in the order the queries return them;
      the bookkeeping columns [created_at] and [updated_at] are left out;
    - a foreign key to a read-only record ([attempt.exam], [answer.question])
      is the record itself;
    - a view, task or command runs as one step: requests are not
      interleaved. *)

From Stdlib Require Import ZArith QArith String Ascii List Lia DecimalString.
From stdpp Require Import base decidable option list gmap strings.

Local Open Scope string_scope.
Local Open Scope Z_scope.
Local Set Warnings "-register-all".

(** ** Python text primitives *)

Module Py.

Definition code (c : ascii) : N := N_of_ascii c.

(** [str.isspace] on one character. *)
Definition is_space (c : ascii) : bool :=
  let n := code c in
  ((9 <=? n) && (n <=? 13) || (28 <=? n) && (n <=? 32)
   || (n =? 133) || (n =? 160))%N.

(** [str.lower] on one character. *)
Definition lower_char (c : ascii) : ascii :=
  let n := code c in
  if ((65 <=? n) && (n <=? 90)
      || (192 <=? n) && (n <=? 222) && negb (n =? 215))%N
  then ascii_of_N (n + 32) else c.

Fixpoint lower (s : string) : string :=
  match s with
  | EmptyString => EmptyString
  | String c r => String (lower_char c) (lower r)
  end.

Fixpoint lstrip (s : string) : string :=
  match s with
  | EmptyString => EmptyString
  | String c r => if is_space c then lstrip r else s
  end.

Fixpoint rstrip (s : string) : string :=
  match s with
  | EmptyString => EmptyString
  | String c r =>
      match rstrip r with
      | EmptyString => if is_space c then EmptyString else String c EmptyString
      | r' => String c r'
      end
  end.

(** [str.strip()] *)
Definition strip (s : string) : string := rstrip (lstrip s).

(** [str(n)] for an [int]. *)
Definition str_int (n : Z) : string := NilZero.string_of_int (Z.to_int n).

Fixpoint contains_char (c : ascii) (s : string) : bool :=
  match s with
  | EmptyString => false
  | String d r => if Ascii.eqb c d then true else contains_char c r
  end.

Definition hex_digit (n : N) : ascii :=
  if (n <? 10)%N then ascii_of_N (48 + n) else ascii_of_N (87 + n).

Definition is_printable (n : N) : bool :=
  ((32 <=? n) && (n <? 127) || (161 <=? n) && negb (n =? 173))%N.

Definition double_quote : ascii := ascii_of_N 34.
Definition single_quote : ascii := ascii_of_N 39.
Definition backslash : ascii := ascii_of_N 92.

(** The body of [repr] of a [str] for the quote character [q]. *)
Fixpoint repr_body (q : ascii) (s : string) : string :=
  match s with
  | EmptyString => EmptyString
  | String c r =>
      let n := code c in
      let rest := repr_body q r in
      if Ascii.eqb c q || Ascii.eqb c backslash
      then String backslash (String c rest)
      else if (n =? 9)%N then String backslash (String "t"%char rest)
      else if (n =? 10)%N then String backslash (String "n"%char rest)
      else if (n =? 13)%N then String backslash (String "r"%char rest)
      else if is_printable n then String c rest
      else String backslash (String "x"%char
             (String (hex_digit (n / 16)) (String (hex_digit (n mod 16)) rest)))
  end.

(** [repr(s)] for a [str]: single quotes unless the text holds one and no
    double quote. *)
Definition repr_str (s : string) : string :=
  let q := if contains_char single_quote s && negb (contains_char double_quote s)
           then double_quote else single_quote in
  String q (repr_body q s ++ String q EmptyString).

Fixpoint join (sep : string) (l : list string) : string :=
  match l with
  | [] => EmptyString
  | [x] => x
  | x :: r => x ++ sep ++ join sep r
  end.

End Py.

(** ** JSON values *)

Inductive json : Type :=
  | JNull
  | JBool (b : bool)
  | JInt (n : Z)
  | JStr (s : string)
  | JList (l : list json)
  | JDict (d : list (string * json)).

(** [repr(v)] *)
Fixpoint py_repr (v : json) : string :=
  match v with
  | JNull => "None"
  | JBool true => "True"
  | JBool false => "False"
  | JInt n => Py.str_int n
  | JStr s => Py.repr_str s
  | JList l => "[" ++ Py.join ", " (map py_repr l) ++ "]"
  | JDict d =>
      "{" ++ Py.join ", "
               (map (fun kv => match kv with
                               | (k, x) => Py.repr_str k ++ ": " ++ py_repr x
                               end) d) ++ "}"
  end.

(** [str(v)] *)
Definition py_str (v : json) : string :=
  match v with
  | JStr s => s
  | _ => py_repr v
  end.

(** [d.get(key)], [None] when the key is absent. *)
Fixpoint dict_get (key : string) (d : list (string * json)) : json :=
  match d with
  | [] => JNull
  | (k, x) :: r => if String.eqb k key then x else dict_get key r
  end.

Definition is_none (v : json) : bool :=
  match v with JNull => true | _ => false end.

(** [v == 1] *)
Definition eq_one (v : json) : bool :=
  match v with
  | JBool true => true
  | JInt 1 => true
  | _ => false
  end.

(** ** Grading engine ([utils/helpers.py]) *)

Definition _is_true (val : json) : bool :=
  match val with JBool true => true | _ => false end
  || eq_one val
  || String.eqb (Py.lower (py_str val)) "true".

Definition _norm_token (val : json) : string :=
  Py.lower (Py.strip (py_str val)).

Abbreviation tokens := (gset string).

(** The loop of [_tokens_from_answer] over [raw]. *)
Fixpoint tokens_of_items (raw : list json) (out : tokens) : tokens :=
  match raw with
  | [] => out
  | item :: rest =>
      match item with
      | JNull => tokens_of_items rest out
      | JDict d =>
          tokens_of_items rest
            (fold_left
               (fun acc key =>
                  if is_none (dict_get key d) then acc
                  else {[ _norm_token (dict_get key d) ]} ∪ acc)
               ["id"; "value"; "text"; "answer"] out)
      | _ => tokens_of_items rest ({[ _norm_token item ]} ∪ out)
      end
  end.

Definition _tokens_from_answer (student_answer : json) : tokens :=
  match student_answer with
  | JNull => ∅
  | JList l => tokens_of_items l ∅
  | JDict d =>
      let truthy_keys :=
        map (fun kv => JStr (fst kv)) (filter (fun kv => _is_true (snd kv) = true) d) in
      let raw := match truthy_keys with
                 | [] => map snd d
                 | _ => truthy_keys
                 end in
      tokens_of_items raw ∅
  | _ => tokens_of_items [student_answer] ∅
  end.

(** [chr(65 + idx)] for [idx < 191]. The text of the embedding stops at code
    point 255: from index 191 on, where Python's label is a character beyond
    it, the value given here is not the label, and what is proved of a label
    is proved for the first 191 options. *)
Definition letter_label (idx : nat) : json :=
  JStr (String (ascii_of_N (65 + N.of_nat idx)) EmptyString).

Definition option_tokens (idx : nat) (d : list (string * json)) : list json :=
  [dict_get "id" d; dict_get "value" d; dict_get "text" d;
   JInt (Z.of_nat idx); JInt (Z.of_nat idx + 1); letter_label idx].

(** The [enumerate] loop of [_extract_correct_tokens_from_options]. *)
Fixpoint correct_tokens_from (idx : nat) (options : list json) (correct : tokens)
  : tokens :=
  match options with
  | [] => correct
  | JDict d :: rest =>
      let is_correct :=
        _is_true (dict_get "isCorrect" d) || _is_true (dict_get "is_correct" d) in
      if is_correct then
        correct_tokens_from (S idx) rest
          (fold_left
             (fun acc t =>
                if negb (is_none t) && negb (String.eqb (Py.strip (py_str t)) "")
                then {[ _norm_token t ]} ∪ acc else acc)
             (option_tokens idx d) correct)
      else correct_tokens_from (S idx) rest correct
  | _ :: rest => correct_tokens_from (S idx) rest correct
  end.

Inductive question_type := mcq | multiple_mcq | descriptive | coding.

#[global] Instance question_type_eq_dec : EqDecision question_type.
Proof. solve_decision. Defined.

Definition uuid := N.
Bind Scope N_scope with uuid.
Definition Decimal := Z.

Record Question := {
  q_id : uuid;
  q_exam : uuid;
  q_type : question_type;
  q_points : Decimal;
  q_options : list json;
  q_correct_answers : list json;
}.

Definition _extract_correct_tokens_from_options (question : Question) : tokens :=
  correct_tokens_from 0 (q_options question) ∅.

(** [set(_norm_token(a) for a in correct_answers if str(a).strip() != '')] *)
Definition explicit_tokens (correct_answers : list json) : tokens :=
  list_to_set
    (map _norm_token
       (filter (fun a => Py.strip (py_str a) ≠ "") correct_answers)).

Definition nonempty (s : tokens) : bool := bool_decide (s ≠ ∅).

(** [auto_evaluate_mcq(attempt, question, student_answer)]; the attempt is
    not used by the code. *)
Definition auto_evaluate_mcq (question : Question) (student_answer : json)
  : Decimal :=
  match q_type question with
  | mcq =>
      let correct_tokens := _extract_correct_tokens_from_options question in
      let student_tokens := _tokens_from_answer student_answer in
      if nonempty correct_tokens && nonempty (correct_tokens ∩ student_tokens)
      then q_points question else 0
  | multiple_mcq =>
      let explicit := explicit_tokens (q_correct_answers question) in
      let correct_answers :=
        if nonempty explicit then explicit
        else _extract_correct_tokens_from_options question in
      let student_answers := _tokens_from_answer student_answer in
      if nonempty correct_answers
         && bool_decide (correct_answers = student_answers)
      then q_points question else 0
  | _ => 0
  end.


(** ** Decimal arithmetic of [calculate_exam_result]

    Sums and comparisons of two-place decimals are exact on hundredths. The
    one inexact operation is the division of the percentage, which Python
    performs under the default context: 28 significant digits, rounded half
    to even. The percentage of the result object is the value the code
    computes; the row keeps it in a column of five digits, two of them after
    the point. When a row is written Django converts a decimal to its column
    ([format_number]): the value is quantized to two places under the default
    rounding, and [decimal.InvalidOperation] is raised when more digits than
    the column has would be needed. *)

Module Dec.

Definition prec : Z := 28.

Fixpoint digits_fuel (fuel : nat) (n : Z) : Z :=
  match fuel with
  | O => 1
  | S f => if n <? 10 then 1 else 1 + digits_fuel f (n / 10)
  end.

(** Number of decimal digits of [n > 0]. *)
Definition digits (n : Z) : Z := digits_fuel (Z.to_nat (Z.log2 n)) n.

Definition div_half_even (n d : Z) : Z :=
  let q := n / d in
  let r := n mod d in
  match 2 * r ?= d with
  | Lt => q
  | Gt => q + 1
  | Eq => if Z.even q then q else q + 1
  end.

(** The value of [Decimal(n) / Decimal(d)] for [d <> 0]. *)
Definition quotient (n d : Z) : Q :=
  if n =? 0 then 0%Q
  else
    let sgn := Z.sgn n * Z.sgn d in
    let n' := Z.abs n in
    let d' := Z.abs d in
    let s := digits d' - digits n' + (prec - 1) in
    let scaled k := if 0 <=? k then (n' * 10 ^ k, d') else (n', d' * 10 ^ (- k)) in
    let k := if fst (scaled s) <? 10 ^ (prec - 1) * snd (scaled s) then s + 1 else s in
    let m := div_half_even (fst (scaled k)) (snd (scaled k)) in
    if 0 <=? k then Qmake (sgn * m) (Z.to_pos (10 ^ k))
    else inject_Z (sgn * m * 10 ^ (- k)).

(** [obtained / total * 100] *)
Definition percent (obtained total : Z) : Q :=
  Qred (Qmult (quotient obtained total) (inject_Z 100)).

(** [q.quantize(Decimal('0.01'))], in hundredths. *)
Definition quantize2 (q : Q) : Z := div_half_even (Qnum q * 100) (Z.pos (Qden q)).

(** The two-place decimal of a number of hundredths. *)
Definition of_hundredths (hundredths : Z) : Q := Qmake hundredths 100.

(** A number of hundredths has at most [max_digits] digits. *)
Definition fits (max_digits : Z) (hundredths : Z) : bool :=
  Z.abs hundredths <? 10 ^ max_digits.

End Dec.

(** ** Data model ([exams/models.py]) *)

Definition timestamp := Z.

Definition minutes (n : Z) : Z := n * 60000000.
Definition seconds (n : Z) : Z := n * 1000000.

Inductive attempt_status := in_progress | submitted | auto_submitted.
Inductive result_status := pending | pass | fail.
Inductive grading_status := grading_pending | partially_graded | fully_graded.

#[global] Instance attempt_status_eq_dec : EqDecision attempt_status.
Proof. solve_decision. Defined.
#[global] Instance result_status_eq_dec : EqDecision result_status.
Proof. solve_decision. Defined.
#[global] Instance grading_status_eq_dec : EqDecision grading_status.
Proof. solve_decision. Defined.

Definition terminal (s : attempt_status) : bool :=
  match s with in_progress => false | _ => true end.

Record Exam := {
  e_id : uuid;
  e_start_time : timestamp;
  e_end_time : timestamp;
  e_total_marks : Decimal;
  e_passing_marks : Decimal;
  e_is_published : bool;
  e_allowed_departments : json;
}.

Record User := {
  u_id : uuid;
  u_department : json;
}.

Record ExamAttempt := {
  ea_id : uuid;
  ea_exam : Exam;
  ea_student : uuid;
  ea_start_time : timestamp;
  ea_submit_time : option timestamp;
  ea_status : attempt_status;
  ea_total_score : option Decimal;
  ea_obtained_score : option Decimal;
}.

Record Answer := {
  an_attempt : uuid;
  an_question : Question;
  an_answer : json;
  an_code : option string;
  an_score : option Decimal;
  an_evaluated_by : option uuid;
  an_feedback : option string;
}.

Record Result := {
  r_attempt : uuid;
  r_exam : uuid;
  r_student : uuid;
  r_total_marks : Decimal;
  r_obtained_marks : Decimal;
  r_percentage : Q;
  r_status : result_status;
  r_grading_status : grading_status;
  r_is_published : bool;
  r_submitted_at : timestamp;
}.

Record ExamTimeExtension := {
  x_exam : uuid;
  x_student : uuid;
  x_additional_minutes : Z;
}.

Record DB := {
  exams : list Exam;
  questions : list Question;
  attempts : list ExamAttempt;
  answers : list Answer;
  results : list Result;
  extensions : list ExamTimeExtension;
}.

Definition set_attempts (f : list ExamAttempt -> list ExamAttempt) (d : DB) : DB :=
  {| exams := exams d; questions := questions d; attempts := f (attempts d);
     answers := answers d; results := results d; extensions := extensions d |}.

Definition set_answers (f : list Answer -> list Answer) (d : DB) : DB :=
  {| exams := exams d; questions := questions d; attempts := attempts d;
     answers := f (answers d); results := results d; extensions := extensions d |}.

Definition set_results (f : list Result -> list Result) (d : DB) : DB :=
  {| exams := exams d; questions := questions d; attempts := attempts d;
     answers := answers d; results := f (results d); extensions := extensions d |}.

(** ** The request monad

    A view, task or helper runs against the database, reads the wall clock
    ([timezone.now()]) and may be interrupted by a storage error at any of
    its writes. The clock and the storage errors are oracles of the
    environment: the [n]-th clock reading is [now_at n], and the [n]-th write,
    when it stores data of attempt [k] in table [t], fails when
    [fault_at t k n]. [to_uuid] is the conversion of a payload value to a key
    (Django's [UUIDField.to_python]), [None] when it is refused. *)

Inductive table := Attempts | Answers | Results.

#[global] Instance table_eq_dec : EqDecision table.
Proof. solve_decision. Defined.

Inductive exn :=
  | StorageError
  | MultipleObjectsReturned
  | IntegrityError
  | ValidationError
  | DoesNotExist
  | InvalidOperation.

Inductive outcome (A : Type) :=
  | Ok (a : A)
  | Raise (e : exn).
Arguments Ok {A} a.
Arguments Raise {A} e.

Record Env := {
  now_at : nat -> timestamp;
  fault_at : table -> uuid -> nat -> bool;
  to_uuid : json -> option uuid;
}.

Record World := {
  db : DB;
  ticks : nat;
  writes : nat;
}.

Definition M (A : Type) : Type := Env -> World -> outcome A * World.

Definition ret {A} (a : A) : M A := fun _ w => (Ok a, w).

Definition bind {A B} (m : M A) (k : A -> M B) : M B :=
  fun env w =>
    match m env w with
    | (Ok a, w') => k a env w'
    | (Raise e, w') => (Raise e, w')
    end.

Notation "'do' x <- m ; k" := (bind m (fun x => k))
  (at level 10, x name, m at level 100, k at level 200).
Notation "'run' m ; k" := (bind m (fun _ => k))
  (at level 10, m at level 100, k at level 200).

Definition raise {A} (e : exn) : M A := fun _ w => (Raise e, w).

(** [try: m  except Exception: handler] *)
Definition try_except {A} (m : M A) (handler : exn -> M A) : M A :=
  fun env w =>
    match m env w with
    | (Ok a, w') => (Ok a, w')
    | (Raise e, w') => handler e env w'
    end.

(** [timezone.now()] *)
Definition timezone_now : M timestamp :=
  fun env w =>
    (Ok (now_at env (ticks w)),
     {| db := db w; ticks := S (ticks w); writes := writes w |}).

Definition query {A} (f : DB -> A) : M A := fun _ w => (Ok (f (db w)), w).

Definition write (t : table) (k : uuid) (f : DB -> DB) : M unit :=
  fun env w =>
    if fault_at env t k (writes w)
    then (Raise StorageError,
          {| db := db w; ticks := ticks w; writes := S (writes w) |})
    else (Ok tt,
          {| db := f (db w); ticks := ticks w; writes := S (writes w) |}).

Definition convert_uuid (v : json) : M uuid :=
  fun env w =>
    match to_uuid env v with
    | Some k => (Ok k, w)
    | None => (Raise ValidationError, w)
    end.

(** [for x in l: body(x)] *)
Fixpoint for_each {A} (l : list A) (body : A -> M unit) : M unit :=
  match l with
  | [] => ret tt
  | x :: rest => run body x; for_each rest body
  end.

(** A loop that updates a local variable. *)
Fixpoint for_fold {A S} (l : list A) (body : S -> A -> M S) (s : S) : M S :=
  match l with
  | [] => ret s
  | x :: rest => do s' <- body s x; for_fold rest body s'
  end.

(** ** Storage primitives (the ORM calls the code makes) *)

Definition same_attempt (a b : ExamAttempt) : bool := (ea_id a =? ea_id b)%N.

(** [attempt.save()]: the row with the object's key is overwritten with the
    object; a new row is inserted when there is none. *)
Definition save_attempt_rows (attempt : ExamAttempt) (rows : list ExamAttempt)
  : list ExamAttempt :=
  if existsb (same_attempt attempt) rows
  then map (fun r => if same_attempt attempt r then attempt else r) rows
  else attempt :: rows.

Definition save_attempt (attempt : ExamAttempt) : M unit :=
  write Attempts (ea_id attempt) (set_attempts (save_attempt_rows attempt)).

(** Answer rows are addressed by their unique (attempt, question) pair. *)
Definition same_answer (a b : Answer) : bool :=
  (an_attempt a =? an_attempt b)%N && (q_id (an_question a) =? q_id (an_question b))%N.

Definition save_answer_rows (answer : Answer) (rows : list Answer) : list Answer :=
  if existsb (same_answer answer) rows
  then map (fun r => if same_answer answer r then answer else r) rows
  else (rows ++ [answer])%list.

(** [answer.save()] *)
Definition save_answer (answer : Answer) : M unit :=
  write Answers (an_attempt answer) (set_answers (save_answer_rows answer)).

(** [attempt.answers.select_related('question').all()] *)
Definition answers_of (attempt_id : uuid) (d : DB) : list Answer :=
  List.filter (fun a => (an_attempt a =? attempt_id)%N) (answers d).

Definition results_of (attempt_id : uuid) (d : DB) : list Result :=
  List.filter (fun r => (r_attempt r =? attempt_id)%N) (results d).

(** The conversion of a computed decimal, given in hundredths, to a column of
    [max_digits] digits. *)
Definition to_column (max_digits : Z) (hundredths : Z) : M Z :=
  if Dec.fits max_digits hundredths then ret hundredths else raise InvalidOperation.

(** The row that keeps a result object: the percentage takes two places. *)
Definition as_stored (r : Result) : Result :=
  {| r_attempt := r_attempt r; r_exam := r_exam r; r_student := r_student r;
     r_total_marks := r_total_marks r; r_obtained_marks := r_obtained_marks r;
     r_percentage := Dec.of_hundredths (Dec.quantize2 (r_percentage r));
     r_status := r_status r; r_grading_status := r_grading_status r;
     r_is_published := r_is_published r; r_submitted_at := r_submitted_at r |}.

(** The conversion of the computed columns of a result, [obtained_marks]
    (ten digits) and [percentage] (five digits), when its row is written. *)
Definition result_row (r : Result) : M Result :=
  do _ <- to_column 10 (r_obtained_marks r);
  do _ <- to_column 5 (Dec.quantize2 (r_percentage r));
  ret (as_stored r).

(** [Result.objects.update_or_create(attempt=attempt, defaults=...)]: the
    single row of the attempt takes the fields of [defaults] ([is_published]
    is not among them); without a row, one is created. The object returned
    holds the values assigned, the row the converted ones. *)
Definition update_or_create_result (attempt_id : uuid) (defaults : Result)
  : M Result :=
  do rows <- query (results_of attempt_id);
  match rows with
  | [] =>
      do row <- result_row defaults;
      run write Results attempt_id (set_results (cons row));
      ret defaults
  | [old] =>
      let result :=
        {| r_attempt := r_attempt defaults; r_exam := r_exam defaults;
           r_student := r_student defaults;
           r_total_marks := r_total_marks defaults;
           r_obtained_marks := r_obtained_marks defaults;
           r_percentage := r_percentage defaults;
           r_status := r_status defaults;
           r_grading_status := r_grading_status defaults;
           r_is_published := r_is_published old;
           r_submitted_at := r_submitted_at defaults |} in
      do row <- result_row result;
      run write Results attempt_id (set_results
                   (map (fun r => if (r_attempt r =? attempt_id)%N then row else r)));
      ret result
  | _ => raise MultipleObjectsReturned
  end.

(** ** Result aggregation and deadlines ([utils/helpers.py]) *)

Definition is_manual (a : Answer) : bool :=
  match q_type (an_question a) with
  | descriptive | coding => true
  | _ => false
  end.

Definition is_graded (a : Answer) : bool :=
  match an_score a with Some _ => true | None => false end.

Definition _compute_grading_status (answers : list Answer) : grading_status :=
  let manual_answers := List.filter is_manual answers in
  match manual_answers with
  | [] => fully_graded
  | _ =>
      let graded_count := length (List.filter is_graded manual_answers) in
      if (graded_count =? 0)%nat then grading_pending
      else if (graded_count <? length manual_answers)%nat then partially_graded
      else fully_graded
  end.

Definition with_score (a : Answer) (score : option Decimal) : Answer :=
  {| an_attempt := an_attempt a; an_question := an_question a;
     an_answer := an_answer a; an_code := an_code a; an_score := score;
     an_evaluated_by := an_evaluated_by a; an_feedback := an_feedback a |}.

(** The body of the first loop of [calculate_exam_result]. *)
Definition grade_answer (answer : Answer) : M Answer :=
  let question := an_question answer in
  match q_type question with
  | mcq | multiple_mcq =>
      let score := auto_evaluate_mcq question (an_answer answer) in
      let answer := with_score answer (Some score) in
      run save_answer answer;
      ret answer
  | _ => ret answer
  end.

Fixpoint grade_answers (answers : list Answer) : M (list Answer) :=
  match answers with
  | [] => ret []
  | answer :: rest =>
      do answer' <- grade_answer answer;
      do rest' <- grade_answers rest;
      ret (answer' :: rest')
  end.

(** The second loop: the sum of the scores that are not [None]. *)
Definition sum_scores (answers : list Answer) : Decimal :=
  fold_left (fun obtained a =>
               match an_score a with
               | Some s => obtained + s
               | None => obtained
               end) answers 0.

Definition with_scores (a : ExamAttempt) (total obtained : Decimal) : ExamAttempt :=
  {| ea_id := ea_id a; ea_exam := ea_exam a; ea_student := ea_student a;
     ea_start_time := ea_start_time a; ea_submit_time := ea_submit_time a;
     ea_status := ea_status a;
     ea_total_score := Some total; ea_obtained_score := Some obtained |}.

Definition result_status_of (g : grading_status) (obtained passing : Decimal)
  : result_status :=
  match g with
  | fully_graded => if passing <=? obtained then pass else fail
  | _ => pending
  end.

(** [calculate_exam_result(attempt)]; the attempt object is updated in place,
    so it is returned next to the result. [attempt.save()] converts the sum
    of the scores to the column [obtained_score] (ten digits). *)
Definition calculate_exam_result (attempt : ExamAttempt)
  : M (Result * ExamAttempt) :=
  let total_marks := e_total_marks (ea_exam attempt) in
  do answers <- query (answers_of (ea_id attempt));
  do answers <- grade_answers answers;
  let obtained_marks := sum_scores answers in
  let attempt := with_scores attempt total_marks obtained_marks in
  do _ <- to_column 10 obtained_marks;
  run save_attempt attempt;
  let grading_status := _compute_grading_status answers in
  let percentage :=
    if 0 <? total_marks then Dec.percent obtained_marks total_marks else 0%Q in
  let result_status :=
    result_status_of grading_status obtained_marks
      (e_passing_marks (ea_exam attempt)) in
  do submitted_at <- match ea_submit_time attempt with
                     | Some t => ret t
                     | None => timezone_now
                     end;
  do result <- update_or_create_result (ea_id attempt)
                 {| r_attempt := ea_id attempt;
                    r_exam := e_id (ea_exam attempt);
                    r_student := ea_student attempt;
                    r_total_marks := total_marks;
                    r_obtained_marks := obtained_marks;
                    r_percentage := percentage;
                    r_status := result_status;
                    r_grading_status := grading_status;
                    r_is_published := false;
                    r_submitted_at := submitted_at |};
  ret (result, attempt).

Definition get_attempt_end_time (attempt : ExamAttempt) : timestamp :=
  e_end_time (ea_exam attempt).

(** [int(remaining.total_seconds())] of a non-negative [timedelta]. *)
Definition whole_seconds (delta : Z) : Z := delta / 1000000.

Definition get_attempt_remaining_time (attempt : ExamAttempt) : M Z :=
  let end_time := get_attempt_end_time attempt in
  do now <- timezone_now;
  if end_time <? now then ret 0
  else ret (whole_seconds (end_time - now)).

(** ** Deadline sweep ([exams/tasks.py], [auto_submit_exams.py]) *)

Definition finalized (a : ExamAttempt) (s : attempt_status) (t : timestamp)
  : ExamAttempt :=
  {| ea_id := ea_id a; ea_exam := ea_exam a; ea_student := ea_student a;
     ea_start_time := ea_start_time a; ea_submit_time := Some t;
     ea_status := s;
     ea_total_score := ea_total_score a;
     ea_obtained_score := ea_obtained_score a |}.

Definition is_in_progress (a : ExamAttempt) : bool :=
  bool_decide (ea_status a = in_progress).

(** [ExamAttempt.objects.filter(status='in_progress')] *)
Definition in_progress_attempts (d : DB) : list ExamAttempt :=
  List.filter is_in_progress (attempts d).

(** The celery task; the value is the [count] its message reports. *)
Definition auto_submit_expired_exams : M nat :=
  do now <- timezone_now;
  do expired_attempts <- query in_progress_attempts;
  for_fold expired_attempts
    (fun count attempt =>
       let end_time := get_attempt_end_time attempt in
       if end_time <? now then
         let attempt := finalized attempt auto_submitted end_time in
         run save_attempt attempt;
         do _ <- calculate_exam_result attempt;
         ret (S count)
       else ret count)
    O.

Module Command.

(** The management command; the lines it prints are left out and the value
    is the [count] of its last line. *)
Definition handle : M nat :=
  do now <- timezone_now;
  do in_progress <- query in_progress_attempts;
  for_fold in_progress
    (fun count attempt =>
       let end_time := get_attempt_end_time attempt in
       if end_time <? now then
         let attempt := finalized attempt auto_submitted end_time in
         run save_attempt attempt;
         try_except
           (do _ <- calculate_exam_result attempt; ret (S count))
           (fun _ => ret count)
       else ret count)
    O.

End Command.

(** ** Eligibility ([utils/helpers.py]) *)

Module Text.

Fixpoint startswith (p s : string) : bool :=
  match p, s with
  | EmptyString, _ => true
  | String a p', String b s' => Ascii.eqb a b && startswith p' s'
  | _, EmptyString => false
  end.

(** [p in s] *)
Fixpoint contains (p s : string) : bool :=
  startswith p s ||
  match s with
  | EmptyString => false
  | String _ s' => contains p s'
  end.

Fixpoint last_char (s : string) : option ascii :=
  match s with
  | EmptyString => None
  | String c EmptyString => Some c
  | String _ r => last_char r
  end.

Fixpoint drop_last (s : string) : string :=
  match s with
  | EmptyString => EmptyString
  | String c EmptyString => EmptyString
  | String c r => String c (drop_last r)
  end.

(** [s[1:-1]] *)
Definition inner (s : string) : string :=
  match s with
  | EmptyString => EmptyString
  | String _ r => drop_last r
  end.

(** [s.split(',')] *)
Fixpoint split_comma (s : string) : list string :=
  match s with
  | EmptyString => [EmptyString]
  | String c r =>
      if Ascii.eqb c ","%char then EmptyString :: split_comma r
      else match split_comma r with
           | [] => [String c EmptyString]
           | p :: ps => String c p :: ps
           end
  end.

Fixpoint lstrip_char (q : ascii) (s : string) : string :=
  match s with
  | EmptyString => EmptyString
  | String c r => if Ascii.eqb c q then lstrip_char q r else s
  end.

Fixpoint rstrip_char (q : ascii) (s : string) : string :=
  match s with
  | EmptyString => EmptyString
  | String c r =>
      match rstrip_char q r with
      | EmptyString => if Ascii.eqb c q then EmptyString else String c EmptyString
      | r' => String c r'
      end
  end.

(** [s.strip(q)] for a one-character [q]. *)
Definition strip_char (q : ascii) (s : string) : string :=
  rstrip_char q (lstrip_char q s).

Definition is_alnum_lower (c : ascii) : bool :=
  let n := Py.code c in
  ((97 <=? n) && (n <=? 122) || (48 <=? n) && (n <=? 57))%N.

(** [re.sub(r'[^a-z0-9]+', ' ', s)]; [gap] tells that the run of other
    characters being read was already replaced. *)
Fixpoint squash (gap : bool) (s : string) : string :=
  match s with
  | EmptyString => EmptyString
  | String c r =>
      if is_alnum_lower c then String c (squash false r)
      else if gap then squash true r
      else String " "%char (squash true r)
  end.

End Text.

(** After the first substitution the text holds letters, digits and single
    blanks only, which the second substitution ([\s+] by one blank) leaves
    as they are. *)
Definition _norm_department (value : json) : string :=
  match value with
  | JNull => ""
  | _ => Py.strip (Text.squash false (Py.lower (Py.strip (py_str value))))
  end.

Definition _DEPARTMENT_ALIASES : list (string * string) :=
  [("cs", "computer science");
   ("cse", "computer science");
   ("computer science engineering", "computer science");
   ("it", "information technology");
   ("ece", "electronics communication");
   ("ee", "electrical engineering");
   ("mech", "mechanical engineering");
   ("civil", "civil engineering")].

Definition _expand_department_tokens (value : json) : gset string :=
  let norm := _norm_department value in
  if String.eqb norm "" then ∅
  else
    fold_left
      (fun tokens alias =>
         let tokens := if String.eqb norm (fst alias)
                       then {[ snd alias ]} ∪ tokens else tokens in
         if String.eqb norm (snd alias) then {[ fst alias ]} ∪ tokens else tokens)
      _DEPARTMENT_ALIASES {[ norm ]}.

(** Python truth value of a payload. *)
Definition truthy (v : json) : bool :=
  match v with
  | JNull => false
  | JBool b => b
  | JInt n => negb (n =? 0)
  | JStr s => negb (String.eqb s "")
  | JList l => match l with [] => false | _ => true end
  | JDict d => match d with [] => false | _ => true end
  end.

(** The loop over [allowed_list]; [None] is its early [return True]. *)
Fixpoint allowed_tokens_of (allowed_list : list json) (allowed_tokens : gset string)
  : option (gset string) :=
  match allowed_list with
  | [] => Some allowed_tokens
  | dept :: rest =>
      let norm := _norm_department dept in
      if String.eqb norm "" then allowed_tokens_of rest allowed_tokens
      else if existsb (String.eqb norm) ["all"; "any"; "everyone"; "*"] then None
      else allowed_tokens_of rest
             (_expand_department_tokens (JStr norm) ∪ allowed_tokens)
  end.

Definition is_department_allowed (user_department allowed_departments : json)
  : bool :=
  if negb (truthy allowed_departments) then true
  else
    let allowed_list :=
      match allowed_departments with
      | JStr s =>
          let raw := Py.strip s in
          let raw := if Text.startswith "[" raw
                        && bool_decide (Text.last_char raw = Some "]"%char)
                     then Text.inner raw else raw in
          Some (map (fun p => JStr (Text.strip_char Py.single_quote
                                      (Text.strip_char Py.double_quote (Py.strip p))))
                  (Text.split_comma raw))
      | JList l => Some l
      | _ => None
      end in
    match allowed_list with
    | None => true
    | Some allowed_list =>
        match allowed_tokens_of allowed_list ∅ with
        | None => true
        | Some allowed_tokens =>
            if bool_decide (allowed_tokens = ∅) then true
            else
              let user_tokens := _expand_department_tokens user_department in
              if bool_decide (user_tokens = ∅) then false
              else if bool_decide (user_tokens ∩ allowed_tokens ≠ ∅) then true
              else
                existsb (fun u =>
                           existsb (fun a => Text.contains u a || Text.contains a u)
                             (elements allowed_tokens))
                  (elements user_tokens)
        end
    end.

Definition attempts_of_pair (exam_id student : uuid) (d : DB) : list ExamAttempt :=
  List.filter (fun a => (e_id (ea_exam a) =? exam_id)%N && (ea_student a =? student)%N)
    (attempts d).

Definition check_exam_eligibility (user : User) (exam : Exam) : M (bool * string) :=
  do now <- timezone_now;
  if negb (e_is_published exam) then ret (false, "Exam is not published yet")
  else if now <? e_start_time exam then ret (false, "Exam has not started yet")
  else if e_end_time exam <? now then ret (false, "Exam has ended")
  else if negb (is_department_allowed (u_department user) (e_allowed_departments exam))
  then ret (false, "You are not allowed to attempt this exam")
  else
    do existing <- query (attempts_of_pair (e_id exam) (u_id user));
    match existing with
    | [] => ret (true, "Eligible to attempt")
    | _ => ret (false, "You have already attempted this exam")
    end.

(** ** Student views ([exams/views.py]) *)

(** [Response(data, status=...)]; timestamps and keys in a body are [JInt]. *)
Record Response := { data : json; status : nat }.

Definition error (msg : string) (code : nat) : Response :=
  {| data := JDict [("error", JStr msg)]; status := code |}.

Definition json_time (t : option timestamp) : json :=
  match t with Some t => JInt t | None => JNull end.

Definition dict_has (key : string) (d : list (string * json)) : bool :=
  existsb (fun kv => String.eqb (fst kv) key) d.

Definition dicts_of (l : list json) : list (list (string * json)) :=
  flat_map (fun item => match item with JDict d => [d] | _ => [] end) l.

Definition _payload_answer_items (payload : json) : list (list (string * json)) :=
  match payload with
  | JList l => dicts_of l
  | JDict d =>
      match dict_get "answers" d with
      | JList l => dicts_of l
      | _ =>
          if existsb (fun k => dict_has k d)
               ["question"; "questionId"; "question_id"; "answer"; "code"]
          then [d] else []
      end
  | _ => []
  end.

(** [a or b] *)
Definition py_or (a b : json) : json := if truthy a then a else b.

(** The value a [TextField] keeps for a payload. *)
Definition text_of (v : json) : option string :=
  match v with
  | JNull => None
  | _ => Some (py_str v)
  end.

Definition is_str (v : json) : bool :=
  match v with JStr _ => true | _ => false end.

Definition with_answer (a : Answer) (v : json) : Answer :=
  {| an_attempt := an_attempt a; an_question := an_question a;
     an_answer := v; an_code := an_code a; an_score := an_score a;
     an_evaluated_by := an_evaluated_by a; an_feedback := an_feedback a |}.

Definition with_code (a : Answer) (c : option string) : Answer :=
  {| an_attempt := an_attempt a; an_question := an_question a;
     an_answer := an_answer a; an_code := c; an_score := an_score a;
     an_evaluated_by := an_evaluated_by a; an_feedback := an_feedback a |}.

(** [answer.save(update_fields=[...])]: only the named columns of the row
    are written. *)
Definition save_answer_fields (answer : Answer) (upd_answer upd_code : bool)
  : M unit :=
  write Answers (an_attempt answer) (set_answers
    (map (fun r =>
            if same_answer answer r then
              let r := if upd_answer then with_answer r (an_answer answer) else r in
              if upd_code then with_code r (an_code answer) else r
            else r))).

(** [Answer.objects.get(attempt=attempt, question_id=question_id)] *)
Definition answers_for (attempt_id question_id : uuid) (d : DB) : list Answer :=
  List.filter
    (fun a => (an_attempt a =? attempt_id)%N && (q_id (an_question a) =? question_id)%N)
    (answers d).

Definition _persist_attempt_answers (attempt : ExamAttempt) (payload : json)
  : M nat :=
  for_fold (_payload_answer_items payload)
    (fun saved_count item =>
       let question_id :=
         py_or (py_or (dict_get "question_id" item) (dict_get "questionId" item))
           (dict_get "question" item) in
       if negb (truthy question_id) then ret saved_count
       else
         do key <- convert_uuid question_id;
         do found <- query (answers_for (ea_id attempt) key);
         match found with
         | [] => ret saved_count
         | [answer] =>
             let has_answer_field := dict_has "answer" item in
             let has_code_field := dict_has "code" item in
             let answer :=
               if has_answer_field then
                 let normalized_answer :=
                   if is_none (dict_get "answer" item) then JDict []
                   else dict_get "answer" item in
                 with_answer answer normalized_answer
               else answer in
             let legacy_code :=
               bool_decide (q_type (an_question answer) = coding)
               && has_answer_field && is_str (dict_get "answer" item) in
             let answer :=
               if has_code_field then with_code answer (text_of (dict_get "code" item))
               else if legacy_code
                    then with_code answer (text_of (dict_get "answer" item))
                    else answer in
             if has_answer_field || has_code_field then
               run save_answer_fields answer has_answer_field
                     (has_code_field || legacy_code);
               ret (S saved_count)
             else ret saved_count
         | _ => raise MultipleObjectsReturned
         end)
    O.

(** [ExamAttempt.objects.filter(exam_id=..., student=..., status=...)] with
    the status among [sts]. *)
Definition attempts_with (exam_id student : uuid) (sts : list attempt_status)
    (d : DB) : list ExamAttempt :=
  List.filter (fun a => bool_decide (ea_status a ∈ sts))
    (attempts_of_pair exam_id student d).

Module StudentSaveAnswerView.

(** The view behind [exams/<exam_id>/attempt/save/]. *)
Definition update (user : User) (exam_id : uuid) (request_data : json)
  : M Response :=
  do found <- query (attempts_with exam_id (u_id user) [in_progress]);
  match found with
  | [] => ret (error "Active attempt not found" 404)
  | [attempt] =>
      let end_time := get_attempt_end_time attempt in
      let grace_period := seconds 30 in
      do now <- timezone_now;
      if end_time + grace_period <? now then ret (error "Exam time has expired" 400)
      else
        match _payload_answer_items request_data with
        | [] => ret (error "Invalid answer payload" 400)
        | _ =>
            do saved_count <- _persist_attempt_answers attempt request_data;
            do saved_at <- timezone_now;
            ret {| data := JDict [("success", JBool true);
                                  ("saved_count", JInt (Z.of_nat saved_count));
                                  ("savedAt", JInt saved_at)];
                   status := 200 |}
        end
  | _ => raise MultipleObjectsReturned
  end.

End StudentSaveAnswerView.

Module StudentSubmitExamView.

(** The view behind [exams/<exam_id>/attempt/submit/]. *)
Definition create (user : User) (exam_id : uuid) (request_data : json)
  : M Response :=
  do attempt <- query (fun d => head (attempts_with exam_id (u_id user) [in_progress] d));
  match attempt with
  | Some attempt =>
      do _ <- _persist_attempt_answers attempt request_data;
      do now <- timezone_now;
      let attempt := finalized attempt submitted now in
      run save_attempt attempt;
      do _ <- calculate_exam_result attempt;
      ret {| data := JDict
               [("success", JBool true);
                ("message", JStr "Exam submitted successfully. Results will be published after teacher review.");
                ("submittedAt", json_time (ea_submit_time attempt))];
             status := 200 |}
  | None =>
      do already_submitted <-
        query (fun d => head (attempts_with exam_id (u_id user)
                                [submitted; auto_submitted] d));
      match already_submitted with
      | Some already_submitted =>
          ret {| data := JDict
                   [("success", JBool true);
                    ("message", JStr "Exam was already submitted.");
                    ("submittedAt", json_time (ea_submit_time already_submitted))];
                 status := 200 |}
      | None => ret (error "No exam attempt found" 404)
      end
  end.

End StudentSubmitExamView.

(** [ExamAttempt.objects.create(exam=..., student=..., start_time=...)] with
    the key [new_id] drawn by [uuid4]; the table refuses a second row with
    the same key or the same (exam, student) pair. *)
Definition create_attempt (new_id : uuid) (exam : Exam) (student : uuid)
    (start_time : timestamp) : M ExamAttempt :=
  let attempt :=
    {| ea_id := new_id; ea_exam := exam; ea_student := student;
       ea_start_time := start_time; ea_submit_time := None;
       ea_status := in_progress;
       ea_total_score := None; ea_obtained_score := None |} in
  do clash <- query (fun d =>
                existsb (fun r => same_attempt attempt r
                                  || (e_id (ea_exam r) =? e_id exam)%N
                                     && (ea_student r =? student)%N)
                  (attempts d));
  if clash then raise IntegrityError
  else run write Attempts new_id (set_attempts (cons attempt)); ret attempt.

(** [Answer.objects.create(attempt=attempt, question=question, answer={})] *)
Definition create_answer (attempt : ExamAttempt) (question : Question) : M unit :=
  let answer :=
    {| an_attempt := ea_id attempt; an_question := question;
       an_answer := JDict []; an_code := None; an_score := None;
       an_evaluated_by := None; an_feedback := None |} in
  do clash <- query (fun d => existsb (same_answer answer) (answers d));
  if clash then raise IntegrityError
  else write Answers (ea_id attempt)
         (set_answers (fun rows => (rows ++ [answer])%list)).

(** [exam.questions.all()] *)
Definition questions_of (exam_id : uuid) (d : DB) : list Question :=
  List.filter (fun q => (q_exam q =? exam_id)%N) (questions d).

Module StudentStartExamView.

(** The view behind [exams/<exam_id>/attempt/]; the serialised question list
    of the response body is left out. *)
Definition create (user : User) (exam_id new_id : uuid) : M Response :=
  do exam <- query (fun d => head (List.filter (fun e => (e_id e =? exam_id)%N) (exams d)));
  match exam with
  | None => ret (error "Exam not found" 404)
  | Some exam =>
      do existing_attempt <-
        query (fun d => head (attempts_with (e_id exam) (u_id user) [in_progress] d));
      match existing_attempt with
      | Some existing_attempt =>
          do remaining_time <- get_attempt_remaining_time existing_attempt;
          do expired <- (if remaining_time <=? 0 then ret true
                         else do now <- timezone_now; ret (e_end_time exam <? now));
          if expired then
            do now <- timezone_now;
            let existing_attempt := finalized existing_attempt auto_submitted now in
            run save_attempt existing_attempt;
            do _ <- calculate_exam_result existing_attempt;
            ret (error "Exam time has expired. Your exam has been auto-submitted." 400)
          else
            ret {| data := JDict
                     [("message", JStr "Exam resumed");
                      ("attempt_id", JInt (Z.of_N (ea_id existing_attempt)));
                      ("attemptId", JInt (Z.of_N (ea_id existing_attempt)));
                      ("startTime", JInt (ea_start_time existing_attempt));
                      ("endTime", JInt (e_end_time exam));
                      ("time_remaining_seconds", JInt remaining_time)];
                   status := 200 |}
      | None =>
          do submitted_attempt <-
            query (fun d => head (attempts_with (e_id exam) (u_id user)
                                    [submitted; auto_submitted] d));
          match submitted_attempt with
          | Some _ => ret (error "You have already submitted this exam." 409)
          | None =>
              do eligible <- check_exam_eligibility user exam;
              if negb (fst eligible) then ret (error (snd eligible) 400)
              else
                do start_time <- timezone_now;
                do attempt <- create_attempt new_id exam (u_id user) start_time;
                do actual_remaining <- get_attempt_remaining_time attempt;
                do qs <- query (questions_of (e_id exam));
                run for_each qs (create_answer attempt);
                ret {| data := JDict
                         [("message", JStr "Exam attempt started");
                          ("attempt_id", JInt (Z.of_N (ea_id attempt)));
                          ("attemptId", JInt (Z.of_N (ea_id attempt)));
                          ("startTime", JInt (ea_start_time attempt));
                          ("endTime", JInt (e_end_time exam));
                          ("time_remaining_seconds", JInt actual_remaining)];
                       status := 201 |}
          end
      end
  end.

End StudentStartExamView.

(** ** Staff views ([exams/views.py]) *)

Definition evaluated (a : Answer) (score : Decimal) (feedback : string)
    (grader : uuid) : Answer :=
  {| an_attempt := an_attempt a; an_question := an_question a;
     an_answer := an_answer a; an_code := an_code a; an_score := Some score;
     an_evaluated_by := Some grader; an_feedback := Some feedback |}.

(** [answer.attempt] *)
Definition attempt_of (a : Answer) : M ExamAttempt :=
  do found <- query (fun d => head (List.filter (fun r => (ea_id r =? an_attempt a)%N)
                                      (attempts d)));
  match found with
  | Some attempt => ret attempt
  | None => raise DoesNotExist
  end.

Module StaffEvaluateAnswerView.

(** [score] is the decimal read from the request, and the message of the
    second refusal, which prints floats, is shortened. *)
Definition create (grader attempt_id : uuid) (question_id : json)
    (score : Decimal) (feedback : string) : M Response :=
  do found <- (if is_none question_id then ret []
               else do key <- convert_uuid question_id;
                    query (answers_for attempt_id key));
  match found with
  | [] => ret (error "Answer not found" 404)
  | [answer] =>
      if score <? 0 then ret (error "Score cannot be negative" 400)
      else if q_points (an_question answer) <? score
      then ret (error "Score cannot exceed question max points" 400)
      else
        let answer := evaluated answer score feedback grader in
        run save_answer answer;
        do attempt <- attempt_of answer;
        do _ <- calculate_exam_result attempt;
        ret {| data := JDict [("success", JBool true);
                              ("message", JStr "Answer evaluated successfully")];
               status := 200 |}
  | _ => raise MultipleObjectsReturned
  end.

End StaffEvaluateAnswerView.

Definition exam_attempts (exam_id : uuid) (sts : list attempt_status) (d : DB)
  : list ExamAttempt :=
  List.filter (fun a => (e_id (ea_exam a) =? exam_id)%N && bool_decide (ea_status a ∈ sts))
    (attempts d).

Module StaffExamViewSet.

(** Every submitted attempt of the exam is recomputed; the restriction of
    the exams to those of the requesting staff member is left out. *)
Definition finalize_results (exam_id : uuid) : M Response :=
  do exam <- query (fun d => head (List.filter (fun e => (e_id e =? exam_id)%N) (exams d)));
  match exam with
  | None => ret {| data := JDict [("detail", JStr "Not found.")]; status := 404 |}
  | Some exam =>
      do now <- timezone_now;
      do active_count <-
        (if now <? e_end_time exam
         then query (fun d => length (exam_attempts (e_id exam) [in_progress] d))
         else ret O);
      if (0 <? active_count)%nat
      then ret {| data := JDict
                    [("error", JStr ("Cannot generate results: exam is still running with "
                                     ++ Py.str_int (Z.of_nat active_count)
                                     ++ " active student(s). Wait until the exam ends."));
                     ("active_count", JInt (Z.of_nat active_count))];
                  status := 400 |}
      else
        do submitted_attempts <-
          query (exam_attempts (e_id exam) [submitted; auto_submitted]);
        do counts <-
          for_fold submitted_attempts
            (fun counts attempt =>
               do had_result <- query (fun d => match results_of (ea_id attempt) d with
                                                | [] => false
                                                | _ => true
                                                end);
               do _ <- calculate_exam_result attempt;
               if had_result then ret (fst counts, S (snd counts))
               else ret (S (fst counts), snd counts))
            (O, O);
        do results <- query (fun d => List.filter (fun r => (r_exam r =? e_id exam)%N)
                                        (results d));
        let fully := length (List.filter
                               (fun r => bool_decide (r_grading_status r = fully_graded))
                               results) in
        ret {| data := JDict
                 [("success", JBool true);
                  ("message", JStr ("MCQs auto-graded. "
                                    ++ Py.str_int (Z.of_nat (fst counts))
                                    ++ " new results created, "
                                    ++ Py.str_int (Z.of_nat (snd counts))
                                    ++ " updated."));
                  ("totalStudents", JInt (Z.of_nat (length results)));
                  ("newResults", JInt (Z.of_nat (fst counts)));
                  ("updatedResults", JInt (Z.of_nat (snd counts)));
                  ("needsGrading", JInt (Z.of_nat (length results - fully)));
                  ("fullyGraded", JInt (Z.of_nat fully))];
               status := 200 |}
  end.

End StaffExamViewSet.

(** ** The exposed operations *)

Inductive operation :=
  | Start (user : User) (exam_id new_id : uuid)
  | Save (user : User) (exam_id : uuid) (payload : json)
  | Submit (user : User) (exam_id : uuid) (payload : json)
  | GradeAnswer (grader attempt_id : uuid) (question_id : json)
      (score : Decimal) (feedback : string)
  | Recompute (exam_id : uuid)
  | Sweep
  | SweepCommand.

Definition perform (op : operation) : M unit :=
  match op with
  | Start user exam_id new_id => run StudentStartExamView.create user exam_id new_id; ret tt
  | Save user exam_id payload => run StudentSaveAnswerView.update user exam_id payload; ret tt
  | Submit user exam_id payload => run StudentSubmitExamView.create user exam_id payload; ret tt
  | GradeAnswer grader attempt_id question_id score feedback =>
      run StaffEvaluateAnswerView.create grader attempt_id question_id score feedback; ret tt
  | Recompute exam_id => run StaffExamViewSet.finalize_results exam_id; ret tt
  | Sweep => run auto_submit_expired_exams; ret tt
  | SweepCommand => run Command.handle; ret tt
  end.

(** A request that raises is answered by an error page; the writes it made
    before stay. *)
Definition run_ops (env : Env) (ops : list operation) (w : World) : World :=
  fold_left (fun w op => snd (perform op env w)) ops w.

(** An environment without storage errors. *)
Definition reliable (clock : nat -> timestamp) (conv : json -> option uuid) : Env :=
  {| now_at := clock; fault_at := fun _ _ _ => false; to_uuid := conv |}.

Definition world_of (d : DB) : World := {| db := d; ticks := O; writes := O |}.

(** ** Constraints of the tables ([Meta.unique_together], primary keys) *)

Definition attempts_pk (d : DB) : Prop := NoDup (map ea_id (attempts d)).

Definition attempt_pair (a : ExamAttempt) : uuid * uuid :=
  (e_id (ea_exam a), ea_student a).

Definition attempts_unique (d : DB) : Prop := NoDup (map attempt_pair (attempts d)).

Definition answer_key (a : Answer) : uuid * uuid :=
  (an_attempt a, q_id (an_question a)).

Definition answers_unique (d : DB) : Prop := NoDup (map answer_key (answers d)).

(** The row of an attempt, by key. *)
Definition find_attempt (i : uuid) (d : DB) : option ExamAttempt :=
  head (List.filter (fun r => (ea_id r =? i)%N) (attempts d)).

(** ** The deadline and the correct set, in the words of the specification *)

(** The active extension of an (exam, student) pair. *)
Definition active_extension (exam_id student : uuid) (d : DB)
  : option ExamTimeExtension :=
  head (List.filter (fun x => (x_exam x =? exam_id)%N && (x_student x =? student)%N)
          (extensions d)).

(** [resolveDeadline(exam, extension?)] as specified: the end of the exam
    plus the additional minutes of the extension, if there is one. *)
Definition spec_resolveDeadline (exam : Exam) (extension : option ExamTimeExtension)
  : timestamp :=
  match extension with
  | Some x => e_end_time exam + minutes (x_additional_minutes x)
  | None => e_end_time exam
  end.

(** The correct set of a [multiple_mcq] question as specified: the explicit
    list, normalised, when it is present and non-empty, else the tokens of
    the options flagged correct. *)
Definition spec_correct_set (question : Question) : tokens :=
  match q_correct_answers question with
  | [] => _extract_correct_tokens_from_options question
  | l => explicit_tokens l
  end.

Definition spec_multiple_mcq_score (question : Question) (student_answer : json)
  : Decimal :=
  if bool_decide (spec_correct_set question ≠ ∅
                  ∧ spec_correct_set question = _tokens_from_answer student_answer)
  then q_points question else 0.

(** An entry of [correct_answers] counts when it is not blank. *)
Definition has_non_blank (correct_answers : list json) : bool :=
  existsb (fun a => negb (String.eqb (Py.strip (py_str a)) "")) correct_answers.

(** The correct set the code compares with. *)
Definition multiple_mcq_correct_set (question : Question) : tokens :=
  if has_non_blank (q_correct_answers question)
  then explicit_tokens (q_correct_answers question)
  else _extract_correct_tokens_from_options question.

Definition results_unique (d : DB) : Prop := NoDup (map r_attempt (results d)).

(** ** Invariants of the database under the request monad

    [keeps I m Q]: whatever the clock and the storage errors, [m] takes a
    database satisfying [I] to one satisfying [I], also when it raises, and
    a value it returns satisfies [Q]. *)

Definition keeps {A} (I : DB -> Prop) (m : M A) (Q : A -> Prop) : Prop :=
  forall env w, I (db w) ->
    I (db (snd (m env w))) /\ forall a, fst (m env w) = Ok a -> Q a.

(** Every row with key [i] has status [s], and there is one. *)
Definition status_is (i : uuid) (s : attempt_status) (d : DB) : Prop :=
  (exists r, In r (attempts d) /\ ea_id r = i)
  /\ forall r, In r (attempts d) -> ea_id r = i -> ea_status r = s.

(** An object that may be saved while row [i] stays in status [s]. *)
Definition safe_for (i : uuid) (s : attempt_status) (obj : ExamAttempt) : Prop :=
  ea_id obj <> i \/ ea_status obj = s.

(** Attempt [i] stays in status [s] with the answers [kept]. *)
Definition untouched (i : uuid) (s : attempt_status) (kept : list Answer) (d : DB)
  : Prop :=
  status_is i s d /\ answers_of i d = kept.

(** The status of a result follows from its grading status and marks. *)
Definition consistent_status (passing : Decimal) (r : Result) : Prop :=
  r_status r = result_status_of (r_grading_status r) (r_obtained_marks r) passing.

(** ** The aggregation without storage errors, as functions on the tables *)

Definition is_auto (a : Answer) : bool :=
  match q_type (an_question a) with
  | mcq | multiple_mcq => true
  | _ => false
  end.

(** The answer object after the first loop of [calculate_exam_result]. *)
Definition graded (a : Answer) : Answer :=
  if is_auto a
  then with_score a (Some (auto_evaluate_mcq (an_question a) (an_answer a)))
  else a.

(** The answers table after the first loop over [l]. *)
Definition grade_rows (l rows : list Answer) : list Answer :=
  fold_left (fun rows a => if is_auto a then save_answer_rows (graded a) rows else rows)
    l rows.

(** The result [calculate_exam_result] derives from the graded answers. *)
Definition result_for (attempt : ExamAttempt) (answers : list Answer)
    (submitted_at : timestamp) (published : bool) : Result :=
  let total_marks := e_total_marks (ea_exam attempt) in
  let obtained_marks := sum_scores answers in
  {| r_attempt := ea_id attempt;
     r_exam := e_id (ea_exam attempt);
     r_student := ea_student attempt;
     r_total_marks := total_marks;
     r_obtained_marks := obtained_marks;
     r_percentage := if 0 <? total_marks then Dec.percent obtained_marks total_marks
                     else 0%Q;
     r_status := result_status_of (_compute_grading_status answers) obtained_marks
                   (e_passing_marks (ea_exam attempt));
     r_grading_status := _compute_grading_status answers;
     r_is_published := published;
     r_submitted_at := submitted_at |}.

(** The letters of the options of a question are characters of the texts of
    the embedding: it has at most 191 options. *)
Definition has_letters (q : Question) : Prop := (length (q_options q) <= 191)%nat.

(** The same of the question of every answer of attempt [i]. *)
Definition answers_have_letters (i : uuid) (d : DB) : Prop :=
  Forall (fun a => has_letters (an_question a)) (answers_of i d).

(** The computed columns of a result fit: the obtained marks have at most
    ten digits and the percentage, at two places, at most five. *)
Definition fits_columns (r : Result) : bool :=
  Dec.fits 10 (r_obtained_marks r) && Dec.fits 5 (Dec.quantize2 (r_percentage r)).

(** The results table after [update_or_create] stored [r] for attempt [i]. *)
Definition upsert_result (i : uuid) (r : Result) (rows : list Result) : list Result :=
  match List.filter (fun x => (r_attempt x =? i)%N) rows with
  | [] => r :: rows
  | _ => map (fun x => if (r_attempt x =? i)%N then r else x) rows
  end.

(** The attempt object after [calculate_exam_result] set its scores. *)
Definition rescored (obj : ExamAttempt) (d : DB) : ExamAttempt :=
  with_scores obj (e_total_marks (ea_exam obj))
    (sum_scores (map graded (answers_of (ea_id obj) d))).

(** The database after [calculate_exam_result] on attempt object [obj] whose
    submit time is [t], when the result fits its columns. *)
Definition recomputed (obj : ExamAttempt) (t : timestamp) (d : DB) : DB :=
  let answers1 := map graded (answers_of (ea_id obj) d) in
  let obj' := with_scores obj (e_total_marks (ea_exam obj)) (sum_scores answers1) in
  let published := match results_of (ea_id obj) d with
                   | old :: _ => r_is_published old
                   | [] => false
                   end in
  set_results (upsert_result (ea_id obj)
                 (as_stored (result_for obj answers1 t published)))
    (set_attempts (save_attempt_rows obj')
       (set_answers (grade_rows (answers_of (ea_id obj) d)) d)).

(** The result object it returns. *)
Definition recomputed_result (obj : ExamAttempt) (t : timestamp) (d : DB) : Result :=
  result_for obj (map graded (answers_of (ea_id obj) d)) t
    match results_of (ea_id obj) d with
    | old :: _ => r_is_published old
    | [] => false
    end.

(** A field of the body of a response. *)
Definition response_field (key : string) (r : Response) : json :=
  match data r with
  | JDict d => dict_get key d
  | _ => JNull
  end.

(** The answer of [submit] for an attempt that is already terminal. *)
Definition already_submitted_response (t : option timestamp) : Response :=
  {| data := JDict [("success", JBool true);
                    ("message", JStr "Exam was already submitted.");
                    ("submittedAt", json_time t)];
     status := 200 |}.

(** The answer of [start] for an attempt found expired. *)
Definition expiry_response : Response :=
  error "Exam time has expired. Your exam has been auto-submitted." 400.

(** ** The sweeps, attempt by attempt *)

(** What the database holds about attempt [i]: its row, its answers and its
    results. *)
Definition view (i : uuid) (d : DB)
  : option ExamAttempt * list Answer * list Result :=
  (find_attempt i d, answers_of i d, results_of i d).

Definition view_is (j : uuid) (kept : option ExamAttempt * list Answer * list Result)
    (d : DB) : Prop :=
  view j d = kept.

(** The sweep's test [now > end_time]. *)
Definition expired (now : timestamp) (a : ExamAttempt) : bool :=
  get_attempt_end_time a <? now.

(** The object the sweep saves for attempt [a]. *)
Definition auto_finalized (a : ExamAttempt) : ExamAttempt :=
  finalized a auto_submitted (get_attempt_end_time a).

(** [a'] is attempt [a] auto-submitted at its deadline, whatever its scores. *)
Definition swept_row (a a' : ExamAttempt) : Prop :=
  ea_id a' = ea_id a /\ ea_exam a' = ea_exam a /\ ea_student a' = ea_student a
  /\ ea_start_time a' = ea_start_time a
  /\ ea_status a' = auto_submitted
  /\ ea_submit_time a' = Some (get_attempt_end_time a).

(** The row and the result of attempt [x] after the sweep finalized it, from
    what the database held about it before ([v0]). *)
Definition sweep_post (x : ExamAttempt)
    (v0 v1 : option ExamAttempt * list Answer * list Result) : Prop :=
  let obj := auto_finalized x in
  let answers1 := map graded (snd (fst v0)) in
  fst (fst v1)
  = Some (with_scores obj (e_total_marks (ea_exam obj)) (sum_scores answers1))
  /\ snd v1
     = [as_stored
          (result_for obj answers1 (get_attempt_end_time x)
             match snd v0 with
             | old :: _ => r_is_published old
             | [] => false
             end)].

(** The loop body of [auto_submit_expired_exams]. *)
Definition task_body (now : timestamp) (count : nat) (attempt : ExamAttempt)
  : M nat :=
  let end_time := get_attempt_end_time attempt in
  if end_time <? now then
    let attempt := finalized attempt auto_submitted end_time in
    run save_attempt attempt;
    do _ <- calculate_exam_result attempt;
    ret (S count)
  else ret count.

(** The loop body of [Command.handle]. *)
Definition command_body (now : timestamp) (count : nat) (attempt : ExamAttempt)
  : M nat :=
  let end_time := get_attempt_end_time attempt in
  if end_time <? now then
    let attempt := finalized attempt auto_submitted end_time in
    run save_attempt attempt;
    try_except
      (do _ <- calculate_exam_result attempt; ret (S count))
      (fun _ => ret count)
  else ret count.

(** No storage error hits a write of data of attempt [i]. *)
Definition quiet_for (env : Env) (i : uuid) : Prop :=
  forall t n, fault_at env t i n = false.

(** The result the sweep computes for attempt [x] from its [answers] fits
    the columns of the result. *)
Definition sweep_fits (x : ExamAttempt) (answers : list Answer) : bool :=
  fits_columns (result_for (auto_finalized x) (map graded answers)
                  (get_attempt_end_time x) false).

(** After the command's sweep: attempt [x] is auto-submitted at its deadline,
    and recomputed when its grading went through. *)
Definition command_post (graded_through : Prop) (x : ExamAttempt)
    (v0 v1 : option ExamAttempt * list Answer * list Result) : Prop :=
  (exists a', fst (fst v1) = Some a' /\ swept_row x a')
  /\ (graded_through -> sweep_post x v0 v1).

(** What the sweeps require of what the database holds about an attempt: at
    most one result row. *)
Definition one_result_row (v : option ExamAttempt * list Answer * list Result)
  : Prop :=
  (length (snd v) <= 1)%nat.

(** The one way a pass of the command's loop raises: the storage refuses the
    save of the status of its attempt. *)
Definition status_save_refused (env : Env) (x : ExamAttempt) (e : exn) : Prop :=
  e = StorageError /\ exists n, fault_at env Attempts (ea_id x) n = true.



(** ** Scenarios *)

Module Scenario.

Definition conv (v : json) : option uuid :=
  match v with
  | JInt n => Some (Z.to_N n)
  | _ => None
  end.

Definition exam : Exam :=
  {| e_id := 1; e_start_time := 0; e_end_time := minutes 60;
     e_total_marks := 1000; e_passing_marks := 400; e_is_published := true;
     e_allowed_departments := JList [JStr "CSE"] |}.

Definition student : User := {| u_id := 7; u_department := JStr "Computer Science" |}.
Definition student2 : User := {| u_id := 8; u_department := JStr "cs" |}.

Definition question : Question :=
  {| q_id := 1; q_exam := 1; q_type := mcq; q_points := 1000;
     q_options := [JDict [("id", JInt 1); ("isCorrect", JBool true)]];
     q_correct_answers := [] |}.

(** A multi-select question whose explicit list holds one blank entry. *)
Definition blank_question : Question :=
  {| q_id := 2; q_exam := 1; q_type := multiple_mcq; q_points := 500;
     q_options := [JDict [("id", JInt 1); ("isCorrect", JBool true)]];
     q_correct_answers := [JStr " "] |}.

Definition blank_answer : json := JList [JStr "0"; JStr "1"; JStr "A"].

Definition attempt (key : uuid) (u : User) : ExamAttempt :=
  {| ea_id := key; ea_exam := exam; ea_student := u_id u;
     ea_start_time := minutes 5; ea_submit_time := None;
     ea_status := in_progress; ea_total_score := None;
     ea_obtained_score := None |}.

Definition answer (key : uuid) (v : json) : Answer :=
  {| an_attempt := key; an_question := question; an_answer := v;
     an_code := None; an_score := None; an_evaluated_by := None;
     an_feedback := None |}.

(** The student holds a 20 minute extension. *)
Definition extension : ExamTimeExtension :=
  {| x_exam := 1; x_student := 7; x_additional_minutes := 20 |}.

(** Nobody has started yet. *)
Definition db_fresh : DB :=
  {| exams := [exam]; questions := [question]; attempts := []; answers := [];
     results := []; extensions := [extension] |}.

(** Two students are sitting the exam. *)
Definition db_running : DB :=
  {| exams := [exam]; questions := [question];
     attempts := [attempt 101 student2; attempt 100 student];
     answers := [answer 100 (JStr "1"); answer 101 (JStr "2")];
     results := []; extensions := [extension] |}.

(** The clock reads [t], then one more microsecond at every reading. *)
Definition clock_from (t : timestamp) (n : nat) : timestamp := t + Z.of_nat n.

(** The clock stands at [t]. *)
Definition clock_at (t : timestamp) (n : nat) : timestamp := t.

(** The first student submitted after 30 minutes. *)
Definition submitted_attempt : ExamAttempt :=
  {| ea_id := 100; ea_exam := exam; ea_student := 7;
     ea_start_time := minutes 5; ea_submit_time := Some (minutes 30);
     ea_status := submitted; ea_total_score := Some 1000;
     ea_obtained_score := Some 1000 |}.

Definition db_submitted : DB :=
  {| exams := [exam]; questions := [question];
     attempts := [attempt 101 student2; submitted_attempt];
     answers := [answer 100 (JStr "1"); answer 101 (JStr "2")];
     results := []; extensions := [extension] |}.

(** An exam of one essay question, submitted and not yet graded. *)
Definition essay : Question :=
  {| q_id := 3; q_exam := 1; q_type := descriptive; q_points := 1000;
     q_options := []; q_correct_answers := [] |}.

Definition db_essay : DB :=
  {| exams := [exam]; questions := [essay]; attempts := [submitted_attempt];
     answers := [{| an_attempt := 100; an_question := essay;
                    an_answer := JStr "An essay."; an_code := None;
                    an_score := None; an_evaluated_by := None;
                    an_feedback := None |}];
     results := []; extensions := [] |}.

(** Storage errors at every write of an answer or a result of attempt [k]. *)
Definition grading_fails_for (k : uuid) (t : table) (k' : uuid) (n : nat) : bool :=
  bool_decide (t <> Attempts) && (k' =? k)%N.

(** Ten minutes after the end of the exam, with storage errors while the
    second student's attempt is graded. *)
Definition env_failing : Env :=
  {| now_at := clock_at (minutes 70); fault_at := grading_fails_for 101;
     to_uuid := conv |}.

(** Ten minutes after the end of the exam, without storage errors. *)
Definition env_late : Env := reliable (clock_from (minutes 70)) conv.

(** A storage error at the [n0]-th write, when it is a write of attempt [k]
    to the attempts table. *)
Definition attempt_save_fails (k : uuid) (n0 : nat) (t : table) (k' : uuid) (n : nat)
  : bool :=
  bool_decide (t = Attempts) && (k' =? k)%N && (n =? n0)%nat.

(** Ten minutes after the end of the exam, with a storage error when the
    scores of the second student's attempt are saved: the third write of the
    sweep, after the status of the attempt and its one answer. *)
Definition env_scores_refused : Env :=
  {| now_at := clock_at (minutes 70); fault_at := attempt_save_fails 101 2;
     to_uuid := conv |}.

(** An exam whose total marks were lowered to 1.00 after its question of
    10.00 points was written. *)
Definition lowered_exam : Exam :=
  {| e_id := 2; e_start_time := 0; e_end_time := minutes 60;
     e_total_marks := 100; e_passing_marks := 40; e_is_published := true;
     e_allowed_departments := JList [] |}.

Definition lowered_question : Question :=
  {| q_id := 4; q_exam := 2; q_type := mcq; q_points := 1000;
     q_options := [JDict [("id", JInt 1); ("isCorrect", JBool true)]];
     q_correct_answers := [] |}.

Definition lowered_attempt : ExamAttempt :=
  {| ea_id := 200; ea_exam := lowered_exam; ea_student := 7;
     ea_start_time := minutes 5; ea_submit_time := None;
     ea_status := in_progress; ea_total_score := None;
     ea_obtained_score := None |}.

(** The first student sits the lowered exam and answered its question
    correctly, which gives 1000 percent; the second sits the other exam. *)
Definition db_lowered : DB :=
  {| exams := [exam; lowered_exam]; questions := [question; lowered_question];
     attempts := [lowered_attempt; attempt 101 student2];
     answers := [{| an_attempt := 200; an_question := lowered_question;
                    an_answer := JStr "1"; an_code := None; an_score := None;
                    an_evaluated_by := None; an_feedback := None |};
                 answer 101 (JStr "2")];
     results := []; extensions := [] |}.

End Scenario.

(** * Further definitions *)

(** ** Further vocabulary of the grading engine *)

(** The tokens one entry of an answer list contributes in
    [_tokens_from_answer]. *)
Definition item_tokens (item : json) : tokens :=
  match item with
  | JNull => ∅
  | JDict d =>
      fold_left
        (fun acc key =>
           if is_none (dict_get key d) then acc
           else {[ _norm_token (dict_get key d) ]} ∪ acc)
        ["id"; "value"; "text"; "answer"] ∅
  | _ => {[ _norm_token item ]}
  end.

(** An option of a question that is flagged correct. *)
Definition flagged_correct (d : list (string * json)) : bool :=
  _is_true (dict_get "isCorrect" d) || _is_true (dict_get "is_correct" d).

(** The order of the grading statuses. *)
Definition grading_rank (g : grading_status) : nat :=
  match g with
  | grading_pending => 0
  | partially_graded => 1
  | fully_graded => 2
  end.

(** A payload that is one text, number or truth value. *)
Definition is_scalar (v : json) : bool :=
  match v with
  | JBool _ | JInt _ | JStr _ => true
  | _ => false
  end.

(** A text is trimmed on the left when it does not start with a blank. *)
Definition starts_solid (s : string) : Prop :=
  match s with
  | EmptyString => True
  | String c _ => Py.is_space c = false
  end.


(** ** Further scenarios *)

Module Sample.

(** A single-choice question whose second option is the correct one. *)
Definition capital_question : Question :=
  {| q_id := 4; q_exam := 1; q_type := mcq; q_points := 500;
     q_options := [JDict [("text", JStr "Paris")];
                   JDict [("text", JStr "Rome"); ("isCorrect", JBool true)]];
     q_correct_answers := [] |}.

(** A multi-select question with an explicit answer key. *)
Definition primes_question : Question :=
  {| q_id := 5; q_exam := 1; q_type := multiple_mcq; q_points := 300;
     q_options := [];
     q_correct_answers := [JInt 2; JStr "Three"; JStr " 5 "] |}.

(** Two essay answers of one attempt, the first one graded. *)
Definition essay_answer (q : uuid) (score : option Decimal) : Answer :=
  {| an_attempt := 100;
     an_question := {| q_id := q; q_exam := 1; q_type := descriptive;
                       q_points := 500; q_options := []; q_correct_answers := [] |};
     an_answer := JStr "An essay."; an_code := None; an_score := score;
     an_evaluated_by := None; an_feedback := None |}.

Definition two_essays : list Answer :=
  [essay_answer 6 (Some 400); essay_answer 7 None].

(** The first student submits and a grader then tries to give the answer
    more than the points of its question. *)
Definition submit_then_grade : list operation :=
  [Start Scenario.student2 1 102;
   Save Scenario.student 1 (JDict [("questionId", JInt 1); ("answer", JNull)]);
   Submit Scenario.student 1 JNull;
   GradeAnswer 9 100 (JInt 1) 2000 "Generous";
   SweepCommand;
   Recompute 1].

(** Ten minutes into the exam, without storage errors. *)
Definition env_early : Env :=
  reliable (Scenario.clock_from (minutes 10)) Scenario.conv.

(** The essay scenario after the results of the exam were generated: the
    one result is pending. *)
Definition db_essay_pending : DB :=
  db (snd (StaffExamViewSet.finalize_results 1 Scenario.env_late
             (world_of Scenario.db_essay))).

(** An exam of three single-choice questions of one point each. *)
Definition thirds_exam : Exam :=
  {| e_id := 3; e_start_time := 0; e_end_time := minutes 60;
     e_total_marks := 300; e_passing_marks := 200; e_is_published := true;
     e_allowed_departments := JList [] |}.

Definition thirds_question (k : uuid) : Question :=
  {| q_id := k; q_exam := 3; q_type := mcq; q_points := 100;
     q_options := [JDict [("id", JInt 1); ("isCorrect", JBool true)]];
     q_correct_answers := [] |}.

Definition thirds_answer (k : uuid) (v : json) : Answer :=
  {| an_attempt := 300; an_question := thirds_question k; an_answer := v;
     an_code := None; an_score := None; an_evaluated_by := None;
     an_feedback := None |}.

(** The first student sits it and has two of the three answers right. *)
Definition db_thirds_sitting : DB :=
  {| exams := [thirds_exam];
     questions := [thirds_question 31; thirds_question 32; thirds_question 33];
     attempts := [{| ea_id := 300; ea_exam := thirds_exam; ea_student := 7;
                     ea_start_time := minutes 5; ea_submit_time := None;
                     ea_status := in_progress; ea_total_score := None;
                     ea_obtained_score := None |}];
     answers := [thirds_answer 31 (JStr "1"); thirds_answer 32 (JStr "1");
                 thirds_answer 33 (JStr "2")];
     results := []; extensions := [] |}.

(** The same after the student submitted, ten minutes into the exam. *)
Definition db_thirds : DB :=
  db (snd (StudentSubmitExamView.create Scenario.student 3 JNull env_early
             (world_of db_thirds_sitting))).

(** A grader evaluates the first answer, the results are generated and the
    command sweeps. *)
Definition grade_and_recompute : list operation :=
  [GradeAnswer 9 300 (JInt 31) 50 "Half"; Recompute 3; SweepCommand].

End Sample.

(** ** Further vocabulary of the department check *)

(** A text of lower-case letters, digits and blanks without two blanks in a
    row; [gap] tells that the character before was a blank. *)
Fixpoint spaced (gap : bool) (s : string) : bool :=
  match s with
  | EmptyString => true
  | String c r =>
      if Text.is_alnum_lower c then spaced false r
      else Ascii.eqb c " "%char && negb gap && spaced true r
  end.

(** The markers that open an exam to every department. *)
Definition is_wildcard (norm : string) : bool :=
  existsb (String.eqb norm) ["all"; "any"; "everyone"; "*"].

(** ** Properties of the rows of the tables *)

(** Every question, attempt, answer and result row satisfies its property. *)
Definition rows_satisfy (PQ : Question -> Prop) (PE : ExamAttempt -> Prop)
    (PA : Answer -> Prop) (PR : Result -> Prop) (d : DB) : Prop :=
  Forall PQ (questions d) /\ Forall PE (attempts d)
  /\ Forall PA (answers d) /\ Forall PR (results d).

(** The score of an answer, when it has one, lies between 0 and the points
    of its question. *)
Definition score_in_range (a : Answer) : Prop :=
  0 <= q_points (an_question a)
  /\ forall s, an_score a = Some s -> 0 <= s <= q_points (an_question a).

(** No question has negative points, every score lies within the points of
    its question, and no attempt or result holds negative obtained marks. *)
Definition scores_in_range (d : DB) : Prop :=
  rows_satisfy (fun q => 0 <= q_points q)
    (fun a => forall s, ea_obtained_score a = Some s -> 0 <= s)
    score_in_range
    (fun r => 0 <= r_obtained_marks r) d.

(** No stored answer is JSON null. *)
Definition answers_not_null (d : DB) : Prop :=
  Forall (fun a => an_answer a <> JNull) (answers d).

(** An attempt has a submit time exactly when it is not in progress. *)
Definition submit_time_marks_terminal (d : DB) : Prop :=
  Forall (fun a => ea_submit_time a = None <-> ea_status a = in_progress)
    (attempts d).

(** The percentage the code computes from the marks of a result. *)
Definition computed_percentage (r : Result) : Q :=
  if 0 <? r_total_marks r
  then Dec.percent (r_obtained_marks r) (r_total_marks r) else 0%Q.

(** A result row agrees with itself: its status is pending exactly when it
    is not fully graded, its percentage is the one computed from its marks,
    taken to two places, and that percentage and its obtained marks have no
    more digits than their columns. *)
Definition result_consistent (r : Result) : Prop :=
  (r_status r = pending <-> r_grading_status r <> fully_graded)
  /\ r_percentage r = Dec.of_hundredths (Dec.quantize2 (computed_percentage r))
  /\ Dec.fits 5 (Dec.quantize2 (computed_percentage r)) = true
  /\ Dec.fits 10 (r_obtained_marks r) = true.

Definition results_consistent (d : DB) : Prop :=
  Forall result_consistent (results d).

(** ** What saving answers may change *)

(** The columns of an answer that graders and the grading engine own. *)
Definition marking (a : Answer)
  : uuid * Question * option Decimal * option uuid * option string :=
  (an_attempt a, an_question a, an_score a, an_evaluated_by a, an_feedback a).

(** [d'] differs from [d] at most in the answer and code columns of the
    answers table. *)
Definition only_answers_edited (d d' : DB) : Prop :=
  exams d' = exams d /\ questions d' = questions d /\ attempts d' = attempts d
  /\ results d' = results d /\ extensions d' = extensions d
  /\ map marking (answers d') = map marking (answers d).

(** ** The rows a start creates *)

(** The attempt [ExamAttempt.objects.create] stores. *)
Definition new_attempt (new_id : uuid) (exam : Exam) (student : uuid)
    (start_time : timestamp) : ExamAttempt :=
  {| ea_id := new_id; ea_exam := exam; ea_student := student;
     ea_start_time := start_time; ea_submit_time := None;
     ea_status := in_progress;
     ea_total_score := None; ea_obtained_score := None |}.

(** The answer [Answer.objects.create] stores for a question. *)
Definition unanswered (attempt_id : uuid) (question : Question) : Answer :=
  {| an_attempt := attempt_id; an_question := question;
     an_answer := JDict []; an_code := None; an_score := None;
     an_evaluated_by := None; an_feedback := None |}.

(** ** Exam lists and labels ([exams/serializers.py], [exams/views.py]) *)

Module ExamListSerializer.

(** [get_status(obj)]; [ExamDetailSerializer.get_status] has the same
    body. *)
Definition get_status (obj : Exam) : M string :=
  do now <- timezone_now;
  if now <? e_start_time obj then ret "upcoming"
  else if e_end_time obj <? now then ret "completed"
  else ret "ongoing".

(** [get_has_attempted(obj)] for the authenticated [user] of the request. *)
Definition get_has_attempted (user : User) (obj : Exam) : M bool :=
  do existing <- query (attempts_of_pair (e_id obj) (u_id user));
  ret (match existing with [] => false | _ => true end).

End ExamListSerializer.

Module ExamDetailSerializer.

(** [get_remaining_time(obj)] *)
Definition get_remaining_time (obj : Exam) : M (option Z) :=
  do now <- timezone_now;
  if now <? e_start_time obj then ret None
  else if e_end_time obj <? now then ret (Some 0)
  else ret (Some (whole_seconds (e_end_time obj - now))).

End ExamDetailSerializer.

Module ExamCreateUpdateSerializer.

(** [validate(attrs)], on the two times of [attrs]. *)
Definition validate (start_time end_time : timestamp) : M (timestamp * timestamp) :=
  if end_time <=? start_time then raise ValidationError
  else ret (start_time, end_time).

End ExamCreateUpdateSerializer.

(** The exams open to the department of [user]. *)
Definition allowed_for (user : User) (exam : Exam) : bool :=
  is_department_allowed (u_department user) (e_allowed_departments exam).

Module StudentExamListView.

(** [get_queryset()]; [status_filter] is the [status] query parameter.
    [distinct()] changes nothing on rows of one table, whose keys differ. *)
Definition get_queryset (user : User) (status_filter : option string)
  : M (list Exam) :=
  do now <- timezone_now;
  do exams <- query (fun d => List.filter e_is_published (exams d));
  let filtered_exams := map e_id (List.filter (allowed_for user) exams) in
  let exams :=
    match filtered_exams with
    | [] => []
    | _ => List.filter (fun exam => existsb (N.eqb (e_id exam)) filtered_exams) exams
    end in
  if bool_decide (status_filter = Some "upcoming")
  then ret (List.filter (fun exam => now <? e_start_time exam) exams)
  else if bool_decide (status_filter = Some "ongoing")
  then ret (List.filter (fun exam => (e_start_time exam <=? now)
                                     && (now <=? e_end_time exam)) exams)
  else if bool_decide (status_filter = Some "completed")
  then ret (List.filter (fun exam => e_end_time exam <? now) exams)
  else ret exams.

End StudentExamListView.

Module StudentExamDetailView.

(** [get_queryset()] *)
Definition get_queryset (user : User) : M (list Exam) :=
  do now <- timezone_now;
  do exams <- query (fun d => List.filter
                                (fun exam => e_is_published exam
                                             && (now <=? e_end_time exam))
                                (exams d));
  let allowed_ids := map e_id (List.filter (allowed_for user) exams) in
  match allowed_ids with
  | [] => ret []
  | _ => ret (List.filter (fun exam => existsb (N.eqb (e_id exam)) allowed_ids) exams)
  end.

End StudentExamDetailView.

(** The primary key of the exams table. *)
Definition exams_pk (d : DB) : Prop := NoDup (map e_id (exams d)).

(** The condition a value of the [status] parameter puts on an exam. *)
Definition in_phase (phase : string) (now : timestamp) (exam : Exam) : bool :=
  if String.eqb phase "upcoming" then now <? e_start_time exam
  else if String.eqb phase "ongoing"
  then (e_start_time exam <=? now) && (now <=? e_end_time exam)
  else if String.eqb phase "completed" then e_end_time exam <? now
  else true.

(** ** Results as students see them ([exams/views.py]) *)

Module StudentMyResultsView.

(** [get_queryset()]: the published results of the student. *)
Definition get_queryset (user : User) : M (list Result) :=
  query (fun d => List.filter (fun r => (r_student r =? u_id user)%N && r_is_published r)
                    (results d)).

End StudentMyResultsView.

Module StudentExamResultView.

(** [get_object()]; [None] stands for the [Http404] it raises when the
    student has no result for the exam. *)
Definition get_object (user : User) (exam_id : uuid) : M (option Result) :=
  do found <- query (fun d => List.filter
                                (fun r => (r_exam r =? exam_id)%N
                                          && (r_student r =? u_id user)%N)
                                (results d));
  match found with
  | [] => ret None
  | [result] => ret (Some result)
  | _ => raise MultipleObjectsReturned
  end.

End StudentExamResultView.

(** One result per (exam, student) ([Meta.unique_together] of [Result]). *)
Definition result_pair (r : Result) : uuid * uuid := (r_exam r, r_student r).

Definition results_pair_unique (d : DB) : Prop :=
  NoDup (map result_pair (results d)).

(** ** Staff requests ([exams/views.py])

    The user of a staff request is its key and its role. The exam record
    leaves the column [created_by] out; the views that check it take it as
    the function [created_by] from the exam row to the key of its creator. *)

Record Staff := { st_id : uuid; st_role : string }.

(** [exam.created_by != request.user and request.user.role != 'admin'] *)
Definition permission_denied (created_by : Exam -> uuid) (user : Staff) (exam : Exam)
  : bool :=
  negb (created_by exam =? st_id user)%N && negb (String.eqb (st_role user) "admin").

(** [v == s] for a text [s]. *)
Definition eq_text (v : json) (s : string) : bool :=
  match v with
  | JStr x => String.eqb x s
  | _ => false
  end.

Definition with_published (r : Result) (published : bool) : Result :=
  {| r_attempt := r_attempt r; r_exam := r_exam r; r_student := r_student r;
     r_total_marks := r_total_marks r; r_obtained_marks := r_obtained_marks r;
     r_percentage := r_percentage r; r_status := r_status r;
     r_grading_status := r_grading_status r; r_is_published := published;
     r_submitted_at := r_submitted_at r |}.

(** [exam.results.all()] *)
Definition exam_results (exam_id : uuid) (d : DB) : list Result :=
  List.filter (fun r => (r_exam r =? exam_id)%N) (results d).

(** [exam.results.update(is_published=...)]: one write, on the rows of the
    exam. *)
Definition update_published (exam_id : uuid) (published : bool) : M unit :=
  write Results exam_id
    (set_results (map (fun r => if (r_exam r =? exam_id)%N
                                then with_published r published else r))).

Definition is_fully_graded (r : Result) : bool :=
  bool_decide (r_grading_status r = fully_graded).

Module StaffBulkPublishResultsView.

(** [action] is [request.data.get('action')]. *)
Definition create (created_by : Exam -> uuid) (user : Staff) (exam_id : uuid)
    (action : json) : M Response :=
  do exam <- query (fun d => head (List.filter (fun e => (e_id e =? exam_id)%N) (exams d)));
  match exam with
  | None => ret (error "Exam not found" 404)
  | Some exam =>
      if permission_denied created_by user exam
      then ret (error "Permission denied" 403)
      else if eq_text action "publish" then
        do results <- query (exam_results (e_id exam));
        let not_graded :=
          length (List.filter (fun r => negb (is_fully_graded r)) results) in
        if (0 <? not_graded)%nat
        then ret {| data := JDict
                      [("error", JStr ("Cannot publish: "
                                       ++ Py.str_int (Z.of_nat not_graded)
                                       ++ " student(s) still need grading. Please grade all students before publishing."));
                       ("ungraded_count", JInt (Z.of_nat not_graded))];
                    status := 400 |}
        else
          run update_published (e_id exam) true;
          ret {| data := JDict [("success", JBool true);
                                ("message", JStr "All results published successfully")];
                 status := 200 |}
      else if eq_text action "unpublish" then
        run update_published (e_id exam) false;
        ret {| data := JDict [("success", JBool true);
                              ("message", JStr "All results unpublished successfully")];
               status := 200 |}
      else ret (error "Invalid action" 400)
  end.

End StaffBulkPublishResultsView.

(** [str(v)] for a two-place decimal. *)
Definition two_digits (n : Z) : string :=
  (if n <? 10 then "0" else "") ++ Py.str_int n.

Definition str_decimal (v : Decimal) : string :=
  (if v <? 0 then "-" else "") ++ Py.str_int (Z.abs v / 100) ++ "."
  ++ two_digits (Z.abs v mod 100).

Module QuestionEvaluationSerializer.

(** [validate_score(value)] *)
Definition validate_score (value : Decimal) : M Decimal :=
  if value <? 0 then raise ValidationError else ret value.

End QuestionEvaluationSerializer.

Module StaffQuestionEvaluateView.

(** [score] and [feedback] are the data of the request as the fields of
    [QuestionEvaluationSerializer] read them, [attempt_id] is
    [request.data.get('attempt_id')]; the body of the success response is
    given without the key of the answer, which the answer record leaves out,
    and without the score as a float. *)
Definition create (created_by : Exam -> uuid) (user : Staff)
    (exam_id question_id : uuid) (score : Decimal) (feedback : string)
    (attempt_id : json) : M Response :=
  do exam <- query (fun d => head (List.filter (fun e => (e_id e =? exam_id)%N) (exams d)));
  match exam with
  | None => ret (error "Exam not found" 404)
  | Some exam =>
      if permission_denied created_by user exam
      then ret (error "Permission denied" 403)
      else
        do question <-
          query (fun d => head (List.filter
                                  (fun q => (q_id q =? question_id)%N
                                            && (q_exam q =? e_id exam)%N)
                                  (questions d)));
        match question with
        | None => ret (error "Question not found" 404)
        | Some question =>
            do score <- QuestionEvaluationSerializer.validate_score score;
            if q_points question <? score
            then ret (error ("Score cannot exceed "
                             ++ str_decimal (q_points question) ++ " points") 400)
            else if truthy attempt_id then
              do key <- convert_uuid attempt_id;
              do found <- query (answers_for key question_id);
              match found with
              | [] => ret (error "Answer not found" 404)
              | [answer] =>
                  let answer := evaluated answer score feedback (st_id user) in
                  run save_answer answer;
                  do attempt <- attempt_of answer;
                  do _ <- calculate_exam_result attempt;
                  ret {| data := JDict
                           [("success", JBool true);
                            ("message", JStr "Question evaluated successfully");
                            ("feedback", JStr feedback)];
                         status := 200 |}
              | _ => raise MultipleObjectsReturned
              end
            else ret (error "attempt_id is required" 400)
        end
  end.

End StaffQuestionEvaluateView.

(** Every answer holds a question row of the table, and question keys are
    distinct. *)
Definition questions_consistent (d : DB) : Prop :=
  NoDup (map q_id (questions d))
  /\ forall a, In a (answers d) -> In (an_question a) (questions d).



(** * Properties *)

Section Keeps.

Context (I : DB -> Prop).

Lemma keeps_ret {A} (a : A) (Q : A -> Prop) : Q a -> keeps I (ret a) Q.
Proof. intros HQ env w HI. split; [exact HI|]. intros b [= <-]. exact HQ. Qed.

Lemma keeps_raise {A} (e : exn) (Q : A -> Prop) : keeps I (raise e) Q.
Proof. intros env w HI. split; [exact HI|]. intros b Hb. discriminate Hb. Qed.

Lemma keeps_bind {A B} (m : M A) (k : A -> M B) (Q : A -> Prop) (R : B -> Prop) :
  keeps I m Q -> (forall a, Q a -> keeps I (k a) R) -> keeps I (bind m k) R.
Proof.
  intros Hm Hk env w HI. unfold bind.
  destruct (Hm env w HI) as [HI' HQ].
  destruct (m env w) as [[a|e] w']; simpl in *.
  - apply Hk; [apply HQ; reflexivity | exact HI'].
  - split; [exact HI'|]. intros b Hb. discriminate Hb.
Qed.

Lemma keeps_weaken {A} (m : M A) (Q R : A -> Prop) :
  keeps I m Q -> (forall a, Q a -> R a) -> keeps I m R.
Proof.
  intros Hm HQR env w HI. destruct (Hm env w HI) as [HI' HQ].
  split; [exact HI'|]. intros a Ha. apply HQR, HQ, Ha.
Qed.

Lemma keeps_try {A} (m : M A) (h : exn -> M A) (Q : A -> Prop) :
  keeps I m Q -> (forall e, keeps I (h e) Q) -> keeps I (try_except m h) Q.
Proof.
  intros Hm Hh env w HI. unfold try_except.
  destruct (Hm env w HI) as [HI' HQ].
  destruct (m env w) as [[a|e] w']; simpl in *.
  - split; [exact HI'|]. intros b [= <-]. apply HQ. reflexivity.
  - apply Hh. exact HI'.
Qed.

Lemma keeps_now : keeps I timezone_now (fun _ => True).
Proof. intros env w HI. split; [exact HI|]. intros; exact Logic.I. Qed.

Lemma keeps_query {A} (f : DB -> A) (Q : A -> Prop) :
  (forall d, I d -> Q (f d)) -> keeps I (query f) Q.
Proof. intros Hf env w HI. split; [exact HI|]. intros a [= <-]. apply Hf, HI. Qed.

Lemma keeps_write (t : table) (k : uuid) (f : DB -> DB) :
  (forall d, I d -> I (f d)) -> keeps I (write t k f) (fun _ => True).
Proof.
  intros Hf env w HI. unfold write.
  destruct (fault_at env t k (writes w)); simpl; split; auto.
Qed.

Lemma keeps_convert (v : json) : keeps I (convert_uuid v) (fun _ => True).
Proof.
  intros env w HI. unfold convert_uuid.
  destruct (to_uuid env v); simpl; split; auto.
Qed.

Lemma keeps_for_fold {A S} (l : list A) (body : S -> A -> M S) (Inv : S -> Prop) :
  (forall s x, In x l -> Inv s -> keeps I (body s x) Inv) ->
  forall s, Inv s -> keeps I (for_fold l body s) Inv.
Proof.
  induction l as [|x l IH]; intros Hbody s Hs; simpl.
  - apply keeps_ret. exact Hs.
  - eapply keeps_bind.
    + apply Hbody; [left; reflexivity | exact Hs].
    + intros s' Hs'. apply IH; [|exact Hs'].
      intros s'' y Hy. apply Hbody. right. exact Hy.
Qed.

Lemma keeps_for_each {A} (l : list A) (body : A -> M unit) :
  (forall x, In x l -> keeps I (body x) (fun _ => True)) ->
  keeps I (for_each l body) (fun _ => True).
Proof.
  induction l as [|x l IH]; intros Hbody; simpl.
  - apply keeps_ret; exact Logic.I.
  - eapply keeps_bind.
    + apply Hbody. left. reflexivity.
    + intros _ _. apply IH. intros y Hy. apply Hbody. right. exact Hy.
Qed.

End Keeps.

Ltac keeps_done := apply keeps_ret; exact Logic.I.

(** One step of a sequence: the first action by lemma [lem]. *)
Ltac keeps_step lem := eapply keeps_bind; [apply lem|].

Lemma keeps_query_any {A} (I : DB -> Prop) (f : DB -> A) :
  keeps I (query f) (fun _ => True).
Proof. apply keeps_query. intros; exact Logic.I. Qed.

Lemma keeps_any {A} (m : M A) : keeps (fun _ => True) m (fun _ => True).
Proof. intros env w _. split; auto. Qed.

Lemma keeps_to_column (I : DB -> Prop) (max_digits v : Z) :
  keeps I (to_column max_digits v) (fun _ => Dec.fits max_digits v = true).
Proof.
  unfold to_column. destruct (Dec.fits max_digits v);
    [apply keeps_ret; reflexivity | apply keeps_raise].
Qed.

Lemma keeps_result_row (I : DB -> Prop) (r : Result) :
  keeps I (result_row r) (fun row => row = as_stored r /\ fits_columns r = true).
Proof.
  unfold result_row, fits_columns.
  eapply keeps_bind; [apply keeps_to_column|]. intros _ ->.
  eapply keeps_bind; [apply keeps_to_column|]. intros _ ->.
  apply keeps_ret. auto.
Qed.

(** ** Pass, fail and pending *)

Lemma update_or_create_result_fields (i : uuid) (defaults : Result) :
  keeps (fun _ => True) (update_or_create_result i defaults)
    (fun r => r_status r = r_status defaults
              /\ r_grading_status r = r_grading_status defaults
              /\ r_obtained_marks r = r_obtained_marks defaults).
Proof.
  unfold update_or_create_result.
  eapply keeps_bind; [apply keeps_any|].
  intros rows _. destruct rows as [|old [|]].
  - do 2 (eapply keeps_bind; [apply keeps_any|]; intros ? _). apply keeps_ret. auto.
  - do 2 (eapply keeps_bind; [apply keeps_any|]; intros ? _). apply keeps_ret. auto.
  - apply keeps_raise.
Qed.

Lemma calculate_exam_result_status (attempt : ExamAttempt) :
  keeps (fun _ => True) (calculate_exam_result attempt)
    (fun ra => consistent_status (e_passing_marks (ea_exam attempt)) (fst ra)).
Proof.
  unfold calculate_exam_result.
  eapply keeps_bind; [apply keeps_any|]. intros answers0 _.
  eapply keeps_bind; [apply keeps_any|]. intros answers1 _.
  eapply keeps_bind; [apply keeps_any|]. intros _ _.
  eapply keeps_bind; [apply keeps_any|]. intros _ _.
  eapply keeps_bind; [apply keeps_any|]. intros t _.
  eapply keeps_bind; [apply update_or_create_result_fields|].
  intros r (Hs & Hg & Ho). apply keeps_ret. unfold consistent_status. simpl in *.
  rewrite Hs, Hg, Ho. reflexivity.
Qed.

(** C5. For every result returned by [calculate_exam_result]: when it is
    fully graded its status is pass exactly when the obtained marks reach the
    passing marks of the exam, and fail otherwise; when it is not fully graded
    its status is pending. This holds whatever the clock and the storage
    errors. *)
Theorem result_status_by_grading (env : Env) (w w' : World)
    (attempt attempt' : ExamAttempt) (r : Result) :
  calculate_exam_result attempt env w = (Ok (r, attempt'), w') ->
  (r_grading_status r = fully_graded ->
     (r_status r = pass <-> e_passing_marks (ea_exam attempt) <= r_obtained_marks r)
     /\ (r_status r = fail <-> r_obtained_marks r < e_passing_marks (ea_exam attempt)))
  /\ (r_grading_status r <> fully_graded -> r_status r = pending).
Proof.
  intros Hrun.
  destruct (calculate_exam_result_status attempt env w Logic.I) as [_ H].
  specialize (H (r, attempt')). rewrite Hrun in H. specialize (H eq_refl).
  unfold consistent_status in H. simpl in H. rewrite H. clear H.
  unfold result_status_of. split.
  - intros ->. destruct (Z.leb_spec (e_passing_marks (ea_exam attempt)) (r_obtained_marks r)).
    + split; split; intros; try reflexivity; try discriminate; try lia.
    + split; split; intros; try reflexivity; try discriminate; try lia.
  - intros Hg. destruct (r_grading_status r); try reflexivity. congruence.
Qed.

(** ** Terminal states are final *)

Lemma head_In {A} (l : list A) (a : A) : head l = Some a -> In a l.
Proof. destruct l; simpl; [discriminate|]. intros [= ->]. left. reflexivity. Qed.

Lemma same_attempt_eq (a b : ExamAttempt) :
  same_attempt a b = true <-> ea_id a = ea_id b.
Proof. unfold same_attempt. apply N.eqb_eq. Qed.

Section Final.

Variables (i : uuid) (s : attempt_status).
Hypothesis s_terminal : terminal s = true.

Local Abbreviation I := (status_is i s).

Lemma status_is_row (d : DB) (a : ExamAttempt) :
  I d -> In a (attempts d) -> safe_for i s a.
Proof.
  intros [_ Hall] Hin. destruct (N.eq_dec (ea_id a) i) as [He|Hne].
  - right. apply Hall; assumption.
  - left. exact Hne.
Qed.

Lemma status_is_in_progress (d : DB) (a : ExamAttempt) :
  I d -> In a (attempts d) -> ea_status a = in_progress -> ea_id a <> i.
Proof.
  intros HI Hin Hst He. destruct HI as [_ Hall].
  rewrite (Hall a Hin He) in Hst. rewrite Hst in s_terminal. discriminate.
Qed.

Lemma status_is_save (obj : ExamAttempt) (d : DB) :
  safe_for i s obj -> I d -> I (set_attempts (save_attempt_rows obj) d).
Proof.
  intros Hsafe [[r [Hr Hri]] Hall]. unfold status_is, save_attempt_rows. simpl.
  destruct (existsb (same_attempt obj) (attempts d)) eqn:Hex.
  - split.
    + destruct (same_attempt obj r) eqn:Hsame.
      * exists obj. split.
        -- apply in_map_iff. exists r. rewrite Hsame. auto.
        -- apply same_attempt_eq in Hsame. congruence.
      * exists r. split; [|exact Hri].
        apply in_map_iff. exists r. rewrite Hsame. auto.
    + intros r' Hr' Hi'. apply in_map_iff in Hr' as (r0 & Hr0 & Hin0).
      destruct (same_attempt obj r0); subst r'.
      * destruct Hsafe as [Hne|Hs]; [contradiction|exact Hs].
      * apply Hall; assumption.
  - split.
    + exists r. split; [right; exact Hr | exact Hri].
    + intros r' [<-|Hr'] Hi'.
      * destruct Hsafe as [Hne|Hs]; [contradiction|exact Hs].
      * apply Hall; assumption.
Qed.

Lemma keeps_save_attempt (obj : ExamAttempt) :
  safe_for i s obj -> keeps I (save_attempt obj) (fun _ => True).
Proof. intros Hsafe. apply keeps_write. intros d. apply status_is_save, Hsafe. Qed.

Lemma keeps_answers_write (k : uuid) (f : list Answer -> list Answer) :
  keeps I (write Answers k (set_answers f)) (fun _ => True).
Proof. apply keeps_write. intros d Hd. exact Hd. Qed.

Lemma keeps_results_write (k : uuid) (f : list Result -> list Result) :
  keeps I (write Results k (set_results f)) (fun _ => True).
Proof. apply keeps_write. intros d Hd. exact Hd. Qed.

Lemma keeps_grade_answers (l : list Answer) :
  keeps I (grade_answers l) (fun _ => True).
Proof.
  induction l as [|a l IH]; simpl.
  - keeps_done.
  - eapply keeps_bind with (Q := fun _ => True).
    + unfold grade_answer.
      destruct (q_type (an_question a));
        try (keeps_done);
        (eapply keeps_bind; [apply keeps_answers_write|]; intros _ _;
         keeps_done).
    + intros a' _. eapply keeps_bind; [exact IH|]. intros l' _.
      keeps_done.
Qed.

Lemma keeps_update_or_create (k : uuid) (defaults : Result) :
  keeps I (update_or_create_result k defaults) (fun _ => True).
Proof.
  unfold update_or_create_result.
  eapply keeps_bind; [apply keeps_query_any|]. intros rows _.
  destruct rows as [|old [|]].
  - eapply keeps_bind; [apply keeps_result_row|]. intros row _.
    eapply keeps_bind; [apply keeps_results_write|]. intros _ _.
    keeps_done.
  - eapply keeps_bind; [apply keeps_result_row|]. intros row _.
    eapply keeps_bind; [apply keeps_results_write|]. intros _ _.
    keeps_done.
  - apply keeps_raise.
Qed.

Lemma keeps_calculate (obj : ExamAttempt) :
  safe_for i s obj -> keeps I (calculate_exam_result obj) (fun _ => True).
Proof.
  intros Hsafe. unfold calculate_exam_result.
  eapply keeps_bind; [apply keeps_query_any|]. intros answers0 _.
  eapply keeps_bind; [apply keeps_grade_answers|]. intros answers1 _.
  eapply keeps_bind; [apply keeps_to_column|]. intros _ _.
  eapply keeps_bind; [apply keeps_save_attempt; exact Hsafe|]. intros _ _.
  eapply keeps_bind with (Q := fun _ => True).
  { simpl. destruct (ea_submit_time obj); [keeps_done|apply keeps_now]. }
  intros t _.
  eapply keeps_bind; [apply keeps_update_or_create|]. intros r _.
  keeps_done.
Qed.

Lemma safe_finalized (a : ExamAttempt) (st : attempt_status) (t : timestamp) :
  ea_id a <> i -> safe_for i s (finalized a st t).
Proof. intros H. left. exact H. Qed.

Lemma in_progress_attempts_other (d : DB) (a : ExamAttempt) :
  I d -> In a (in_progress_attempts d) -> ea_id a <> i.
Proof.
  intros HI Hin. apply filter_In in Hin as [Hin Hst].
  apply bool_decide_eq_true in Hst. eapply status_is_in_progress; eassumption.
Qed.

Lemma attempts_with_In (e u : uuid) (sts : list attempt_status) (d : DB)
    (a : ExamAttempt) :
  In a (attempts_with e u sts d) ->
  In a (attempts d) /\ ea_status a ∈ sts
  /\ e_id (ea_exam a) = e /\ ea_student a = u.
Proof.
  unfold attempts_with, attempts_of_pair. intros Hin.
  apply filter_In in Hin as [Hin Hst]. apply filter_In in Hin as [Hin Hp].
  apply bool_decide_eq_true in Hst. apply andb_true_iff in Hp as [He Hu].
  apply N.eqb_eq in He, Hu. auto.
Qed.

Lemma attempts_with_in_progress_other (e u : uuid) (d : DB) (a : ExamAttempt) :
  I d -> In a (attempts_with e u [in_progress] d) -> ea_id a <> i.
Proof.
  intros HI Hin. apply attempts_with_In in Hin as (Hin & Hst & _).
  apply list_elem_of_singleton in Hst. eapply status_is_in_progress; eassumption.
Qed.

Lemma keeps_sweep_task : keeps I auto_submit_expired_exams (fun _ => True).
Proof.
  unfold auto_submit_expired_exams.
  eapply keeps_bind; [apply keeps_now|]. intros now _.
  eapply keeps_bind with (Q := fun l => forall a, In a l -> ea_id a <> i).
  { apply keeps_query. intros d Hd a. apply in_progress_attempts_other, Hd. }
  intros l Hl. apply keeps_for_fold with (Inv := fun _ => True); [|exact Logic.I].
  intros count a Ha _.
  destruct (get_attempt_end_time a <? now); [|keeps_done].
  eapply keeps_bind; [apply keeps_save_attempt, safe_finalized, Hl, Ha|]. intros _ _.
  eapply keeps_bind; [apply keeps_calculate, safe_finalized, Hl, Ha|]. intros _ _.
  keeps_done.
Qed.

Lemma keeps_sweep_command : keeps I Command.handle (fun _ => True).
Proof.
  unfold Command.handle.
  eapply keeps_bind; [apply keeps_now|]. intros now _.
  eapply keeps_bind with (Q := fun l => forall a, In a l -> ea_id a <> i).
  { apply keeps_query. intros d Hd a. apply in_progress_attempts_other, Hd. }
  intros l Hl. apply keeps_for_fold with (Inv := fun _ => True); [|exact Logic.I].
  intros count a Ha _.
  destruct (get_attempt_end_time a <? now); [|keeps_done].
  eapply keeps_bind; [apply keeps_save_attempt, safe_finalized, Hl, Ha|]. intros _ _.
  apply keeps_try.
  - eapply keeps_bind; [apply keeps_calculate, safe_finalized, Hl, Ha|]. intros _ _.
    keeps_done.
  - intros e. keeps_done.
Qed.

Lemma keeps_persist (attempt : ExamAttempt) (payload : json) :
  keeps I (_persist_attempt_answers attempt payload) (fun _ => True).
Proof.
  unfold _persist_attempt_answers.
  apply keeps_for_fold with (Inv := fun _ => True); [|exact Logic.I].
  intros n item _ _.
  destruct (negb (truthy _)); [keeps_done|].
  eapply keeps_bind; [apply keeps_convert|]. intros key _.
  eapply keeps_bind; [apply keeps_query_any|]. intros found _.
  destruct found as [|answer [|]]; [keeps_done | | apply keeps_raise].
  destruct (dict_has "answer" item || dict_has "code" item);
    [|keeps_done].
  eapply keeps_bind; [apply keeps_answers_write|]. intros _ _.
  keeps_done.
Qed.

Lemma keeps_save_view (user : User) (exam_id : uuid) (payload : json) :
  keeps I (StudentSaveAnswerView.update user exam_id payload) (fun _ => True).
Proof.
  unfold StudentSaveAnswerView.update.
  eapply keeps_bind; [apply keeps_query_any|]. intros found _.
  destruct found as [|attempt [|]]; [keeps_done | | apply keeps_raise].
  eapply keeps_bind; [apply keeps_now|]. intros now _.
  destruct (_ <? now); [keeps_done|].
  destruct (_payload_answer_items payload); [keeps_done|].
  eapply keeps_bind; [apply keeps_persist|]. intros n _.
  eapply keeps_bind; [apply keeps_now|]. intros t _.
  keeps_done.
Qed.

Lemma keeps_submit_view (user : User) (exam_id : uuid) (payload : json) :
  keeps I (StudentSubmitExamView.create user exam_id payload) (fun _ => True).
Proof.
  unfold StudentSubmitExamView.create.
  eapply keeps_bind with (Q := fun o => forall a, o = Some a -> ea_id a <> i).
  { apply keeps_query. intros d Hd a Ha. apply head_In in Ha.
    eapply attempts_with_in_progress_other; eassumption. }
  intros [attempt|] Ha.
  - specialize (Ha attempt eq_refl).
    eapply keeps_bind; [apply keeps_persist|]. intros n _.
    eapply keeps_bind; [apply keeps_now|]. intros now _.
    eapply keeps_bind; [apply keeps_save_attempt, safe_finalized, Ha|]. intros _ _.
    eapply keeps_bind; [apply keeps_calculate, safe_finalized, Ha|]. intros _ _.
    keeps_done.
  - eapply keeps_bind; [apply keeps_query_any|]. intros [already|] _;
      keeps_done.
Qed.

Lemma keeps_create_attempt (new_id : uuid) (exam : Exam) (student : uuid)
    (t : timestamp) :
  keeps I (create_attempt new_id exam student t) (fun _ => True).
Proof.
  unfold create_attempt.
  set (attempt := {| ea_id := new_id |}).
  eapply keeps_bind with (Q := fun clash => clash = false -> new_id <> i).
  { apply keeps_query. intros d [[r [Hr Hri]] _] Hclash Hn.
    rewrite <- not_true_iff_false in Hclash. apply Hclash.
    apply existsb_exists. exists r. split; [exact Hr|].
    apply orb_true_iff. left. apply same_attempt_eq. simpl. congruence. }
  intros [|] Hclash; [apply keeps_raise|].
  eapply keeps_bind; [|intros _ _; keeps_done].
  apply keeps_write. intros d [[r [Hr Hri]] Hall]. split.
  - exists r. split; [right; exact Hr|exact Hri].
  - intros r' [<-|Hr'] Hi'; [|apply Hall; assumption].
    simpl in Hi'. exfalso. apply (Hclash eq_refl Hi').
Qed.

Lemma keeps_remaining (a : ExamAttempt) :
  keeps I (get_attempt_remaining_time a) (fun _ => True).
Proof.
  unfold get_attempt_remaining_time.
  eapply keeps_bind; [apply keeps_now|]. intros now _.
  destruct (_ <? now); keeps_done.
Qed.

Lemma keeps_eligibility (user : User) (exam : Exam) :
  keeps I (check_exam_eligibility user exam) (fun _ => True).
Proof.
  unfold check_exam_eligibility.
  eapply keeps_bind; [apply keeps_now|]. intros now _.
  repeat (match goal with |- keeps _ (if ?c then _ else _) _ => destruct c end;
          [keeps_done|]).
  eapply keeps_bind; [apply keeps_query_any|]. intros [|] _; keeps_done.
Qed.

Lemma keeps_create_answer (attempt : ExamAttempt) (q : Question) :
  keeps I (create_answer attempt q) (fun _ => True).
Proof.
  unfold create_answer.
  eapply keeps_bind; [apply keeps_query_any|]. intros [|] _; [apply keeps_raise|].
  apply keeps_answers_write.
Qed.

Lemma keeps_start_view (user : User) (exam_id new_id : uuid) :
  keeps I (StudentStartExamView.create user exam_id new_id) (fun _ => True).
Proof.
  unfold StudentStartExamView.create.
  eapply keeps_bind; [apply keeps_query_any|]. intros [exam|] _;
    [|keeps_done].
  eapply keeps_bind with (Q := fun o => forall a, o = Some a -> ea_id a <> i).
  { apply keeps_query. intros d Hd a Ha. apply head_In in Ha.
    eapply attempts_with_in_progress_other; eassumption. }
  intros [existing|] Ha.
  - specialize (Ha existing eq_refl).
    eapply keeps_bind; [apply keeps_remaining|]. intros remaining _.
    eapply keeps_bind with (Q := fun _ => True).
    { destruct (remaining <=? 0); [keeps_done|].
      eapply keeps_bind; [apply keeps_now|]. intros; keeps_done. }
    intros [|] _; [|keeps_done].
    eapply keeps_bind; [apply keeps_now|]. intros now _.
    eapply keeps_bind; [apply keeps_save_attempt, safe_finalized, Ha|]. intros _ _.
    eapply keeps_bind; [apply keeps_calculate, safe_finalized, Ha|]. intros _ _.
    keeps_done.
  - eapply keeps_bind; [apply keeps_query_any|]. intros [done|] _;
      [keeps_done|].
    eapply keeps_bind; [apply keeps_eligibility|]. intros eligible _.
    destruct (negb (fst eligible)); [keeps_done|].
    eapply keeps_bind; [apply keeps_now|]. intros t _.
    eapply keeps_bind; [apply keeps_create_attempt|]. intros attempt _.
    eapply keeps_bind; [apply keeps_remaining|]. intros remaining _.
    eapply keeps_bind; [apply keeps_query_any|]. intros qs _.
    eapply keeps_bind; [apply keeps_for_each; intros; apply keeps_create_answer|].
    intros _ _. keeps_done.
Qed.

Lemma keeps_evaluate_view (grader attempt_id : uuid) (question_id : json)
    (score : Decimal) (feedback : string) :
  keeps I (StaffEvaluateAnswerView.create grader attempt_id question_id score feedback)
    (fun _ => True).
Proof.
  unfold StaffEvaluateAnswerView.create.
  eapply keeps_bind with (Q := fun _ => True).
  { destruct (is_none question_id); [keeps_done|].
    eapply keeps_bind; [apply keeps_convert|]. intros; apply keeps_query_any. }
  intros found _.
  destruct found as [|answer [|]]; [keeps_done | | apply keeps_raise].
  destruct (score <? 0); [keeps_done|].
  destruct (_ <? score); [keeps_done|].
  eapply keeps_bind; [apply keeps_answers_write|]. intros _ _.
  eapply keeps_bind with (Q := safe_for i s).
  { unfold attempt_of.
    eapply keeps_bind with (Q := fun o => forall a, o = Some a -> safe_for i s a).
    - apply keeps_query. intros d Hd a Ha. apply head_In, filter_In in Ha as [Ha _].
      eapply status_is_row; eassumption.
    - intros [a|] Ha; [apply keeps_ret; auto | apply keeps_raise]. }
  intros attempt Hsafe.
  eapply keeps_bind; [apply keeps_calculate, Hsafe|]. intros _ _.
  keeps_done.
Qed.

Lemma keeps_finalize_results (exam_id : uuid) :
  keeps I (StaffExamViewSet.finalize_results exam_id) (fun _ => True).
Proof.
  unfold StaffExamViewSet.finalize_results.
  eapply keeps_bind; [apply keeps_query_any|]. intros [exam|] _;
    [|keeps_done].
  eapply keeps_bind; [apply keeps_now|]. intros now _.
  eapply keeps_bind with (Q := fun _ => True).
  { destruct (now <? _); [apply keeps_query_any|keeps_done]. }
  intros active _.
  destruct (0 <? active)%nat; [keeps_done|].
  eapply keeps_bind with (Q := fun l => forall a, In a l -> safe_for i s a).
  { apply keeps_query. intros d Hd a Ha. apply filter_In in Ha as [Ha _].
    eapply status_is_row; eassumption. }
  intros l Hl.
  eapply keeps_bind with (Q := fun _ => True).
  { apply keeps_for_fold with (Inv := fun _ => True); [|exact Logic.I].
    intros counts a Ha _.
    eapply keeps_bind; [apply keeps_query_any|]. intros had _.
    eapply keeps_bind; [apply keeps_calculate, Hl, Ha|]. intros _ _.
    destruct had; keeps_done. }
  intros counts _.
  eapply keeps_bind; [apply keeps_query_any|]. intros rs _.
  keeps_done.
Qed.

Lemma keeps_perform (op : operation) : keeps I (perform op) (fun _ => True).
Proof.
  destruct op; simpl;
    (eapply keeps_bind; [|intros _ _; keeps_done]).
  - apply keeps_start_view.
  - apply keeps_save_view.
  - apply keeps_submit_view.
  - apply keeps_evaluate_view.
  - apply keeps_finalize_results.
  - apply keeps_sweep_task.
  - apply keeps_sweep_command.
Qed.

End Final.

(** C9. Under every sequence of the exposed operations (start, save, submit,
    grading an answer, recomputing the results of an exam, both sweeps), with
    any clock and any storage errors, an attempt whose status is submitted or
    auto_submitted keeps exactly that status: it never returns to in_progress
    and never switches to the other terminal value. *)
Theorem terminal_status_is_final (env : Env) (ops : list operation) (w : World)
    (i : uuid) (s : attempt_status) :
  terminal s = true ->
  status_is i s (db w) ->
  status_is i s (db (run_ops env ops w)).
Proof.
  intros Hs. revert w. unfold run_ops.
  induction ops as [|op ops IH]; intros w Hw; simpl; [exact Hw|].
  apply IH. apply (keeps_perform i s Hs op env w Hw).
Qed.

(** ** Grading of multi-select questions *)

Lemma nonempty_true (s : tokens) : nonempty s = true <-> s ≠ ∅.
Proof. unfold nonempty. apply bool_decide_eq_true. Qed.

Lemma explicit_tokens_nonempty (l : list json) :
  nonempty (explicit_tokens l) = has_non_blank l.
Proof.
  unfold explicit_tokens, has_non_blank.
  induction l as [|a l IH]; simpl.
  - apply bool_decide_eq_false. intros H. apply H. reflexivity.
  - rewrite filter_cons. destruct (decide (Py.strip (py_str a) ≠ "")) as [Hne|He].
    + assert (String.eqb (Py.strip (py_str a)) "" = false) as ->
        by (apply String.eqb_neq; exact Hne).
      simpl. apply nonempty_true. set_solver.
    + assert (String.eqb (Py.strip (py_str a)) "" = true) as ->
        by (apply String.eqb_eq; destruct (decide (Py.strip (py_str a) = "")); tauto).
      simpl. exact IH.
Qed.

Lemma has_non_blank_spec (l : list json) :
  has_non_blank l = true <-> exists a, In a l /\ Py.strip (py_str a) <> "".
Proof.
  unfold has_non_blank. rewrite existsb_exists. split.
  - intros (a & Hin & Ha). exists a. split; [exact Hin|].
    apply negb_true_iff, String.eqb_neq in Ha. exact Ha.
  - intros (a & Hin & Ha). exists a. split; [exact Hin|].
    apply negb_true_iff, String.eqb_neq. exact Ha.
Qed.

(** C6, as amended. For a [multiple_mcq] question the correct set is the
    normalised explicit [correct_answers] list when that list has at least
    one entry that is not blank, else the tokens of the options flagged
    correct; [auto_evaluate_mcq] awards the full points exactly when the
    normalised submitted set equals the correct set and that set is not
    empty, and zero otherwise. *)
Theorem multiple_mcq_exact_match (question : Question) (student_answer : json) :
  q_type question = multiple_mcq ->
  auto_evaluate_mcq question student_answer =
    if bool_decide (multiple_mcq_correct_set question ≠ ∅
                    ∧ multiple_mcq_correct_set question
                      = _tokens_from_answer student_answer)
    then q_points question else 0.
Proof.
  intros Ht. unfold auto_evaluate_mcq, multiple_mcq_correct_set. rewrite Ht.
  rewrite explicit_tokens_nonempty.
  set (c := if has_non_blank (q_correct_answers question) then _ else _).
  unfold nonempty.
  repeat case_bool_decide; simpl; try reflexivity; tauto.
Qed.

(** A question whose explicit list is blank is graded against its options. *)
Lemma multiple_mcq_exact_match_witness :
  auto_evaluate_mcq Scenario.blank_question Scenario.blank_answer = 500.
Proof.
  rewrite (multiple_mcq_exact_match Scenario.blank_question Scenario.blank_answer);
    [|reflexivity].
  vm_compute. reflexivity.
Defined.

(** C6 as stated fails: an explicit list that is present and non-empty but
    holds only a blank entry does not become the correct set; the options
    do, and an answer matching them earns the points. *)
Lemma multiple_mcq_blank_list_counterexample :
  ~ (forall question student_answer,
        q_type question = multiple_mcq ->
        auto_evaluate_mcq question student_answer
        = spec_multiple_mcq_score question student_answer).
Proof.
  intros H.
  specialize (H Scenario.blank_question Scenario.blank_answer eq_refl).
  vm_compute in H. discriminate H.
Qed.

(** ** Evaluation without storage errors *)

Section Quiet.

(** No storage error hits the data of attempt [i]. *)
Variables (env : Env) (i : uuid).
Hypothesis quiet : forall t n, fault_at env t i n = false.

Lemma write_quiet (t : table) (f : DB -> DB) (w : World) :
  write t i f env w
  = (Ok tt, {| db := f (db w); ticks := ticks w; writes := S (writes w) |}).
Proof. unfold write. rewrite quiet. reflexivity. Qed.

Lemma grade_answers_quiet (l : list Answer) (w : World) :
  (forall a, In a l -> an_attempt a = i) ->
  exists w',
    grade_answers l env w = (Ok (map graded l), w')
    /\ db w' = set_answers (grade_rows l) (db w)
    /\ ticks w' = ticks w.
Proof.
  revert w. induction l as [|a l IH]; intros w Hl.
  - exists w. simpl. split; [reflexivity|]. split; [|reflexivity].
    destruct w as [[]]; reflexivity.
  - simpl. unfold bind at 1.
    assert (exists w1, grade_answer a env w = (Ok (graded a), w1)
                       /\ db w1 = set_answers
                            (fun rows => if is_auto a then save_answer_rows (graded a) rows
                                         else rows) (db w)
                       /\ ticks w1 = ticks w) as (w1 & Hrun & Hdb & Ht).
    { pose proof (Hl a (or_introl eq_refl)) as Ha.
      unfold grade_answer, graded, is_auto, save_answer.
      destruct (q_type (an_question a)); simpl;
        try (exists w; split; [reflexivity|]; split; [|reflexivity];
             destruct w as [[]]; reflexivity);
        (rewrite Ha; unfold bind at 1; rewrite write_quiet;
         eexists; split; [reflexivity|]; split; reflexivity). }
    rewrite Hrun. unfold bind at 1.
    destruct (IH w1) as (w' & Hrun' & Hdb' & Ht').
    { intros b Hb. apply Hl. right. exact Hb. }
    rewrite Hrun'.
    exists w'. split; [reflexivity|]. split; [|congruence].
    rewrite Hdb', Hdb. reflexivity.
Qed.

Lemma result_row_fits (r : Result) (w : World) :
  fits_columns r = true -> result_row r env w = (Ok (as_stored r), w).
Proof.
  unfold fits_columns, result_row, to_column, bind. intros H.
  apply andb_true_iff in H as [-> ->]. reflexivity.
Qed.

Lemma result_row_overflow (r : Result) (w : World) :
  fits_columns r = false -> result_row r env w = (Raise InvalidOperation, w).
Proof.
  unfold fits_columns, result_row, to_column, bind. intros H.
  apply andb_false_iff in H as [H|H].
  - rewrite H. reflexivity.
  - rewrite H. destruct (Dec.fits 10 (r_obtained_marks r)); reflexivity.
Qed.

Lemma update_or_create_quiet (defaults : Result) (w : World) :
  r_is_published defaults = false ->
  fits_columns defaults = true ->
  (length (results_of i (db w)) <= 1)%nat ->
  let published := match results_of i (db w) with
                   | old :: _ => r_is_published old
                   | [] => false
                   end in
  let r := {| r_attempt := r_attempt defaults; r_exam := r_exam defaults;
              r_student := r_student defaults;
              r_total_marks := r_total_marks defaults;
              r_obtained_marks := r_obtained_marks defaults;
              r_percentage := r_percentage defaults;
              r_status := r_status defaults;
              r_grading_status := r_grading_status defaults;
              r_is_published := published;
              r_submitted_at := r_submitted_at defaults |} in
  exists w',
    update_or_create_result i defaults env w = (Ok r, w')
    /\ db w' = set_results (upsert_result i (as_stored r)) (db w)
    /\ ticks w' = ticks w.
Proof.
  intros Hpub Hfits Hlen published r.
  unfold update_or_create_result, upsert_result.
  unfold bind at 1. unfold query at 1.
  subst published r. unfold results_of in *.
  destruct (List.filter _ (results (db w))) as [|old [|]] eqn:Hrows; simpl in *.
  - rewrite <- Hpub.
    replace {| r_attempt := r_attempt defaults |} with defaults
      by (destruct defaults; reflexivity).
    unfold bind. rewrite (result_row_fits _ _ Hfits), write_quiet.
    eexists. split; [reflexivity|]. unfold set_results. cbv beta.
    rewrite Hrows. split; reflexivity.
  - unfold bind. rewrite result_row_fits by exact Hfits. rewrite write_quiet.
    eexists. split; [reflexivity|]. unfold set_results. cbv beta.
    rewrite Hrows. split; reflexivity.
  - lia.
Qed.

Lemma calculate_exam_result_quiet (obj : ExamAttempt) (t : timestamp) (w : World) :
  ea_id obj = i ->
  ea_submit_time obj = Some t ->
  fits_columns (recomputed_result obj t (db w)) = true ->
  (length (results_of (ea_id obj) (db w)) <= 1)%nat ->
  exists w',
    calculate_exam_result obj env w
    = (Ok (recomputed_result obj t (db w),
           with_scores obj (e_total_marks (ea_exam obj))
             (sum_scores (map graded (answers_of (ea_id obj) (db w))))), w')
    /\ db w' = recomputed obj t (db w)
    /\ ticks w' = ticks w.
Proof.
  intros Hi Ht Hfits Hlen. unfold calculate_exam_result.
  unfold bind at 1. unfold query at 1.
  unfold bind at 1.
  destruct (grade_answers_quiet (answers_of (ea_id obj) (db w)) w)
    as (w1 & Hrun1 & Hdb1 & Ht1).
  { intros a Ha. apply filter_In in Ha as [_ Ha]. apply N.eqb_eq in Ha. congruence. }
  rewrite Hrun1.
  pose proof Hfits as Hsum. unfold fits_columns in Hsum.
  apply andb_true_iff in Hsum as [Hsum _]. simpl in Hsum.
  unfold bind at 1. unfold to_column at 1. rewrite Hsum. unfold ret at 1.
  unfold bind at 1. unfold save_attempt. simpl ea_id. rewrite Hi, write_quiet.
  simpl ea_submit_time. rewrite Ht.
  unfold bind at 1. unfold ret at 1.
  set (w2 := {| db := _ |}).
  unfold bind at 1.
  match goal with |- context [update_or_create_result i ?defs env w2] =>
    destruct (update_or_create_quiet defs w2 eq_refl) as (w3 & Hrun3 & Hdb3 & Ht3)
  end.
  { rewrite <- Hi. exact Hfits. }
  { subst w2. simpl. rewrite Hdb1. rewrite <- Hi. exact Hlen. }
  rewrite Hrun3. exists w3. split; [|split].
  - unfold ret, recomputed_result, result_for. simpl.
    subst w2. simpl. rewrite Hdb1. rewrite <- Hi. reflexivity.
  - rewrite Hdb3. subst w2. simpl. rewrite Hdb1. unfold recomputed. simpl.
    rewrite <- Hi. reflexivity.
  - rewrite Ht3. subst w2. simpl. exact Ht1.
Qed.

(** When the result does not fit its columns the call raises, after the
    scores of the answers were saved, and the results are as before. *)
Lemma calculate_exam_result_overflow (obj : ExamAttempt) (t : timestamp) (w : World) :
  ea_id obj = i ->
  ea_submit_time obj = Some t ->
  fits_columns (recomputed_result obj t (db w)) = false ->
  (length (results_of (ea_id obj) (db w)) <= 1)%nat ->
  exists w',
    calculate_exam_result obj env w = (Raise InvalidOperation, w')
    /\ results (db w') = results (db w)
    /\ answers (db w') = grade_rows (answers_of (ea_id obj) (db w)) (answers (db w)).
Proof.
  intros Hi Ht Hfits Hlen. unfold calculate_exam_result.
  unfold bind at 1. unfold query at 1.
  unfold bind at 1.
  destruct (grade_answers_quiet (answers_of (ea_id obj) (db w)) w)
    as (w1 & Hrun1 & Hdb1 & Ht1).
  { intros a Ha. apply filter_In in Ha as [_ Ha]. apply N.eqb_eq in Ha. congruence. }
  rewrite Hrun1.
  unfold bind at 1. unfold to_column at 1.
  destruct (Dec.fits 10 (sum_scores (map graded (answers_of (ea_id obj) (db w)))))
    eqn:Hsum.
  - unfold ret at 1.
    unfold bind at 1. unfold save_attempt. simpl ea_id. rewrite Hi, write_quiet.
    simpl ea_submit_time. rewrite Ht.
    unfold bind at 1. unfold ret at 1.
    set (w2 := {| db := _ |}).
    unfold bind at 1. unfold update_or_create_result.
    unfold bind at 1. unfold query at 1.
    assert (Hrows : results_of i (db w2) = results_of (ea_id obj) (db w)).
    { subst w2. simpl. rewrite Hdb1, Hi. reflexivity. }
    rewrite Hrows.
    destruct (results_of (ea_id obj) (db w)) as [|old [|]] eqn:Hold;
      [| |simpl in Hlen; lia].
    + unfold bind. rewrite result_row_overflow by (rewrite <- Hi; exact Hfits).
      exists w2. split; [reflexivity|]. subst w2. simpl. rewrite Hdb1, <- Hi.
      split; reflexivity.
    + unfold bind. rewrite result_row_overflow by (rewrite <- Hi; exact Hfits).
      exists w2. split; [reflexivity|]. subst w2. simpl. rewrite Hdb1, <- Hi.
      split; reflexivity.
  - exists w1. split; [reflexivity|]. rewrite Hdb1. split; reflexivity.
Qed.

End Quiet.

Lemma calculate_exam_result_reliable (clock : nat -> timestamp)
    (conv : json -> option uuid) (obj : ExamAttempt) (t : timestamp) (w : World) :
  ea_submit_time obj = Some t ->
  fits_columns (recomputed_result obj t (db w)) = true ->
  (length (results_of (ea_id obj) (db w)) <= 1)%nat ->
  exists w',
    calculate_exam_result obj (reliable clock conv) w
    = (Ok (recomputed_result obj t (db w),
           with_scores obj (e_total_marks (ea_exam obj))
             (sum_scores (map graded (answers_of (ea_id obj) (db w))))), w')
    /\ db w' = recomputed obj t (db w)
    /\ ticks w' = ticks w.
Proof.
  apply (calculate_exam_result_quiet (reliable clock conv) (ea_id obj));
    [intros; reflexivity | reflexivity].
Qed.

(** ** Recomputing twice *)

Lemma same_answer_key (a b : Answer) :
  same_answer a b = true <-> answer_key a = answer_key b.
Proof.
  unfold same_answer, answer_key. rewrite andb_true_iff, !N.eqb_eq.
  split; [intros [-> ->]; reflexivity | intros [= -> ->]; auto].
Qed.

Lemma is_auto_graded (a : Answer) : is_auto (graded a) = is_auto a.
Proof. unfold graded. destruct (is_auto a) eqn:H; [|exact H]. exact H. Qed.

Lemma graded_idem (a : Answer) : graded (graded a) = graded a.
Proof.
  unfold graded at 1. rewrite is_auto_graded.
  unfold graded. destruct (is_auto a); reflexivity.
Qed.

Lemma answer_key_graded (a : Answer) : answer_key (graded a) = answer_key a.
Proof. unfold graded. destruct (is_auto a); reflexivity. Qed.

Lemma an_attempt_graded (a : Answer) : an_attempt (graded a) = an_attempt a.
Proof. unfold graded. destruct (is_auto a); reflexivity. Qed.

Lemma same_answer_graded_l (a b : Answer) :
  same_answer (graded a) b = same_answer a b.
Proof. unfold graded. destruct (is_auto a); reflexivity. Qed.

Lemma same_answer_graded_r (a b : Answer) :
  same_answer a (graded b) = same_answer a b.
Proof. unfold graded. destruct (is_auto b); reflexivity. Qed.

Lemma NoDup_key_eq {A K} (f : A -> K) (l : list A) (a b : A) :
  NoDup (map f l) -> In a l -> In b l -> f a = f b -> a = b.
Proof.
  induction l as [|x l IH]; simpl; [tauto|].
  intros Hnd Ha Hb Hf. apply NoDup_cons in Hnd as [Hx Hnd].
  destruct Ha as [<-|Ha], Hb as [<-|Hb].
  - reflexivity.
  - exfalso. apply Hx. rewrite Hf. apply list_elem_of_In, in_map, Hb.
  - exfalso. apply Hx. rewrite <- Hf. apply list_elem_of_In, in_map, Ha.
  - apply IH; assumption.
Qed.

Lemma existsb_same {A} (f g : A -> bool) (l : list A) :
  (forall x, f x = g x) -> existsb f l = existsb g l.
Proof. intros H. induction l as [|x l IH]; simpl; [reflexivity|]. rewrite H, IH. reflexivity. Qed.

(** One step of the first loop, on a table with distinct keys. *)
Lemma grade_step_map (a : Answer) (rows : list Answer) :
  NoDup (map answer_key rows) -> In a rows ->
  (if is_auto a then save_answer_rows (graded a) rows else rows)
  = map (fun r => if same_answer a r then graded r else r) rows.
Proof.
  intros Hnd Hin. destruct (is_auto a) eqn:Hauto.
  - unfold save_answer_rows.
    assert (existsb (same_answer (graded a)) rows = true) as ->.
    { apply existsb_exists. exists a. split; [exact Hin|].
      rewrite same_answer_graded_l. apply same_answer_key. reflexivity. }
    apply map_ext_in. intros r Hr. rewrite same_answer_graded_l.
    destruct (same_answer a r) eqn:Hs; [|reflexivity].
    apply same_answer_key in Hs.
    rewrite (NoDup_key_eq answer_key rows a r Hnd Hin Hr Hs). reflexivity.
  - symmetry. rewrite <- (map_id rows) at 2. apply map_ext_in. intros r Hr.
    destruct (same_answer a r) eqn:Hs; [|reflexivity].
    apply same_answer_key in Hs.
    rewrite <- (NoDup_key_eq answer_key rows a r Hnd Hin Hr Hs).
    unfold graded. rewrite Hauto. reflexivity.
Qed.

Lemma grade_rows_map (l rows : list Answer) :
  NoDup (map answer_key rows) ->
  (forall a, In a l -> In a rows) ->
  NoDup (map answer_key l) ->
  grade_rows l rows
  = map (fun r => if existsb (fun a => same_answer a r) l then graded r else r) rows.
Proof.
  revert rows. induction l as [|a l IH]; intros rows Hnd Hin Hl.
  - simpl. rewrite map_id. reflexivity.
  - unfold grade_rows. simpl fold_left.
    rewrite grade_step_map; [|exact Hnd|apply Hin; left; reflexivity].
    fold (grade_rows l (map (fun r => if same_answer a r then graded r else r) rows)).
    apply NoDup_cons in Hl as [Ha Hl].
    rewrite IH; [| | |exact Hl].
    + rewrite map_map. apply map_ext. intros r. simpl.
      destruct (same_answer a r) eqn:Hs; simpl.
      * replace (existsb (fun a0 => same_answer a0 (graded r)) l)
          with (existsb (fun a0 => same_answer a0 r) l)
          by (apply existsb_same; intros; rewrite same_answer_graded_r; reflexivity).
        rewrite graded_idem. destruct (existsb _ l); reflexivity.
      * reflexivity.
    + rewrite map_map.
      replace (map (fun x => answer_key (if same_answer a x then graded x else x)) rows)
        with (map answer_key rows); [exact Hnd|].
      apply map_ext. intros r. destruct (same_answer a r); [|reflexivity].
      rewrite answer_key_graded. reflexivity.
    + intros b Hb. apply in_map_iff. exists b. split; [|apply Hin; right; exact Hb].
      destruct (same_answer a b) eqn:Hs; [|reflexivity].
      exfalso. apply Ha. apply same_answer_key in Hs. rewrite Hs.
      apply list_elem_of_In, in_map, Hb.
Qed.

Lemma NoDup_map_filter {A K} (f : A -> K) (P : A -> bool) (l : list A) :
  NoDup (map f l) -> NoDup (map f (List.filter P l)).
Proof.
  induction l as [|x l IH]; simpl; [auto|].
  intros Hnd. apply NoDup_cons in Hnd as [Hx Hnd].
  destruct (P x); simpl; [|apply IH, Hnd].
  apply NoDup_cons. split; [|apply IH, Hnd].
  intros Hin. apply Hx. apply list_elem_of_In in Hin. apply list_elem_of_In.
  apply in_map_iff in Hin as (y & Hy & Hin). apply filter_In in Hin as [Hin _].
  apply in_map_iff. exists y. auto.
Qed.

(** The answers table after grading the answers of attempt [i]. *)
Lemma grade_rows_of_attempt (i : uuid) (d : DB) :
  answers_unique d ->
  grade_rows (answers_of i d) (answers d)
  = map (fun r => if (an_attempt r =? i)%N then graded r else r) (answers d).
Proof.
  intros Hnd. unfold answers_of.
  rewrite grade_rows_map; [|exact Hnd| |apply NoDup_map_filter, Hnd].
  - apply map_ext_in. intros r Hr.
    destruct (an_attempt r =? i)%N eqn:Hi.
    + assert (existsb (fun a => same_answer a r)
                (List.filter (fun a => (an_attempt a =? i)%N) (answers d)) = true) as ->;
        [|reflexivity].
      apply existsb_exists. exists r. split; [apply filter_In; auto|].
      apply same_answer_key. reflexivity.
    + assert (existsb (fun a => same_answer a r)
                (List.filter (fun a => (an_attempt a =? i)%N) (answers d)) = false) as ->;
        [|reflexivity].
      apply not_true_iff_false. intros Hex. apply existsb_exists in Hex as (a & Ha & Hs).
      apply filter_In in Ha as [_ Ha]. apply N.eqb_eq in Ha.
      apply same_answer_key in Hs. injection Hs as Hs _.
      apply N.eqb_neq in Hi. congruence.
  - intros a Ha. apply filter_In in Ha as [Ha _]. exact Ha.
Qed.

Lemma filter_map_graded (i : uuid) (rows : list Answer) :
  List.filter (fun a => (an_attempt a =? i)%N)
    (map (fun r => if (an_attempt r =? i)%N then graded r else r) rows)
  = map graded (List.filter (fun a => (an_attempt a =? i)%N) rows).
Proof.
  induction rows as [|r rows IH]; simpl; [reflexivity|].
  destruct (an_attempt r =? i)%N eqn:Hi.
  - rewrite an_attempt_graded, Hi. simpl. rewrite IH. reflexivity.
  - rewrite Hi. exact IH.
Qed.

Lemma save_attempt_rows_idem (obj : ExamAttempt) (rows : list ExamAttempt) :
  save_attempt_rows obj (save_attempt_rows obj rows) = save_attempt_rows obj rows.
Proof.
  assert (Hrefl : same_attempt obj obj = true) by (apply same_attempt_eq; reflexivity).
  unfold save_attempt_rows at 2 3.
  destruct (existsb (same_attempt obj) rows) eqn:Hex.
  - unfold save_attempt_rows.
    assert (existsb (same_attempt obj)
              (map (fun r => if same_attempt obj r then obj else r) rows) = true) as ->.
    { apply existsb_exists in Hex as (r & Hr & Hs). apply existsb_exists.
      exists obj. split; [|exact Hrefl].
      apply in_map_iff. exists r. rewrite Hs. auto. }
    rewrite map_map. apply map_ext. intros r.
    simpl. destruct (same_attempt obj r) eqn:Hs; [rewrite Hrefl | rewrite Hs]; reflexivity.
  - unfold save_attempt_rows. cbn [existsb]. rewrite Hrefl. cbn [orb map]. rewrite Hrefl.
    f_equal. rewrite <- (map_id rows) at 2. apply map_ext_in. intros r Hr.
    destruct (same_attempt obj r) eqn:Hs; [|reflexivity].
    exfalso. rewrite <- not_true_iff_false in Hex. apply Hex.
    apply existsb_exists. exists r. auto.
Qed.

Lemma results_of_upsert (i : uuid) (r : Result) (rows : list Result) :
  r_attempt r = i ->
  (length (List.filter (fun x => (r_attempt x =? i)%N) rows) <= 1)%nat ->
  List.filter (fun x => (r_attempt x =? i)%N) (upsert_result i r rows) = [r].
Proof.
  intros Hr Hlen. unfold upsert_result.
  assert (Hri : (r_attempt r =? i)%N = true) by (apply N.eqb_eq; exact Hr).
  destruct (List.filter _ rows) as [|old rest] eqn:Hf.
  - simpl. rewrite Hri, Hf. reflexivity.
  - destruct rest; [|simpl in Hlen; lia]. clear Hlen.
    revert old Hf. induction rows as [|x rows IH]; intros old Hf; [discriminate|].
    simpl in *. destruct (r_attempt x =? i)%N eqn:Hx.
    + rewrite Hri. injection Hf as -> Hf. f_equal.
      clear IH. induction rows as [|y rows IH]; [reflexivity|].
      simpl in *. destruct (r_attempt y =? i)%N eqn:Hy; [discriminate|].
      rewrite Hy. apply IH, Hf.
    + rewrite Hx. eapply IH, Hf.
Qed.

Lemma upsert_result_idem (i : uuid) (r : Result) (rows : list Result) :
  r_attempt r = i ->
  upsert_result i r (upsert_result i r rows) = upsert_result i r rows.
Proof.
  intros Hr.
  assert (Hri : (r_attempt r =? i)%N = true) by (apply N.eqb_eq; exact Hr).
  unfold upsert_result at 2 3.
  destruct (List.filter _ rows) as [|old rest] eqn:Hf.
  - unfold upsert_result. cbn [List.filter]. rewrite Hri. cbn [map]. rewrite Hri. f_equal.
    rewrite <- (map_id rows) at 2. apply map_ext_in. intros x Hx.
    destruct (r_attempt x =? i)%N eqn:Hxi; [|reflexivity].
    exfalso. assert (In x []) as []. rewrite <- Hf. apply filter_In. auto.
  - unfold upsert_result.
    assert (In old (List.filter (fun x => (r_attempt x =? i)%N) rows)) as Hold
      by (rewrite Hf; left; reflexivity).
    apply filter_In in Hold as [Hold Holdi].
    destruct (List.filter _ (map _ rows)) eqn:Hf2.
    + exfalso. assert (In r []) as []. rewrite <- Hf2. apply filter_In. split; [|exact Hri].
      apply in_map_iff. exists old. rewrite Holdi. auto.
    + rewrite map_map. apply map_ext. intros x.
      destruct (r_attempt x =? i)%N eqn:Hx; [rewrite Hri | rewrite Hx]; reflexivity.
Qed.

Lemma db_ext (d d' : DB) :
  exams d = exams d' -> questions d = questions d' -> attempts d = attempts d' ->
  answers d = answers d' -> results d = results d' -> extensions d = extensions d' ->
  d = d'.
Proof. destruct d, d'; simpl; intros; subst; reflexivity. Qed.

Section Twice.

Variables (obj : ExamAttempt) (t : timestamp) (d : DB).
Hypothesis unique_answers : answers_unique d.
Hypothesis one_result : (length (results_of (ea_id obj) d) <= 1)%nat.

Local Abbreviation obj1 := (rescored obj d).

Lemma answers_of_recomputed :
  answers_of (ea_id obj) (recomputed obj t d) = map graded (answers_of (ea_id obj) d).
Proof.
  unfold recomputed, answers_of at 1. simpl.
  rewrite grade_rows_of_attempt by exact unique_answers.
  apply filter_map_graded.
Qed.

Lemma results_of_recomputed :
  results_of (ea_id obj) (recomputed obj t d) = [as_stored (recomputed_result obj t d)].
Proof.
  unfold recomputed, results_of at 1. simpl.
  apply results_of_upsert; [reflexivity | exact one_result].
Qed.

Lemma recomputed_result_twice :
  recomputed_result obj1 t (recomputed obj t d) = recomputed_result obj t d.
Proof.
  unfold recomputed_result. change (ea_id obj1) with (ea_id obj).
  rewrite answers_of_recomputed, results_of_recomputed.
  rewrite map_map.
  replace (map (fun x => graded (graded x)) (answers_of (ea_id obj) d))
    with (map graded (answers_of (ea_id obj) d))
    by (apply map_ext; intros; rewrite graded_idem; reflexivity).
  reflexivity.
Qed.

Lemma answers_unique_recomputed : answers_unique (recomputed obj t d).
Proof.
  unfold answers_unique, recomputed. simpl.
  rewrite grade_rows_of_attempt by exact unique_answers.
  rewrite map_map.
  replace (map (fun x => answer_key (if (an_attempt x =? ea_id obj)%N then graded x else x))
             (answers d))
    with (map answer_key (answers d)); [exact unique_answers|].
  apply map_ext. intros r. destruct (an_attempt r =? ea_id obj)%N; [|reflexivity].
  rewrite answer_key_graded. reflexivity.
Qed.

Lemma recomputed_twice :
  recomputed obj1 t (recomputed obj t d) = recomputed obj t d.
Proof.
  pose proof recomputed_result_twice as Hres. unfold recomputed_result in Hres.
  unfold recomputed at 1. rewrite Hres. clear Hres.
  change (ea_id obj1) with (ea_id obj).
  change (e_total_marks (ea_exam obj1)) with (e_total_marks (ea_exam obj)).
  rewrite answers_of_recomputed.
  rewrite map_map.
  replace (map (fun x => graded (graded x)) (answers_of (ea_id obj) d))
    with (map graded (answers_of (ea_id obj) d))
    by (apply map_ext; intros; rewrite graded_idem; reflexivity).
  replace (grade_rows (map graded (answers_of (ea_id obj) d)))
    with (grade_rows (answers_of (ea_id obj) (recomputed obj t d)))
    by (rewrite answers_of_recomputed; reflexivity).
  apply db_ext; try reflexivity.
  - cbn [attempts set_results set_attempts set_answers].
    unfold recomputed. cbn [attempts set_results set_attempts set_answers].
    apply save_attempt_rows_idem.
  - cbn [answers set_results set_attempts set_answers].
    rewrite (grade_rows_of_attempt (ea_id obj) (recomputed obj t d))
      by exact answers_unique_recomputed.
    unfold recomputed. cbn [answers set_results set_attempts set_answers].
    rewrite grade_rows_of_attempt by exact unique_answers.
    rewrite map_map. apply map_ext. intros r.
    destruct (an_attempt r =? ea_id obj)%N eqn:Hi.
    + rewrite an_attempt_graded, Hi. apply graded_idem.
    + rewrite Hi. reflexivity.
  - cbn [results set_results set_attempts set_answers].
    unfold recomputed. cbn [results set_results set_attempts set_answers].
    apply upsert_result_idem. reflexivity.
Qed.

End Twice.

Lemma length_filter_map {A} (P : A -> bool) (f : A -> A) (l : list A) :
  (forall x, P (f x) = P x) ->
  length (List.filter P (map f l)) = length (List.filter P l).
Proof.
  intros H. induction l as [|x l IH]; simpl; [reflexivity|].
  rewrite H. destruct (P x); simpl; rewrite IH; reflexivity.
Qed.

(** The upsert keeps at most one row per attempt, whatever the storage does. *)
Lemma keeps_one_result (j i : uuid) (defaults : Result) :
  r_attempt defaults = i ->
  keeps (fun d => (length (results_of j d) <= 1)%nat)
    (update_or_create_result i defaults) (fun _ => True).
Proof.
  intros Hi env w HI. split; [|auto].
  unfold update_or_create_result. unfold bind at 1. unfold query at 1.
  destruct (results_of i (db w)) as [|old [|]] eqn:Hrows; cbv beta iota; [| |exact HI].
  - unfold bind. destruct (fits_columns defaults) eqn:Hf;
      [rewrite (result_row_fits env _ _ Hf)
      |rewrite (result_row_overflow env _ _ Hf); exact HI].
    unfold write. destruct (fault_at env Results i (writes w)); simpl; [exact HI|].
    unfold results_of in *. simpl. rewrite Hi.
    destruct (i =? j)%N eqn:Hij; [|exact HI].
    apply N.eqb_eq in Hij. subst j. rewrite Hrows. simpl. lia.
  - unfold bind.
    match goal with |- context [result_row ?r env w] =>
      destruct (fits_columns r) eqn:Hf;
        [rewrite (result_row_fits env r w Hf)
        |rewrite (result_row_overflow env r w Hf); exact HI]
    end.
    unfold write. destruct (fault_at env Results i (writes w)); simpl; [exact HI|].
    unfold results_of in *. simpl. rewrite length_filter_map; [exact HI|].
    intros x. simpl. destruct (r_attempt x =? i)%N eqn:Hx; [|reflexivity].
    apply N.eqb_eq in Hx. rewrite Hi, Hx. reflexivity.
Qed.

Lemma keeps_grade_answers_results {I : DB -> Prop} (l : list Answer) :
  (forall f d, I d -> I (set_answers f d)) ->
  keeps I (grade_answers l) (fun _ => True).
Proof.
  intros HI. induction l as [|a l IH]; simpl.
  - keeps_done.
  - eapply keeps_bind with (Q := fun _ => True).
    + unfold grade_answer.
      destruct (q_type (an_question a));
        try (keeps_done);
        (eapply keeps_bind; [apply keeps_write; apply HI|]; intros _ _;
         keeps_done).
    + intros a' _. eapply keeps_bind; [exact IH|]. intros l' _.
      keeps_done.
Qed.

Lemma calculate_keeps_one_result (j : uuid) (obj : ExamAttempt) :
  keeps (fun d => (length (results_of j d) <= 1)%nat)
    (calculate_exam_result obj) (fun _ => True).
Proof.
  unfold calculate_exam_result.
  eapply keeps_bind; [apply keeps_query_any|]. intros answers0 _.
  eapply keeps_bind; [apply keeps_grade_answers_results; auto|]. intros answers1 _.
  eapply keeps_bind; [apply keeps_to_column|]. intros _ _.
  eapply keeps_bind; [apply keeps_write; auto|]. intros _ _.
  eapply keeps_bind with (Q := fun _ => True).
  { simpl. destruct (ea_submit_time obj); [keeps_done|apply keeps_now]. }
  intros t _.
  eapply keeps_bind; [apply keeps_one_result; reflexivity|]. intros r _.
  keeps_done.
Qed.


(** ** Saving answers *)

Lemma filter_map_frame {A} (P : A -> bool) (f : A -> A) (l : list A) :
  (forall x, P (f x) = P x) -> (forall x, P x = true -> f x = x) ->
  List.filter P (map f l) = List.filter P l.
Proof.
  intros HP Hf. induction l as [|x l IH]; simpl; [reflexivity|].
  rewrite HP. destruct (P x) eqn:Hx; [|exact IH].
  rewrite (Hf x Hx), IH. reflexivity.
Qed.

Lemma filter_none {A} (P : A -> bool) (l : list A) :
  (forall x, In x l -> P x = false) -> List.filter P l = [].
Proof.
  induction l as [|x l IH]; intros H; simpl; [reflexivity|].
  rewrite (H x (or_introl eq_refl)). apply IH. intros y Hy. apply H. right. exact Hy.
Qed.

Lemma filter_unique_key {A K} (f : A -> K) (P : A -> bool) (l : list A) (a : A) :
  (forall x, P x = true <-> f x = f a) ->
  NoDup (map f l) -> In a l -> List.filter P l = [a].
Proof.
  intros HP. induction l as [|x l IH]; simpl; [tauto|].
  intros Hnd Hin. apply NoDup_cons in Hnd as [Hx Hnd].
  rewrite list_elem_of_In in Hx.
  destruct Hin as [->|Hin].
  - rewrite (proj2 (HP a) eq_refl). f_equal. apply filter_none.
    intros y Hy. apply not_true_iff_false. intros Hp. apply HP in Hp.
    apply Hx. rewrite <- Hp. apply in_map, Hy.
  - destruct (P x) eqn:Hp.
    + exfalso. apply HP in Hp. apply Hx. rewrite Hp. apply in_map, Hin.
    + apply IH; assumption.
Qed.

(** With one attempt per (exam, student), the pair selects that attempt. *)
Lemma attempts_of_pair_unique (d : DB) (a : ExamAttempt) :
  attempts_unique d -> In a (attempts d) ->
  attempts_of_pair (e_id (ea_exam a)) (ea_student a) d = [a].
Proof.
  intros Hnd Hin. unfold attempts_of_pair.
  apply (filter_unique_key attempt_pair); [|exact Hnd|exact Hin].
  intros x. rewrite andb_true_iff, !N.eqb_eq. unfold attempt_pair.
  split; [intros [-> ->]; reflexivity | intros [= -> ->]; auto].
Qed.

Lemma attempts_with_terminal (d : DB) (a : ExamAttempt) :
  attempts_unique d -> In a (attempts d) -> terminal (ea_status a) = true ->
  attempts_with (e_id (ea_exam a)) (ea_student a) [in_progress] d = []
  /\ attempts_with (e_id (ea_exam a)) (ea_student a) [submitted; auto_submitted] d = [a].
Proof.
  intros Hu Hin Ht. unfold attempts_with.
  rewrite (attempts_of_pair_unique d a Hu Hin). simpl.
  destruct (ea_status a); [discriminate| |];
    (split; [rewrite bool_decide_eq_false_2; [reflexivity|]
            |rewrite bool_decide_eq_true_2; [reflexivity|]]);
    rewrite list_elem_of_In; simpl; intuition discriminate.
Qed.

Lemma save_view_accepts (env : Env) (w w' : World) (user : User) (exam_id : uuid)
    (payload : json) (resp : Response) :
  StudentSaveAnswerView.update user exam_id payload env w = (Ok resp, w') ->
  status resp = 200%nat ->
  exists attempt,
    attempts_with exam_id (u_id user) [in_progress] (db w) = [attempt]
    /\ now_at env (ticks w) <= get_attempt_end_time attempt + seconds 30.
Proof.
  unfold StudentSaveAnswerView.update, bind at 1, query at 1.
  destruct (attempts_with exam_id (u_id user) [in_progress] (db w))
    as [|attempt [|]]; simpl.
  - intros [= <- _]. discriminate.
  - unfold bind at 1, timezone_now at 1.
    destruct (_ <? now_at env (ticks w)) eqn:Hlate.
    + intros [= <- _]. discriminate.
    + intros _ _. exists attempt. split; [reflexivity|].
      apply Z.ltb_ge in Hlate. exact Hlate.
  - discriminate.
Qed.

Lemma save_view_rejects (env : Env) (w : World) (user : User) (exam_id : uuid)
    (payload : json) (attempt : ExamAttempt) :
  attempts_with exam_id (u_id user) [in_progress] (db w) = [attempt] ->
  get_attempt_end_time attempt + seconds 30 < now_at env (ticks w) ->
  StudentSaveAnswerView.update user exam_id payload env w
  = (Ok (error "Exam time has expired" 400),
     {| db := db w; ticks := S (ticks w); writes := writes w |}).
Proof.
  intros Hfound Hlate.
  unfold StudentSaveAnswerView.update, bind at 1, query at 1. rewrite Hfound.
  unfold bind at 1, timezone_now at 1.
  apply Z.ltb_lt in Hlate. rewrite Hlate. reflexivity.
Qed.

Lemma save_view_terminal (env : Env) (w : World) (user : User) (payload : json)
    (a : ExamAttempt) :
  attempts_unique (db w) -> In a (attempts (db w)) ->
  ea_student a = u_id user -> terminal (ea_status a) = true ->
  StudentSaveAnswerView.update user (e_id (ea_exam a)) payload env w
  = (Ok (error "Active attempt not found" 404), w).
Proof.
  intros Hu Hin Hs Ht.
  unfold StudentSaveAnswerView.update, bind at 1, query at 1. rewrite <- Hs.
  rewrite (proj1 (attempts_with_terminal (db w) a Hu Hin Ht)). reflexivity.
Qed.

Section Untouched.

Variables (i : uuid) (s : attempt_status) (kept : list Answer).
Hypothesis s_terminal : terminal s = true.

Local Abbreviation I := (untouched i s kept).

Lemma persist_keeps_answers (attempt : ExamAttempt) (payload : json) :
  ea_id attempt <> i ->
  keeps I (_persist_attempt_answers attempt payload) (fun _ => True).
Proof.
  intros Hne. unfold _persist_attempt_answers.
  apply keeps_for_fold with (Inv := fun _ => True); [|exact Logic.I].
  intros n item _ _.
  destruct (negb (truthy _)); [keeps_done|].
  eapply keeps_bind; [apply keeps_convert|]. intros key _.
  eapply keeps_bind with (Q := fun l => forall x, In x l -> an_attempt x = ea_id attempt).
  { apply keeps_query. intros d _ x Hx. apply filter_In in Hx as [_ Hx].
    apply andb_true_iff in Hx as [Hx _]. apply N.eqb_eq in Hx. exact Hx. }
  intros found Hfound.
  destruct found as [|answer [|]]; [keeps_done | | apply keeps_raise].
  specialize (Hfound answer (or_introl eq_refl)).
  destruct (dict_has "answer" item || dict_has "code" item);
    [|keeps_done].
  eapply keeps_bind; [|intros _ _; keeps_done].
  apply keeps_write. intros d [Hst Hans]. split; [exact Hst|].
  rewrite <- Hans. unfold answers_of. simpl.
  match goal with |- context [same_answer ?obj] => set (saved := obj) end.
  assert (Hsaved : an_attempt saved = ea_id attempt).
  { subst saved. destruct (dict_has "answer" item), (dict_has "code" item);
      simpl; try exact Hfound;
      match goal with |- context [if ?c then _ else _] => destruct c end;
      simpl; exact Hfound. }
  apply filter_map_frame.
  - intros x. destruct (same_answer saved x) eqn:Hsame; [|reflexivity].
    destruct (dict_has "answer" item), (dict_has "code" item || _); reflexivity.
  - intros x Hx. destruct (same_answer saved x) eqn:Hsame; [|reflexivity].
    exfalso. apply andb_true_iff in Hsame as [Hsame _].
    apply N.eqb_eq in Hsame, Hx. congruence.
Qed.

Lemma save_view_keeps_answers (user : User) (exam_id : uuid) (payload : json) :
  keeps I (StudentSaveAnswerView.update user exam_id payload) (fun _ => True).
Proof.
  unfold StudentSaveAnswerView.update.
  eapply keeps_bind with (Q := fun l => forall a, In a l -> ea_id a <> i).
  { apply keeps_query. intros d [Hd _] a Ha.
    apply (attempts_with_in_progress_other i s s_terminal exam_id (u_id user) d a Hd Ha). }
  intros found Hfound.
  destruct found as [|attempt [|]]; [keeps_done | | apply keeps_raise].
  eapply keeps_bind; [apply keeps_now|]. intros now _.
  destruct (_ <? now); [keeps_done|].
  destruct (_payload_answer_items payload); [keeps_done|].
  eapply keeps_bind; [apply persist_keeps_answers, Hfound; left; reflexivity|].
  intros n _.
  eapply keeps_bind; [apply keeps_now|]. intros t _.
  keeps_done.
Qed.

End Untouched.

(** An extension only adds to the deadline the view resolves, so a save that
    succeeds is also within the extended deadline plus the grace period. *)
Lemma save_view_accepts_extended (env : Env) (w w' : World) (user : User)
    (exam_id : uuid) (payload : json) (resp : Response) (x : ExamTimeExtension) :
  0 <= x_additional_minutes x ->
  StudentSaveAnswerView.update user exam_id payload env w = (Ok resp, w') ->
  status resp = 200%nat ->
  exists attempt,
    attempts_with exam_id (u_id user) [in_progress] (db w) = [attempt]
    /\ now_at env (ticks w)
       <= spec_resolveDeadline (ea_exam attempt) (Some x) + seconds 30.
Proof.
  intros Hx Hrun Hok.
  destruct (save_view_accepts env w w' user exam_id payload resp Hrun Hok)
    as (attempt & Hfound & Hnow).
  exists attempt. split; [exact Hfound|].
  unfold spec_resolveDeadline, get_attempt_end_time, minutes in *. lia.
Qed.

(** C7. A save succeeds only for an in-progress attempt and only while the
    clock reads at most the attempt's deadline plus 30 seconds; past that it
    is refused with the deadline-expired error and nothing is written; for a
    student whose attempt is terminal it finds no active attempt and writes
    nothing; and no save ever changes the answers of a terminal attempt. *)
Theorem save_only_in_window (env : Env) (w : World) (user : User) (exam_id : uuid)
    (payload : json) :
  (forall resp w',
      StudentSaveAnswerView.update user exam_id payload env w = (Ok resp, w') ->
      status resp = 200%nat ->
      exists attempt,
        attempts_with exam_id (u_id user) [in_progress] (db w) = [attempt]
        /\ now_at env (ticks w) <= get_attempt_end_time attempt + seconds 30)
  /\ (forall attempt,
        attempts_with exam_id (u_id user) [in_progress] (db w) = [attempt] ->
        get_attempt_end_time attempt + seconds 30 < now_at env (ticks w) ->
        StudentSaveAnswerView.update user exam_id payload env w
        = (Ok (error "Exam time has expired" 400),
           {| db := db w; ticks := S (ticks w); writes := writes w |}))
  /\ (forall a,
        attempts_unique (db w) -> In a (attempts (db w)) ->
        e_id (ea_exam a) = exam_id -> ea_student a = u_id user ->
        terminal (ea_status a) = true ->
        StudentSaveAnswerView.update user exam_id payload env w
        = (Ok (error "Active attempt not found" 404), w))
  /\ (forall i s,
        terminal s = true -> status_is i s (db w) ->
        answers_of i (db (snd (StudentSaveAnswerView.update user exam_id payload env w)))
        = answers_of i (db w)).
Proof.
  split; [|split; [|split]].
  - intros resp w'. apply save_view_accepts.
  - intros attempt. apply save_view_rejects.
  - intros a Hu Hin <- Hs Ht. apply save_view_terminal; assumption.
  - intros i s Hs Hst.
    apply (save_view_keeps_answers i s (answers_of i (db w)) Hs user exam_id payload env w).
    split; [exact Hst|reflexivity].
Qed.

(** ** Inversion of successful runs *)

Lemma bind_ok {A B} (m : M A) (k : A -> M B) (env : Env) (w w' : World) (b : B) :
  bind m k env w = (Ok b, w') ->
  exists a w1, m env w = (Ok a, w1) /\ k a env w1 = (Ok b, w').
Proof.
  unfold bind. destruct (m env w) as [[a|e] w1]; [|discriminate].
  intros H. exists a, w1. auto.
Qed.

Lemma write_ok (t : table) (k : uuid) (f : DB -> DB) (env : Env) (w w' : World)
    (u : unit) :
  write t k f env w = (Ok u, w') -> db w' = f (db w) /\ ticks w' = ticks w.
Proof.
  unfold write. destruct (fault_at env t k (writes w)); [discriminate|].
  intros [= _ <-]. auto.
Qed.

Lemma ret_ok {A} (a b : A) (env : Env) (w w' : World) :
  ret a env w = (Ok b, w') -> b = a /\ w' = w.
Proof. intros [= <- <-]. auto. Qed.

Lemma to_column_ok (max_digits v x : Z) (env : Env) (w w' : World) :
  to_column max_digits v env w = (Ok x, w') ->
  x = v /\ w' = w /\ Dec.fits max_digits v = true.
Proof.
  unfold to_column. destruct (Dec.fits max_digits v); [|discriminate].
  intros [= <- <-]. auto.
Qed.

Lemma result_row_ok (r row : Result) (env : Env) (w w' : World) :
  result_row r env w = (Ok row, w') ->
  row = as_stored r /\ w' = w /\ fits_columns r = true.
Proof.
  unfold result_row. intros H.
  apply bind_ok in H as (x & w1 & H1 & H). apply to_column_ok in H1 as (_ & -> & H1).
  apply bind_ok in H as (y & w2 & H2 & H). apply to_column_ok in H2 as (_ & -> & H2).
  apply ret_ok in H as [-> ->]. unfold fits_columns. rewrite H1, H2. auto.
Qed.

(** What a successful [calculate_exam_result] leaves behind. *)
Lemma calculate_ok_effect (env : Env) (obj obj' : ExamAttempt) (r : Result)
    (w w' : World) :
  calculate_exam_result obj env w = (Ok (r, obj'), w') ->
  (exists o, obj' = with_scores obj (e_total_marks (ea_exam obj)) o)
  /\ attempts (db w') = save_attempt_rows obj' (attempts (db w))
  /\ results_of (ea_id obj) (db w') = [as_stored r]
  /\ r_submitted_at r = match ea_submit_time obj with
                        | Some t => t
                        | None => r_submitted_at r
                        end.
Proof.
  unfold calculate_exam_result. intros H.
  apply bind_ok in H as (answers0 & w0 & H0 & H). injection H0 as _ <-.
  apply bind_ok in H as (answers1 & w1 & H1 & H).
  assert (Hkeep : attempts (db w1) = attempts (db w) /\ results (db w1) = results (db w)).
  { pose proof (keeps_grade_answers_results
                  (I := fun d => attempts d = attempts (db w) /\ results d = results (db w))
                  answers0 (fun _ _ H => H) env w (conj eq_refl eq_refl)) as [Hk _].
    rewrite H1 in Hk. exact Hk. }
  destruct Hkeep as [Hatt1 Hres1].
  apply bind_ok in H as (x & w1' & Hx & H). apply to_column_ok in Hx as (_ & -> & _).
  apply bind_ok in H as (u & w2 & H2 & H).
  apply write_ok in H2 as [Hdb2 _].
  apply bind_ok in H as (t & w3 & H3 & H).
  assert (Hdb3 : db w3 = db w2
                 /\ t = match ea_submit_time obj with Some t' => t' | None => t end).
  { simpl in H3. destruct (ea_submit_time obj).
    - injection H3 as <- <-. auto.
    - unfold timezone_now in H3. injection H3 as _ <-. auto. }
  destruct Hdb3 as [Hdb3 Ht].
  apply bind_ok in H as (r' & w4 & H4 & H).
  apply ret_ok in H as [[= -> ->] ->].
  split; [eexists; reflexivity|].
  unfold update_or_create_result in H4.
  apply bind_ok in H4 as (rows & w5 & H5 & H4). injection H5 as <- <-.
  simpl ea_id in *.
  assert (Hres3 : results (db w3) = results (db w)).
  { rewrite Hdb3, Hdb2. simpl. exact Hres1. }
  assert (Hatt3 : attempts (db w3)
                  = save_attempt_rows
                      (with_scores obj (e_total_marks (ea_exam obj)) (sum_scores answers1))
                      (attempts (db w))).
  { rewrite Hdb3, Hdb2. simpl. rewrite Hatt1. reflexivity. }
  unfold results_of in *.
  destruct (List.filter _ (results (db w3))) as [|old [|]] eqn:Hrows.
  - apply bind_ok in H4 as (row & w5' & Hrow & H4).
    apply result_row_ok in Hrow as (-> & -> & _).
    apply bind_ok in H4 as (u' & w6 & H6 & H4). apply ret_ok in H4 as [-> ->].
    apply write_ok in H6 as [Hdb6 _]. rewrite Hdb6. simpl.
    rewrite Hatt3. split; [reflexivity|]. rewrite N.eqb_refl, Hrows.
    split; [reflexivity|exact Ht].
  - apply bind_ok in H4 as (row & w5' & Hrow & H4).
    apply result_row_ok in Hrow as (-> & -> & _).
    apply bind_ok in H4 as (u' & w6 & H6 & H4). apply ret_ok in H4 as [-> ->].
    apply write_ok in H6 as [Hdb6 _]. rewrite Hdb6. simpl.
    rewrite Hatt3. split; [reflexivity|]. split; [|exact Ht].
    pose proof (results_of_upsert
                  (ea_id obj)
                  (as_stored
                  {| r_attempt := ea_id obj; r_exam := e_id (ea_exam obj);
                     r_student := ea_student obj;
                     r_total_marks := e_total_marks (ea_exam obj);
                     r_obtained_marks := sum_scores answers1;
                     r_percentage := if 0 <? e_total_marks (ea_exam obj)
                                     then Dec.percent (sum_scores answers1)
                                            (e_total_marks (ea_exam obj))
                                     else 0%Q;
                     r_status := result_status_of (_compute_grading_status answers1)
                                   (sum_scores answers1)
                                   (e_passing_marks (ea_exam obj));
                     r_grading_status := _compute_grading_status answers1;
                     r_is_published := r_is_published old;
                     r_submitted_at := t |})
                  (results (db w3)) eq_refl) as Hup.
    unfold upsert_result in Hup. rewrite Hrows in Hup. apply Hup. simpl. lia.
  - discriminate H4.
Qed.

(** ** Submitting *)

Lemma keeps_persist_any (I : DB -> Prop) (attempt : ExamAttempt) (payload : json) :
  (forall f d, I d -> I (set_answers f d)) ->
  keeps I (_persist_attempt_answers attempt payload) (fun _ => True).
Proof.
  intros HI. unfold _persist_attempt_answers.
  apply keeps_for_fold with (Inv := fun _ => True); [|exact Logic.I].
  intros n item _ _.
  destruct (negb (truthy _)); [keeps_done|].
  eapply keeps_bind; [apply keeps_convert|]. intros key _.
  eapply keeps_bind; [apply keeps_query_any|]. intros found _.
  destruct found as [|answer [|]]; [keeps_done | | apply keeps_raise].
  destruct (dict_has "answer" item || dict_has "code" item);
    [|keeps_done].
  eapply keeps_bind; [apply keeps_write, HI|]. intros _ _.
  keeps_done.
Qed.

(** Saving an object over the row it was read from keeps the keys. *)
Lemma save_attempt_rows_keys (obj a : ExamAttempt) (rows : list ExamAttempt) :
  NoDup (map ea_id rows) -> In a rows ->
  ea_id obj = ea_id a -> attempt_pair obj = attempt_pair a ->
  map ea_id (save_attempt_rows obj rows) = map ea_id rows
  /\ map attempt_pair (save_attempt_rows obj rows) = map attempt_pair rows
  /\ In obj (save_attempt_rows obj rows).
Proof.
  intros Hnd Hin Hid Hpair. unfold save_attempt_rows.
  assert (Hex : existsb (same_attempt obj) rows = true).
  { apply existsb_exists. exists a. split; [exact Hin|]. apply same_attempt_eq, Hid. }
  rewrite Hex. rewrite !map_map. split; [|split].
  - apply map_ext. intros r. destruct (same_attempt obj r) eqn:Hs; [|reflexivity].
    apply same_attempt_eq in Hs. exact Hs.
  - apply map_ext_in. intros r Hr. destruct (same_attempt obj r) eqn:Hs; [|reflexivity].
    apply same_attempt_eq in Hs.
    rewrite (NoDup_key_eq ea_id rows r a Hnd Hr Hin) by congruence. exact Hpair.
  - apply in_map_iff. exists a. split; [|exact Hin].
    rewrite (proj2 (same_attempt_eq obj a) Hid). reflexivity.
Qed.

Lemma submit_view_terminal (env : Env) (w : World) (user : User) (payload : json)
    (a : ExamAttempt) :
  attempts_unique (db w) -> In a (attempts (db w)) ->
  ea_student a = u_id user -> terminal (ea_status a) = true ->
  StudentSubmitExamView.create user (e_id (ea_exam a)) payload env w
  = (Ok (already_submitted_response (ea_submit_time a)), w).
Proof.
  intros Hu Hin Hs Ht.
  destruct (attempts_with_terminal (db w) a Hu Hin Ht) as [Hnone Hone].
  unfold StudentSubmitExamView.create, bind at 1, query at 1. rewrite <- Hs, Hnone. simpl.
  unfold bind at 1, query at 1. rewrite Hone. reflexivity.
Qed.

Lemma submit_view_first (env : Env) (w w1 : World) (user : User) (exam_id : uuid)
    (payload : json) (resp : Response) (a : ExamAttempt) :
  attempts_pk (db w) -> attempts_unique (db w) ->
  head (attempts_with exam_id (u_id user) [in_progress] (db w)) = Some a ->
  StudentSubmitExamView.create user exam_id payload env w = (Ok resp, w1) ->
  exists a1 t,
    In a1 (attempts (db w1)) /\ attempts_unique (db w1)
    /\ ea_id a1 = ea_id a /\ attempt_pair a1 = attempt_pair a
    /\ ea_status a1 = submitted /\ ea_submit_time a1 = Some t
    /\ response_field "submittedAt" resp = JInt t
    /\ status resp = 200%nat
    /\ length (results_of (ea_id a) (db w1)) = 1%nat.
Proof.
  intros Hpk Hu Hhead Hrun.
  pose proof (head_In _ _ Hhead) as Hin. apply attempts_with_In in Hin as (Hin & _ & He & Hs).
  unfold StudentSubmitExamView.create in Hrun.
  apply bind_ok in Hrun as (o & w0 & H0 & Hrun). injection H0 as <- <-.
  rewrite Hhead in Hrun.
  apply bind_ok in Hrun as (n & w2 & H2 & Hrun).
  assert (Hatt2 : attempts (db w2) = attempts (db w)).
  { pose proof (keeps_persist_any (fun d => attempts d = attempts (db w)) a payload
                  (fun _ _ H => H) env w eq_refl) as [Hk _].
    rewrite H2 in Hk. exact Hk. }
  apply bind_ok in Hrun as (now & w3 & H3 & Hrun).
  unfold timezone_now in H3. injection H3 as <- <-.
  apply bind_ok in Hrun as (u & w4 & H4 & Hrun).
  apply write_ok in H4 as [Hdb4 _]. simpl in Hdb4.
  apply bind_ok in Hrun as ([r obj'] & w5 & H5 & Hrun).
  apply ret_ok in Hrun as [-> ->].
  apply calculate_ok_effect in H5 as ((o & ->) & Hatt5 & Hres5 & _).
  set (t := now_at env (ticks w2)) in *.
  set (obj := finalized a submitted t) in *.
  set (obj1 := with_scores obj (e_total_marks (ea_exam obj)) o) in *.
  destruct (save_attempt_rows_keys obj a (attempts (db w)) Hpk Hin eq_refl eq_refl)
    as (Hid4 & Hpair4 & Hin4).
  assert (Hpk4 : NoDup (map ea_id (save_attempt_rows obj (attempts (db w)))))
    by (rewrite Hid4; exact Hpk).
  destruct (save_attempt_rows_keys obj1 obj _ Hpk4 Hin4 eq_refl eq_refl)
    as (Hid5 & Hpair5 & Hin5).
  exists obj1, t. rewrite Hatt5, Hdb4. simpl. rewrite Hatt2.
  split; [exact Hin5|]. split.
  { unfold attempts_unique. rewrite Hatt5, Hdb4. simpl. rewrite Hatt2.
    rewrite Hpair5, Hpair4. exact Hu. }
  repeat split; try reflexivity.
  change (ea_id a) with (ea_id obj). rewrite Hres5. reflexivity.
Qed.

(** C8. A submit for an attempt that is already submitted or auto_submitted
    returns success with the stored submit time, reads no clock and changes
    nothing; and after a first successful submit of an in-progress attempt, a
    second submit returns success with the same submit time, changes nothing,
    and the attempt has exactly one result row. *)
Theorem submit_is_idempotent (env : Env) (w : World) (user : User) (exam_id : uuid)
    (payload : json) :
  (forall a,
      attempts_unique (db w) -> In a (attempts (db w)) ->
      e_id (ea_exam a) = exam_id -> ea_student a = u_id user ->
      terminal (ea_status a) = true ->
      StudentSubmitExamView.create user exam_id payload env w
      = (Ok (already_submitted_response (ea_submit_time a)), w))
  /\ (forall a resp w1 payload',
        attempts_pk (db w) -> attempts_unique (db w) ->
        head (attempts_with exam_id (u_id user) [in_progress] (db w)) = Some a ->
        StudentSubmitExamView.create user exam_id payload env w = (Ok resp, w1) ->
        exists resp',
          StudentSubmitExamView.create user exam_id payload' env w1 = (Ok resp', w1)
          /\ status resp' = status resp
          /\ response_field "submittedAt" resp' = response_field "submittedAt" resp
          /\ length (results_of (ea_id a) (db w1)) = 1%nat).
Proof.
  split.
  - intros a Hu Hin <- Hs Ht. apply submit_view_terminal; assumption.
  - intros a resp w1 payload' Hpk Hu Hhead Hrun.
    pose proof (head_In _ _ Hhead) as Hin.
    apply attempts_with_In in Hin as (Hin & _ & He & Hs).
    destruct (submit_view_first env w w1 user exam_id payload resp a Hpk Hu Hhead Hrun)
      as (a1 & t & Hin1 & Hu1 & Hid1 & Hpair1 & Hst1 & Ht1 & Hat & Hcode & Hres).
    injection Hpair1 as He1 Hs1.
    exists (already_submitted_response (ea_submit_time a1)). split; [|split; [|split]].
    + rewrite <- He, <- He1. apply submit_view_terminal; try assumption.
      * congruence.
      * rewrite Hst1. reflexivity.
    + rewrite Hcode. reflexivity.
    + rewrite Hat, Ht1. reflexivity.
    + exact Hres.
Qed.

(** ** Rows by key *)

Lemma find_attempt_save (i : uuid) (obj : ExamAttempt) (d : DB) :
  find_attempt i (set_attempts (save_attempt_rows obj) d)
  = if (ea_id obj =? i)%N then Some obj else find_attempt i d.
Proof.
  unfold find_attempt, save_attempt_rows. simpl.
  destruct (ea_id obj =? i)%N eqn:Hi.
  - apply N.eqb_eq in Hi. destruct (existsb (same_attempt obj) (attempts d)) eqn:Hex.
    + apply existsb_exists in Hex as (r & Hr & Hs).
      induction (attempts d) as [|x rows IH]; [destruct Hr|]. simpl.
      destruct (same_attempt obj x) eqn:Hx.
      * rewrite Hi, N.eqb_refl. reflexivity.
      * assert ((ea_id x =? i)%N = false) as ->.
        { apply N.eqb_neq. intros He. rewrite <- not_true_iff_false in Hx. apply Hx.
          apply same_attempt_eq. congruence. }
        apply IH. destruct Hr as [->|Hr]; [congruence|exact Hr].
    + simpl. rewrite Hi, N.eqb_refl. reflexivity.
  - assert (Hframe : List.filter (fun r => (ea_id r =? i)%N)
                       (map (fun r => if same_attempt obj r then obj else r) (attempts d))
                     = List.filter (fun r => (ea_id r =? i)%N) (attempts d)).
    { apply filter_map_frame.
      - intros x. destruct (same_attempt obj x) eqn:Hx; [|reflexivity].
        apply same_attempt_eq in Hx. rewrite <- Hx, Hi. reflexivity.
      - intros x Hx. destruct (same_attempt obj x) eqn:Hs; [|reflexivity].
        apply same_attempt_eq in Hs. apply N.eqb_eq in Hx. apply N.eqb_neq in Hi.
        congruence. }
    destruct (existsb (same_attempt obj) (attempts d)).
    + rewrite Hframe. reflexivity.
    + simpl. rewrite Hi. reflexivity.
Qed.

Lemma find_attempt_member (d : DB) (a : ExamAttempt) :
  attempts_pk d -> In a (attempts d) -> find_attempt (ea_id a) d = Some a.
Proof.
  intros Hpk Hin. unfold find_attempt.
  rewrite (filter_unique_key ea_id _ (attempts d) a); [reflexivity| |exact Hpk|exact Hin].
  intros x. apply N.eqb_eq.
Qed.

Lemma answers_of_save_other (j : uuid) (a : Answer) (rows : list Answer) :
  an_attempt a <> j ->
  List.filter (fun x => (an_attempt x =? j)%N) (save_answer_rows a rows)
  = List.filter (fun x => (an_attempt x =? j)%N) rows.
Proof.
  intros Hne. unfold save_answer_rows.
  assert (Haj : (an_attempt a =? j)%N = false) by (apply N.eqb_neq; exact Hne).
  destruct (existsb (same_answer a) rows).
  - apply filter_map_frame.
    + intros x. destruct (same_answer a x) eqn:Hs; [|reflexivity].
      apply andb_true_iff in Hs as [Hs _]. apply N.eqb_eq in Hs.
      rewrite <- Hs, Haj. reflexivity.
    + intros x Hx. destruct (same_answer a x) eqn:Hs; [|reflexivity].
      apply andb_true_iff in Hs as [Hs _]. apply N.eqb_eq in Hs, Hx. congruence.
  - rewrite List.filter_app. simpl. rewrite Haj. apply app_nil_r.
Qed.

Lemma results_of_upsert_other (j i : uuid) (r : Result) (rows : list Result) :
  r_attempt r = i -> i <> j ->
  List.filter (fun x => (r_attempt x =? j)%N)
    (map (fun x => if (r_attempt x =? i)%N then r else x) rows)
  = List.filter (fun x => (r_attempt x =? j)%N) rows.
Proof.
  intros Hr Hne. apply filter_map_frame.
  - intros x. destruct (r_attempt x =? i)%N eqn:Hx; [|reflexivity].
    apply N.eqb_eq in Hx. rewrite Hr, Hx. reflexivity.
  - intros x Hx. destruct (r_attempt x =? i)%N eqn:Hi; [|reflexivity].
    apply N.eqb_eq in Hx, Hi. congruence.
Qed.

(** ** What recomputing one attempt can touch *)

Section Frame.

Variables (obj : ExamAttempt) (j : uuid)
          (kept : option ExamAttempt * list Answer * list Result).
Hypothesis other : ea_id obj <> j.

Local Abbreviation I := (view_is j kept).

Lemma frame_grade_answers (l : list Answer) :
  (forall a, In a l -> an_attempt a = ea_id obj) ->
  keeps I (grade_answers l) (fun _ => True).
Proof.
  induction l as [|a l IH]; intros Hl; simpl.
  - keeps_done.
  - eapply keeps_bind with (Q := fun _ => True).
    + assert (Hw : keeps I (save_answer
                              (with_score a (Some (auto_evaluate_mcq (an_question a)
                                                     (an_answer a)))))
                     (fun _ => True)).
      { apply keeps_write. intros d Hd. unfold view_is, view in *. rewrite <- Hd.
        unfold answers_of. simpl. rewrite answers_of_save_other; [reflexivity|].
        simpl. rewrite (Hl a (or_introl eq_refl)). exact other. }
      unfold grade_answer.
      destruct (q_type (an_question a));
        try (keeps_done);
        (eapply keeps_bind; [exact Hw|]; intros _ _; keeps_done).
    + intros a' _. eapply keeps_bind; [apply IH|].
      * intros b Hb. apply Hl. right. exact Hb.
      * intros l' _. keeps_done.
Qed.

Lemma frame_save_attempt (o : ExamAttempt) :
  ea_id o = ea_id obj -> keeps I (save_attempt o) (fun _ => True).
Proof.
  intros Ho. apply keeps_write. intros d Hd. unfold view_is, view in *. rewrite <- Hd.
  rewrite find_attempt_save.
  assert ((ea_id o =? j)%N = false) as -> by (apply N.eqb_neq; congruence).
  reflexivity.
Qed.

Lemma frame_update_or_create (defaults : Result) :
  r_attempt defaults = ea_id obj ->
  keeps I (update_or_create_result (ea_id obj) defaults) (fun _ => True).
Proof.
  intros Hr. unfold update_or_create_result.
  eapply keeps_bind; [apply keeps_query_any|]. intros rows _.
  destruct rows as [|old [|]]; [| |apply keeps_raise].
  - eapply keeps_bind; [apply keeps_result_row|]. intros row [-> _].
    eapply keeps_bind; [|intros _ _; keeps_done].
    apply keeps_write. intros d Hd. unfold view_is, view in *. rewrite <- Hd.
    unfold results_of. simpl. rewrite Hr.
    assert ((ea_id obj =? j)%N = false) as -> by (apply N.eqb_neq; exact other).
    reflexivity.
  - eapply keeps_bind; [apply keeps_result_row|]. intros row [-> _].
    eapply keeps_bind; [|intros _ _; keeps_done].
    apply keeps_write. intros d Hd. unfold view_is, view in *. rewrite <- Hd.
    unfold results_of. simpl.
    rewrite results_of_upsert_other; [reflexivity|exact Hr|exact other].
Qed.

Lemma frame_calculate : keeps I (calculate_exam_result obj) (fun _ => True).
Proof.
  unfold calculate_exam_result.
  eapply keeps_bind with (Q := fun l => forall a, In a l -> an_attempt a = ea_id obj).
  { apply keeps_query. intros d _ a Ha. apply filter_In in Ha as [_ Ha].
    apply N.eqb_eq in Ha. exact Ha. }
  intros answers0 Hl.
  eapply keeps_bind; [apply frame_grade_answers, Hl|]. intros answers1 _.
  eapply keeps_bind; [apply keeps_to_column|]. intros _ _.
  eapply keeps_bind; [apply frame_save_attempt; reflexivity|]. intros _ _.
  eapply keeps_bind with (Q := fun _ => True).
  { simpl. destruct (ea_submit_time obj); [keeps_done|apply keeps_now]. }
  intros t _.
  eapply keeps_bind; [apply frame_update_or_create; reflexivity|]. intros r _.
  keeps_done.
Qed.

End Frame.

(** The row of the recomputed attempt is the object, with some scores. *)
Lemma calculate_row (obj : ExamAttempt) :
  keeps (fun d => find_attempt (ea_id obj) d = Some obj
                  \/ exists o, find_attempt (ea_id obj) d
                               = Some (with_scores obj (e_total_marks (ea_exam obj)) o))
    (calculate_exam_result obj) (fun _ => True).
Proof.
  unfold calculate_exam_result.
  eapply keeps_bind; [apply keeps_query_any|]. intros answers0 _.
  eapply keeps_bind; [apply keeps_grade_answers_results; auto|]. intros answers1 _.
  eapply keeps_bind; [apply keeps_to_column|]. intros _ _.
  eapply keeps_bind.
  { apply keeps_write. intros d _. right. eexists.
    rewrite find_attempt_save. simpl. rewrite N.eqb_refl. reflexivity. }
  intros _ _.
  eapply keeps_bind with (Q := fun _ => True).
  { simpl. destruct (ea_submit_time obj); [keeps_done|apply keeps_now]. }
  intros t _.
  eapply keeps_bind with (Q := fun _ => True);
    [|intros; keeps_done].
  unfold update_or_create_result.
  eapply keeps_bind; [apply keeps_query_any|]. intros rows _.
  destruct rows as [|old [|]]; [| |apply keeps_raise];
    (eapply keeps_bind; [apply keeps_result_row|]; intros row _;
     eapply keeps_bind; [apply keeps_write; auto|]; intros _ _;
     keeps_done).
Qed.

(** ** A loop over a snapshot of attempts *)

Section Loop.

Variables (env : Env) (body : nat -> ExamAttempt -> M nat)
          (active : ExamAttempt -> bool)
          (Pre : ExamAttempt ->
                 option ExamAttempt * list Answer * list Result -> Prop)
          (Post : ExamAttempt ->
                  option ExamAttempt * list Answer * list Result ->
                  option ExamAttempt * list Answer * list Result -> Prop)
          (Abort : ExamAttempt -> exn -> Prop).

(** A pass that returns touches what the database holds about its own
    attempt only, and nothing when the attempt is not active; a pass that
    raises has changed nothing. *)
Hypothesis body_spec : forall c x w,
  Pre x (view (ea_id x) (db w)) ->
  match body c x env w with
  | (Ok _, w') =>
      if active x
      then (forall j, ea_id x <> j -> view j (db w') = view j (db w))
           /\ Post x (view (ea_id x) (db w)) (view (ea_id x) (db w'))
      else db w' = db w
  | (Raise e, w') => active x = true /\ db w' = db w /\ Abort x e
  end.

Lemma loop_spec (l : list ExamAttempt) :
  NoDup (map ea_id l) ->
  forall c w,
    (forall x, In x l -> Pre x (view (ea_id x) (db w))) ->
    match for_fold l body c env w with
    | (Ok _, w') =>
        (forall x, In x l -> active x = true ->
                   Post x (view (ea_id x) (db w)) (view (ea_id x) (db w')))
        /\ (forall j, (forall x, In x l -> active x = true -> ea_id x <> j) ->
                      view j (db w') = view j (db w))
    | (Raise e, w') =>
        exists x, In x l /\ active x = true
                  /\ view (ea_id x) (db w') = view (ea_id x) (db w)
                  /\ Abort x e
    end.
Proof.
  induction l as [|x l IH]; intros Hnd c w Hpre.
  - simpl. split; [intros y []|reflexivity].
  - apply NoDup_cons in Hnd as [Hx Hnd]. rewrite list_elem_of_In in Hx.
    pose proof (body_spec c x w (Hpre x (or_introl eq_refl))) as Heff.
    simpl. unfold bind.
    destruct (body c x env w) as [[c1|e] w1].
    + assert (Hsame : forall y, In y l -> view (ea_id y) (db w1) = view (ea_id y) (db w)).
      { intros y Hy. destruct (active x).
        - apply Heff. intros He. apply Hx. rewrite He. apply in_map, Hy.
        - rewrite Heff. reflexivity. }
      specialize (IH Hnd c1 w1).
      destruct (for_fold l body c1 env w1) as [[c'|e] w'].
      * destruct IH as [Hpost Hframe].
        { intros y Hy. rewrite Hsame by exact Hy. apply Hpre. right. exact Hy. }
        split.
        -- intros y [<-|Hy] Hact.
           ++ rewrite Hact in Heff. destruct Heff as [_ Hp].
              rewrite Hframe; [exact Hp|].
              intros z Hz _ He. apply Hx. rewrite <- He. apply in_map, Hz.
           ++ rewrite <- (Hsame y Hy). apply Hpost; assumption.
        -- intros j Hj. rewrite Hframe.
           ++ destruct (active x) eqn:Hact.
              ** apply Heff. apply Hj; [left; reflexivity|exact Hact].
              ** rewrite Heff. reflexivity.
           ++ intros z Hz. apply Hj. right. exact Hz.
      * destruct IH as (y & Hy & Hact & Hview & Hab).
        { intros y Hy. rewrite Hsame by exact Hy. apply Hpre. right. exact Hy. }
        exists y. split; [right; exact Hy|]. split; [exact Hact|].
        split; [|exact Hab]. rewrite Hview. apply Hsame, Hy.
    + destruct Heff as (Hact & Hdb & Hab).
      exists x. split; [left; reflexivity|]. split; [exact Hact|].
      split; [|exact Hab]. rewrite Hdb. reflexivity.
Qed.

End Loop.

(** ** Finalizing one expired attempt *)

Lemma view_save_other (obj : ExamAttempt) (j : uuid) (d : DB) :
  ea_id obj <> j -> view j (set_attempts (save_attempt_rows obj) d) = view j d.
Proof.
  intros Hne. unfold view. rewrite find_attempt_save.
  assert ((ea_id obj =? j)%N = false) as -> by (apply N.eqb_neq; exact Hne).
  reflexivity.
Qed.

Lemma find_attempt_recomputed (obj : ExamAttempt) (t : timestamp) (d : DB) :
  find_attempt (ea_id obj) (recomputed obj t d)
  = Some (with_scores obj (e_total_marks (ea_exam obj))
            (sum_scores (map graded (answers_of (ea_id obj) d)))).
Proof.
  unfold recomputed.
  set (obj1 := with_scores obj _ _).
  set (d1 := set_answers _ d).
  change (find_attempt (ea_id obj1) (set_attempts (save_attempt_rows obj1) d1) = Some obj1).
  rewrite find_attempt_save, N.eqb_refl. reflexivity.
Qed.

Section Finalize.

Variables (env : Env) (x : ExamAttempt).
Hypothesis quiet : quiet_for env (ea_id x).

Local Abbreviation obj := (auto_finalized x).

Lemma save_finalized_quiet (w : World) :
  save_attempt obj env w
  = (Ok tt, {| db := set_attempts (save_attempt_rows obj) (db w);
               ticks := ticks w; writes := S (writes w) |}).
Proof. unfold save_attempt. apply (write_quiet env (ea_id x) quiet). Qed.

Lemma calculate_finalized_quiet (w : World) :
  (length (results_of (ea_id x) (db w)) <= 1)%nat ->
  sweep_fits x (answers_of (ea_id x) (db w)) = true ->
  exists r obj1 w',
    calculate_exam_result obj env
      {| db := set_attempts (save_attempt_rows obj) (db w);
         ticks := ticks w; writes := S (writes w) |}
    = (Ok (r, obj1), w')
    /\ (forall j, ea_id x <> j -> view j (db w') = view j (db w))
    /\ sweep_post x (view (ea_id x) (db w)) (view (ea_id x) (db w')).
Proof.
  intros Hone Hfits.
  set (w1 := {| db := set_attempts (save_attempt_rows obj) (db w) |}).
  destruct (calculate_exam_result_quiet env (ea_id x) quiet obj
              (get_attempt_end_time x) w1 eq_refl eq_refl)
    as (w' & Hrun & Hdb & _); [exact Hfits|exact Hone|].
  eexists _, _, w'. split; [exact Hrun|]. split.
  - intros j Hj.
    pose proof (frame_calculate obj j (view j (db w1)) Hj env w1 eq_refl) as [Hk _].
    rewrite Hrun in Hk. simpl in Hk. rewrite Hk. subst w1. simpl.
    apply view_save_other. exact Hj.
  - rewrite Hdb. unfold sweep_post, view. simpl fst. simpl snd. split.
    + change (ea_id x) with (ea_id obj). rewrite find_attempt_recomputed. reflexivity.
    + change (ea_id x) with (ea_id obj).
      rewrite results_of_recomputed by exact Hone. reflexivity.
Qed.

End Finalize.

Lemma swept_row_finalized (x : ExamAttempt) : swept_row x (auto_finalized x).
Proof. unfold swept_row. repeat split; reflexivity. Qed.

Lemma swept_row_scores (x : ExamAttempt) (t o : Decimal) :
  swept_row x (with_scores (auto_finalized x) t o).
Proof. unfold swept_row. repeat split; reflexivity. Qed.

(** ** The sweep of [exams/tasks.py] without storage errors *)

Section TaskSweep.

Variables (env : Env) (now : timestamp).
Hypothesis quiet : forall t k n, fault_at env t k n = false.

Lemma task_body_spec (c : nat) (x : ExamAttempt) (w : World) :
  one_result_row (view (ea_id x) (db w))
  /\ (expired now x = true -> sweep_fits x (snd (fst (view (ea_id x) (db w)))) = true) ->
  match task_body now c x env w with
  | (Ok _, w') =>
      if expired now x
      then (forall j, ea_id x <> j -> view j (db w') = view j (db w))
           /\ sweep_post x (view (ea_id x) (db w)) (view (ea_id x) (db w'))
      else db w' = db w
  | (Raise e, w') => expired now x = true /\ db w' = db w /\ False
  end.
Proof.
  intros [Hone Hfits]. unfold task_body. unfold expired in *.
  destruct (get_attempt_end_time x <? now); [|reflexivity].
  unfold bind at 1. fold (auto_finalized x).
  rewrite (save_finalized_quiet env x (fun t n => quiet t (ea_id x) n)).
  destruct (calculate_finalized_quiet env x (fun t n => quiet t (ea_id x) n) w Hone
              (Hfits eq_refl))
    as (r & obj1 & w' & Hrun & Hframe & Hpost).
  unfold bind at 1. rewrite Hrun. simpl. split; assumption.
Qed.

End TaskSweep.

Lemma in_progress_attempts_pk (d : DB) :
  attempts_pk d -> NoDup (map ea_id (in_progress_attempts d)).
Proof. apply NoDup_map_filter. Qed.

Lemma results_unique_one (d : DB) (i : uuid) :
  results_unique d -> (length (results_of i d) <= 1)%nat.
Proof.
  unfold results_unique, results_of.
  induction (results d) as [|r rows IH]; simpl; [lia|].
  intros Hnd. apply NoDup_cons in Hnd as [Hr Hnd].
  destruct (r_attempt r =? i)%N eqn:Hi; [|apply IH, Hnd].
  simpl. rewrite filter_none; [simpl; lia|].
  intros y Hy. apply N.eqb_neq. intros He. apply Hr. apply N.eqb_eq in Hi.
  apply list_elem_of_In. rewrite Hi, <- He. apply in_map, Hy.
Qed.

(** After the sweep of the celery task, without storage errors and when the
    result of every attempt it finalizes fits the columns: every attempt that
    was in progress past its deadline is auto-submitted at the deadline and
    its result is recomputed; every other attempt is as it was. *)
Lemma task_sweep_spec (env : Env) (w : World) :
  (forall t k n, fault_at env t k n = false) ->
  attempts_pk (db w) -> results_unique (db w) ->
  (forall a, In a (attempts (db w)) ->
     is_in_progress a && expired (now_at env (ticks w)) a = true ->
     sweep_fits a (answers_of (ea_id a) (db w)) = true) ->
  exists count w',
    auto_submit_expired_exams env w = (Ok count, w')
    /\ forall a, In a (attempts (db w)) ->
         if is_in_progress a && expired (now_at env (ticks w)) a
         then sweep_post a (view (ea_id a) (db w)) (view (ea_id a) (db w'))
         else view (ea_id a) (db w') = view (ea_id a) (db w).
Proof.
  intros quiet Hpk Hres Hfits.
  unfold auto_submit_expired_exams, bind at 1, timezone_now at 1.
  unfold bind at 1, query at 1. simpl db.
  set (now := now_at env (ticks w)) in *.
  set (w0 := {| db := db w; ticks := S (ticks w) |}).
  pose proof (loop_spec env (task_body now) (expired now)
                (fun x v => one_result_row v
                            /\ (expired now x = true -> sweep_fits x (snd (fst v)) = true))
                sweep_post (fun _ _ => False)
                (task_body_spec env now quiet)
                (in_progress_attempts (db w)) (in_progress_attempts_pk _ Hpk) O w0)
    as Hloop.
  destruct (for_fold (in_progress_attempts (db w)) (task_body now) 0%nat env w0)
    as [[count|e] w'] eqn:Hrun.
  - destruct Hloop as [Hpost Hframe].
    { intros x Hx. split; [apply results_unique_one, Hres|].
      intros Hexp. apply filter_In in Hx as [Hx Hip]. apply Hfits; [exact Hx|].
      rewrite Hip, Hexp. reflexivity. }
    exists count, w'. split; [exact Hrun|].
    intros a Ha.
    destruct (is_in_progress a && expired now a) eqn:Hact.
    + apply andb_true_iff in Hact as [Hip Hexp].
      apply (Hpost a); [apply filter_In; auto | exact Hexp].
    + apply (Hframe (ea_id a)). intros y Hy Hexp He.
      apply filter_In in Hy as [Hy Hip].
      assert (y = a) as -> by (apply (NoDup_key_eq ea_id (attempts (db w))); assumption).
      rewrite Hip, Hexp in Hact. discriminate.
  - destruct Hloop as (x & _ & _ & _ & []).
    intros x Hx. split; [apply results_unique_one, Hres|].
    intros Hexp. apply filter_In in Hx as [Hx Hip]. apply Hfits; [exact Hx|].
    rewrite Hip, Hexp. reflexivity.
Qed.

(** ** The sweep of the management command under errors *)

Section CommandSweep.

Variables (env : Env) (now : timestamp).

Local Abbreviation graded_through x v0 :=
  (quiet_for env (ea_id x) /\ sweep_fits x (snd (fst v0)) = true).

Lemma command_body_spec (c : nat) (x : ExamAttempt) (w : World) :
  one_result_row (view (ea_id x) (db w)) ->
  match command_body now c x env w with
  | (Ok _, w') =>
      if expired now x
      then (forall j, ea_id x <> j -> view j (db w') = view j (db w))
           /\ command_post (graded_through x (view (ea_id x) (db w))) x
                (view (ea_id x) (db w)) (view (ea_id x) (db w'))
      else db w' = db w
  | (Raise e, w') =>
      expired now x = true /\ db w' = db w /\ status_save_refused env x e
  end.
Proof.
  intros Hone. unfold command_body, expired.
  destruct (get_attempt_end_time x <? now); [|reflexivity].
  fold (auto_finalized x). set (obj := auto_finalized x).
  unfold bind at 1, save_attempt, write.
  destruct (fault_at env Attempts (ea_id obj) (writes w)) eqn:Hfault.
  { split; [reflexivity|]. split; [reflexivity|]. split; [reflexivity|].
    exists (writes w). exact Hfault. }
  set (w1 := {| db := set_attempts (save_attempt_rows obj) (db w) |}).
  unfold try_except.
  pose proof (calculate_row obj env w1) as [Hrow _].
  { left. subst w1. simpl. rewrite find_attempt_save, N.eqb_refl. reflexivity. }
  assert (Hframe : forall j, ea_id x <> j ->
                     view j (db (snd (calculate_exam_result obj env w1))) = view j (db w)).
  { intros j Hj.
    pose proof (frame_calculate obj j (view j (db w1)) Hj env w1 eq_refl) as [Hk _].
    rewrite Hk. subst w1. simpl. apply view_save_other. exact Hj. }
  assert (Hpost : command_post (graded_through x (view (ea_id x) (db w))) x
                    (view (ea_id x) (db w))
                    (view (ea_id x) (db (snd (calculate_exam_result obj env w1))))).
  { split.
    - unfold view. simpl. change (ea_id x) with (ea_id obj).
      destruct Hrow as [-> | [o ->]]; eexists; (split; [reflexivity|]).
      + apply swept_row_finalized.
      + apply swept_row_scores.
    - intros [Hquiet Hfits].
      destruct (calculate_finalized_quiet env x Hquiet w Hone Hfits)
        as (r & obj1 & w' & Hrun & _ & Hp).
      fold obj in Hrun. fold w1 in Hrun. rewrite Hrun. exact Hp. }
  unfold bind. destruct (calculate_exam_result obj env w1) as [[v|e] w']; simpl in *;
    split; assumption.
Qed.

End CommandSweep.


(** ** Finalization on the start path *)

Lemma bind_run {A B} (m : M A) (k : A -> M B) (env : Env) (w w1 : World) (a : A) :
  m env w = (Ok a, w1) -> bind m k env w = k a env w1.
Proof. intros H. unfold bind. rewrite H. reflexivity. Qed.


Lemma start_view_expired (env : Env) (w : World) (user : User)
    (exam_id new_id : uuid) (exam : Exam) (a : ExamAttempt) :
  (forall t n, fault_at env t (ea_id a) n = false) ->
  head (List.filter (fun e => (e_id e =? exam_id)%N) (exams (db w))) = Some exam ->
  head (attempts_with (e_id exam) (u_id user) [in_progress] (db w)) = Some a ->
  (length (results_of (ea_id a) (db w)) <= 1)%nat ->
  sweep_fits a (answers_of (ea_id a) (db w)) = true ->
  get_attempt_end_time a < now_at env (ticks w) ->
  let t := now_at env (S (ticks w)) in
  let obj := finalized a auto_submitted t in
  exists w',
    StudentStartExamView.create user exam_id new_id env w = (Ok expiry_response, w')
    /\ find_attempt (ea_id a) (db w')
       = Some (with_scores obj (e_total_marks (ea_exam a))
                 (sum_scores (map graded (answers_of (ea_id a) (db w)))))
    /\ results_of (ea_id a) (db w') = [as_stored (recomputed_result obj t (db w))].
Proof.
  intros quiet Hexam Hhead Hone Hfits Hlate t obj.
  apply Z.ltb_lt in Hlate.
  set (w0 := {| db := db w; ticks := S (ticks w); writes := writes w |}).
  set (w1 := {| db := db w; ticks := S (S (ticks w)); writes := writes w |}).
  set (w2 := {| db := set_attempts (save_attempt_rows obj) (db w);
                ticks := S (S (ticks w)); writes := S (writes w) |}).
  destruct (calculate_exam_result_quiet env (ea_id a) quiet obj t w2 eq_refl eq_refl)
    as (w' & Hrun & Hdb & _); [exact Hfits|exact Hone|].
  exists w'. split; [|rewrite Hdb; split].
  - unfold StudentStartExamView.create.
    erewrite bind_run; [|unfold query; rewrite Hexam; reflexivity]. cbv beta iota.
    erewrite bind_run; [|unfold query; rewrite Hhead; reflexivity]. cbv beta iota.
    erewrite (bind_run _ _ env w w0 0);
      [|unfold get_attempt_remaining_time, bind, timezone_now; rewrite Hlate; reflexivity].
    erewrite (bind_run _ _ env w0 w0 true); [|reflexivity]. cbv beta iota.
    erewrite (bind_run _ _ env w0 w1 t); [|reflexivity].
    erewrite (bind_run _ _ env w1 w2 tt);
      [|unfold save_attempt; apply (write_quiet env (ea_id a) quiet)].
    erewrite bind_run; [|exact Hrun]. reflexivity.
  - change (ea_id a) with (ea_id obj). rewrite find_attempt_recomputed. reflexivity.
  - change (ea_id a) with (ea_id obj). rewrite results_of_recomputed by exact Hone.
    reflexivity.
Qed.


(** ** The scenarios of the specification *)

Example scenario_mcq :
  let obj := auto_finalized (Scenario.attempt 100 Scenario.student) in
  let r := recomputed_result obj (minutes 60) Scenario.db_running in
  auto_evaluate_mcq Scenario.question (JStr "1") = 1000
  /\ fst (calculate_exam_result obj Scenario.env_late (world_of Scenario.db_running))
     = Ok (r, rescored obj Scenario.db_running)
  /\ r_obtained_marks r = 1000
  /\ r_percentage r = 100%Q
  /\ r_grading_status r = fully_graded
  /\ r_status r = pass.
Proof. repeat split; vm_compute; reflexivity. Qed.

Example scenario_descriptive :
  let w := world_of Scenario.db_essay in
  let before := recomputed_result Scenario.submitted_attempt (minutes 30)
                  Scenario.db_essay in
  let w1 := snd (StaffEvaluateAnswerView.create 9 100 (JInt 3) 700 "Good"
                   Scenario.env_late w) in
  fst (calculate_exam_result Scenario.submitted_attempt Scenario.env_late w)
  = Ok (before, rescored Scenario.submitted_attempt Scenario.db_essay)
  /\ r_obtained_marks before = 0
  /\ r_grading_status before = grading_pending
  /\ r_status before = pending
  /\ map r_obtained_marks (results_of 100 (db w1)) = [700]
  /\ map r_grading_status (results_of 100 (db w1)) = [fully_graded]
  /\ map r_status (results_of 100 (db w1)) = [pass].
Proof. repeat split; vm_compute; reflexivity. Qed.

Example scenario_department_alias :
  is_department_allowed (JStr "Computer Science") (JList [JStr "CSE"]) = true
  /\ is_department_allowed (JStr "Civil") (JStr "[ 'CSE', IT ]") = false
  /\ is_department_allowed JNull (JList []) = true.
Proof. repeat split; vm_compute; reflexivity. Qed.

Example percentage_examples :
  Dec.percent 1 3 = 33.33333333333333333333333333%Q
  /\ Dec.percent 2 3 = 66.66666666666666666666666667%Q
  /\ Dec.percent 1000 1000 = 100%Q.
Proof. repeat split; vm_compute; reflexivity. Qed.

(** ** The deadline resolver *)

Lemma get_attempt_end_time_exam (attempt : ExamAttempt) :
  get_attempt_end_time attempt
  = spec_resolveDeadline (ea_exam attempt) None.
Proof. reflexivity. Qed.

Lemma remaining_time_against_end_time (attempt : ExamAttempt) (env : Env) (w : World) :
  fst (get_attempt_remaining_time attempt env w)
  = Ok (if get_attempt_end_time attempt <? now_at env (ticks w) then 0
        else whole_seconds (get_attempt_end_time attempt - now_at env (ticks w))).
Proof.
  unfold get_attempt_remaining_time, bind, timezone_now.
  destruct (_ <? _); reflexivity.
Qed.

(** C1, at a student with a 20 minute extension: the specified deadline is
    the end of the exam plus 20 minutes, [get_attempt_end_time] is the end of
    the exam; ten minutes after the end the remaining time is 0; and a start
    20 minutes before the end reports 1200 seconds, where the regression test
    of the repository expects at least 1200 + 19 * 60. *)
Theorem extension_not_applied :
  let attempt := Scenario.attempt 100 Scenario.student in
  let extension := active_extension 1 7 Scenario.db_running in
  extension = Some Scenario.extension
  /\ spec_resolveDeadline Scenario.exam extension = minutes 80
  /\ get_attempt_end_time attempt = minutes 60
  /\ fst (get_attempt_remaining_time attempt
            (reliable (Scenario.clock_at (minutes 70)) Scenario.conv)
            (world_of Scenario.db_running)) = Ok 0
  /\ exists resp w',
       StudentStartExamView.create Scenario.student 1 100
         (reliable (Scenario.clock_at (minutes 40)) Scenario.conv)
         (world_of Scenario.db_fresh) = (Ok resp, w')
       /\ status resp = 201%nat
       /\ response_field "time_remaining_seconds" resp = JInt 1200.
Proof.
  repeat split; try (vm_compute; reflexivity).
  eexists _, _. split; [vm_compute; reflexivity|]. split; reflexivity.
Qed.

(** C2, at the same student: ten minutes after the end of the exam the
    extended deadline has not passed, yet the sweep stores the attempt as
    auto_submitted, with the end of the exam as submit time. *)
Theorem sweep_ignores_extension :
  let env := reliable (Scenario.clock_at (minutes 70)) Scenario.conv in
  let w' := snd (auto_submit_expired_exams env (world_of Scenario.db_running)) in
  spec_resolveDeadline Scenario.exam (active_extension 1 7 Scenario.db_running)
  = minutes 80
  /\ now_at env O < minutes 80
  /\ find_attempt 100 Scenario.db_running
     = Some (Scenario.attempt 100 Scenario.student)
  /\ option_map ea_status (find_attempt 100 (db w')) = Some auto_submitted
  /\ option_map ea_submit_time (find_attempt 100 (db w')) = Some (Some (minutes 60)).
Proof. repeat split; vm_compute; reflexivity. Qed.


(** The celery task has no handler: the same error ends its run before the
    first student's attempt is reached. *)
Example task_sweep_aborts :
  let swept := auto_submit_expired_exams Scenario.env_failing
                 (world_of Scenario.db_running) in
  fst swept = Raise StorageError
  /\ option_map ea_status (find_attempt 100 (db (snd swept))) = Some in_progress
  /\ option_map ea_status (find_attempt 101 (db (snd swept))) = Some auto_submitted.
Proof. repeat split; vm_compute; reflexivity. Qed.

Lemma NoDup_by_decide {A} `{EqDecision A} (l : list A) :
  bool_decide (NoDup l) = true -> NoDup l.
Proof. apply bool_decide_eq_true_1. Qed.


(** The run also goes on when the storage refuses the save of the scores
    inside the grading of the second student's attempt: that attempt is
    auto_submitted without scores and without a result, the first student's
    is finalized with its result, and one attempt is counted. *)
Example command_sweep_survives_scores_save :
  let swept := Command.handle Scenario.env_scores_refused
                 (world_of Scenario.db_running) in
  fst (calculate_exam_result (auto_finalized (Scenario.attempt 101 Scenario.student2))
         Scenario.env_scores_refused
         {| db := Scenario.db_running; ticks := 1; writes := 1 |})
  = Raise StorageError
  /\ fst swept = Ok 1%nat
  /\ option_map (fun a => (ea_status a, ea_obtained_score a))
       (find_attempt 101 (db (snd swept))) = Some (auto_submitted, None)
  /\ results_of 101 (db (snd swept)) = []
  /\ option_map ea_status (find_attempt 100 (db (snd swept))) = Some auto_submitted
  /\ map r_obtained_marks (results_of 100 (db (snd swept))) = [1000].
Proof. repeat split; vm_compute; reflexivity. Qed.

(** Marks that do not fit the percentage column: grading the attempt of the
    lowered exam raises [InvalidOperation] after its scores were saved. The
    command goes on to the second student's attempt; the celery task stops
    there and leaves that attempt in progress. *)
Example sweeps_on_marks_that_do_not_fit :
  let by_command := Command.handle Scenario.env_late (world_of Scenario.db_lowered) in
  let by_task := auto_submit_expired_exams Scenario.env_late
                   (world_of Scenario.db_lowered) in
  sweep_fits Scenario.lowered_attempt (answers_of 200 Scenario.db_lowered) = false
  /\ fst by_command = Ok 1%nat
  /\ option_map (fun a => (ea_status a, ea_obtained_score a))
       (find_attempt 200 (db (snd by_command))) = Some (auto_submitted, Some 1000)
  /\ results_of 200 (db (snd by_command)) = []
  /\ map r_attempt (results (db (snd by_command))) = [101%N]
  /\ fst by_task = Raise InvalidOperation
  /\ option_map ea_status (find_attempt 101 (db (snd by_task))) = Some in_progress.
Proof. repeat split; vm_compute; reflexivity. Qed.



(** On the lowered exam the marks do not fit: the call raises and stores no
    result, the first time and every time after. *)
Example recompute_marks_that_do_not_fit :
  let obj := auto_finalized Scenario.lowered_attempt in
  let first := calculate_exam_result obj Scenario.env_late
                 (world_of Scenario.db_lowered) in
  let second := calculate_exam_result obj Scenario.env_late (snd first) in
  Dec.percent 1000 100 = 1000%Q
  /\ fst first = Raise InvalidOperation
  /\ fst second = Raise InvalidOperation
  /\ results (db (snd second)) = [].
Proof. repeat split; vm_compute; reflexivity. Qed.

Lemma result_status_by_grading_witness :
  let obj := auto_finalized (Scenario.attempt 100 Scenario.student) in
  let r := recomputed_result obj (minutes 60) Scenario.db_running in
  (r_grading_status r = fully_graded ->
     (r_status r = pass <-> e_passing_marks (ea_exam obj) <= r_obtained_marks r)
     /\ (r_status r = fail <-> r_obtained_marks r < e_passing_marks (ea_exam obj)))
  /\ (r_grading_status r <> fully_graded -> r_status r = pending).
Proof.
  intros obj r.
  eapply (result_status_by_grading Scenario.env_late (world_of Scenario.db_running)
            _ obj _ r).
  vm_compute. reflexivity.
Defined.

Lemma save_only_in_window_witness :
  StudentSaveAnswerView.update Scenario.student 1
    (JDict [("questionId", JInt 1); ("answer", JStr "2")])
    (reliable (Scenario.clock_at (minutes 61)) Scenario.conv)
    (world_of Scenario.db_running)
  = (Ok (error "Exam time has expired" 400),
     {| db := Scenario.db_running; ticks := 1; writes := 0 |}).
Proof.
  apply (proj1 (proj2 (save_only_in_window
                         (reliable (Scenario.clock_at (minutes 61)) Scenario.conv)
                         (world_of Scenario.db_running) Scenario.student 1
                         (JDict [("questionId", JInt 1); ("answer", JStr "2")])))
           (Scenario.attempt 100 Scenario.student)).
  - vm_compute. reflexivity.
  - vm_compute. reflexivity.
Defined.

Lemma submit_is_idempotent_witness :
  StudentSubmitExamView.create Scenario.student 1 JNull Scenario.env_late
    (world_of Scenario.db_submitted)
  = (Ok (already_submitted_response (Some (minutes 30))),
     world_of Scenario.db_submitted).
Proof.
  apply (proj1 (submit_is_idempotent Scenario.env_late
                  (world_of Scenario.db_submitted) Scenario.student 1 JNull)
           Scenario.submitted_attempt).
  - apply NoDup_by_decide. vm_compute. reflexivity.
  - right. left. reflexivity.
  - reflexivity.
  - reflexivity.
  - reflexivity.
Defined.

Lemma terminal_status_is_final_witness :
  status_is 100 submitted
    (db (run_ops Scenario.env_late
           [Sweep; Start Scenario.student 1 200;
            Save Scenario.student 1 (JDict [("questionId", JInt 1); ("answer", JStr "2")]);
            Submit Scenario.student 1 JNull;
            GradeAnswer 9 100 (JInt 1) 500 "ok"; Recompute 1; SweepCommand]
           (world_of Scenario.db_submitted))).
Proof.
  apply terminal_status_is_final.
  - reflexivity.
  - split.
    + exists Scenario.submitted_attempt. split; [right; left; reflexivity|reflexivity].
    + intros r [<-|[<-|[]]] Hr; [discriminate Hr|reflexivity].
Defined.


(** When the marks do not fit the columns of the result, start has stored
    the attempt as auto_submitted with the reading of the clock before the
    recomputation raises; no result is stored and no expiry error is
    answered. *)
Example start_on_marks_that_do_not_fit :
  let started := StudentStartExamView.create Scenario.student 2 201 Scenario.env_late
                   (world_of Scenario.db_lowered) in
  fst started = Raise InvalidOperation
  /\ option_map (fun a => (ea_status a, ea_submit_time a))
       (find_attempt 200 (db (snd started)))
     = Some (auto_submitted, Some (minutes 70 + 1))
  /\ results (db (snd started)) = [].
Proof. repeat split; vm_compute; reflexivity. Qed.

(** * Further properties *)

(** ** Text primitives *)

Ltac each_char c :=
  destruct c as [[] [] [] [] [] [] [] []]; vm_compute; reflexivity.

Lemma is_space_lower_char (c : ascii) : Py.is_space (Py.lower_char c) = Py.is_space c.
Proof. each_char c. Qed.

Lemma lower_char_idem (c : ascii) : Py.lower_char (Py.lower_char c) = Py.lower_char c.
Proof. each_char c. Qed.

Lemma lower_idem (s : string) : Py.lower (Py.lower s) = Py.lower s.
Proof. induction s as [|c s IH]; simpl; [|rewrite lower_char_idem, IH]; reflexivity. Qed.

Lemma lower_empty (s : string) : Py.lower s = "" <-> s = "".
Proof. destruct s; simpl; split; intros H; try reflexivity; discriminate H. Qed.

Lemma lstrip_lower (s : string) : Py.lstrip (Py.lower s) = Py.lower (Py.lstrip s).
Proof.
  induction s as [|c s IH]; simpl; [reflexivity|].
  rewrite is_space_lower_char. destruct (Py.is_space c); [exact IH|reflexivity].
Qed.

Lemma rstrip_lower (s : string) : Py.rstrip (Py.lower s) = Py.lower (Py.rstrip s).
Proof.
  induction s as [|c s IH]; simpl; [reflexivity|].
  rewrite IH, is_space_lower_char.
  destruct (Py.rstrip s); simpl; [destruct (Py.is_space c)|]; reflexivity.
Qed.

Lemma strip_lower (s : string) : Py.strip (Py.lower s) = Py.lower (Py.strip s).
Proof. unfold Py.strip. rewrite lstrip_lower, rstrip_lower. reflexivity. Qed.

Lemma lstrip_solid (s : string) : starts_solid s -> Py.lstrip s = s.
Proof. destruct s as [|c s]; simpl; [reflexivity|]. intros ->. reflexivity. Qed.

Lemma starts_solid_lstrip (s : string) : starts_solid (Py.lstrip s).
Proof.
  induction s as [|c s IH]; simpl; [exact Logic.I|].
  destruct (Py.is_space c) eqn:Hc; [exact IH|exact Hc].
Qed.

Lemma starts_solid_rstrip (s : string) : starts_solid s -> starts_solid (Py.rstrip s).
Proof.
  destruct s as [|c s]; simpl; [auto|]. intros Hc.
  destruct (Py.rstrip s); [rewrite Hc|]; exact Hc.
Qed.

Lemma rstrip_idem (s : string) : Py.rstrip (Py.rstrip s) = Py.rstrip s.
Proof.
  induction s as [|c s IH]; simpl; [reflexivity|].
  destruct (Py.rstrip s) as [|d r] eqn:Hr.
  - destruct (Py.is_space c) eqn:Hc; simpl; [reflexivity|]. rewrite Hc. reflexivity.
  - simpl in *. rewrite IH. reflexivity.
Qed.

Lemma strip_idem (s : string) : Py.strip (Py.strip s) = Py.strip s.
Proof.
  unfold Py.strip.
  rewrite (lstrip_solid (Py.rstrip (Py.lstrip s))).
  - apply rstrip_idem.
  - apply starts_solid_rstrip, starts_solid_lstrip.
Qed.

Lemma rstrip_solid_nonempty (c : ascii) (s : string) :
  Py.is_space c = false -> Py.rstrip (String c s) <> "".
Proof.
  intros Hc. simpl. destruct (Py.rstrip s); [rewrite Hc|]; discriminate.
Qed.

Lemma strip_solid_nonempty (c : ascii) (s : string) :
  Py.is_space c = false -> Py.strip (String c s) <> "".
Proof.
  intros Hc. unfold Py.strip. rewrite lstrip_solid by exact Hc.
  apply rstrip_solid_nonempty, Hc.
Qed.

(** [str(n)] of an integer is never blank. *)
Lemma str_int_solid (n : Z) :
  exists c s, Py.str_int n = String c s /\ Py.is_space c = false.
Proof.
  unfold Py.str_int, NilZero.string_of_int.
  destruct (Z.to_int n) as [d|d].
  - unfold NilZero.string_of_uint.
    destruct d; simpl; eexists; eexists; (split; [reflexivity|reflexivity]).
  - eexists; eexists. split; [reflexivity|reflexivity].
Qed.

Lemma str_int_not_blank (n : Z) : Py.strip (Py.str_int n) <> "".
Proof.
  destruct (str_int_solid n) as (c & s & -> & Hc). apply strip_solid_nonempty, Hc.
Qed.

Lemma _norm_token_idem (v : json) : _norm_token (JStr (_norm_token v)) = _norm_token v.
Proof.
  unfold _norm_token. simpl.
  rewrite strip_lower, lower_idem, strip_idem. reflexivity.
Qed.

Lemma _norm_token_not_blank (v : json) :
  Py.strip (py_str v) <> "" -> _norm_token v <> "".
Proof. unfold _norm_token. intros H Hl. apply (proj1 (lower_empty _)) in Hl. exact (H Hl). Qed.

(** ** The token sets of the grading engine *)

Lemma item_tokens_step (item : json) (out : tokens) :
  tokens_of_items [item] out = item_tokens item ∪ out.
Proof.
  destruct item as [| b | n | s | l | d]; simpl; try set_solver.
  destruct (is_none (dict_get "id" d)), (is_none (dict_get "value" d)),
    (is_none (dict_get "text" d)), (is_none (dict_get "answer" d));
    set_solver.
Qed.

Lemma tokens_of_items_cons (item : json) (rest : list json) (out : tokens) :
  tokens_of_items (item :: rest) out
  = tokens_of_items rest (tokens_of_items [item] out).
Proof. destruct item; reflexivity. Qed.

Lemma elem_of_tokens_of_items (l : list json) (out : tokens) (x : string) :
  x ∈ tokens_of_items l out
  <-> x ∈ out \/ exists item, In item l /\ x ∈ item_tokens item.
Proof.
  revert out. induction l as [|item l IH]; intros out.
  - simpl. split; [auto|]. intros [H|(item & [] & _)]. exact H.
  - rewrite tokens_of_items_cons, IH, item_tokens_step, elem_of_union. split.
    + intros [[H|H]|(it & Hin & H)].
      * right. exists item. split; [left; reflexivity|exact H].
      * left. exact H.
      * right. exists it. split; [right; exact Hin|exact H].
    + intros [H|(it & [<-|Hin] & H)].
      * left. right. exact H.
      * left. left. exact H.
      * right. exists it. split; assumption.
Qed.

Lemma tokens_of_items_same_entries (l l' : list json) :
  (forall x, In x l <-> In x l') ->
  tokens_of_items l ∅ = tokens_of_items l' ∅.
Proof.
  intros Hsame. apply set_eq. intros x.
  rewrite !elem_of_tokens_of_items. split.
  - intros [H|(it & Hin & H)]; [left; exact H|].
    right. exists it. split; [apply Hsame, Hin|exact H].
  - intros [H|(it & Hin & H)]; [left; exact H|].
    right. exists it. split; [apply Hsame, Hin|exact H].
Qed.

(** X1. The score of an answer given as a list depends only on which
    entries the list holds: their order and their repetitions do not
    matter, for any question. *)
Theorem answer_list_order_is_irrelevant (question : Question) (l l' : list json) :
  (forall x, In x l <-> In x l') ->
  auto_evaluate_mcq question (JList l) = auto_evaluate_mcq question (JList l').
Proof.
  intros Hsame. unfold auto_evaluate_mcq, _tokens_from_answer.
  rewrite (tokens_of_items_same_entries l l' Hsame). reflexivity.
Qed.

Lemma item_tokens_scalar (v : json) :
  is_scalar v = true -> item_tokens v = {[ _norm_token v ]}.
Proof. destruct v; simpl; intros H; try discriminate H; reflexivity. Qed.

Lemma _tokens_from_answer_scalar (v : json) :
  is_scalar v = true -> _tokens_from_answer v = {[ _norm_token v ]}.
Proof. destruct v; simpl; intros H; try discriminate H; set_solver. Qed.

(** The tokens one flagged option adds to the correct set. *)
Lemma elem_of_option_fold (ts : list json) (acc : tokens) (x : string) :
  x ∈ fold_left
        (fun acc t =>
           if negb (is_none t) && negb (String.eqb (Py.strip (py_str t)) "")
           then {[ _norm_token t ]} ∪ acc else acc) ts acc
  <-> x ∈ acc
      \/ exists t, In t ts /\ is_none t = false /\ Py.strip (py_str t) <> ""
                   /\ x = _norm_token t.
Proof.
  revert acc. induction ts as [|t ts IH]; intros acc; simpl.
  - split; [auto|]. intros [H|(t & [] & _)]. exact H.
  - rewrite IH. clear IH. split.
    + intros [H|(t' & Hin & H)].
      * destruct (is_none t) eqn:Hn; simpl in H; [left; exact H|].
        destruct (String.eqb (Py.strip (py_str t)) "") eqn:Hb; simpl in H;
          [left; exact H|].
        apply elem_of_union in H as [H|H]; [|left; exact H].
        apply elem_of_singleton in H. right. exists t.
        apply String.eqb_neq in Hb. auto.
      * right. exists t'. destruct H as (? & ? & ?). auto.
    + intros [H|(t' & [<-|Hin] & Hn & Hb & Hx)].
      * left. destruct (negb _ && negb _); [apply elem_of_union; right|]; exact H.
      * left. rewrite Hn. apply String.eqb_neq in Hb. rewrite Hb. simpl.
        apply elem_of_union. left. apply elem_of_singleton. exact Hx.
      * right. exists t'. auto.
Qed.

Lemma correct_tokens_from_dict (idx : nat) (d : list (string * json))
    (rest : list json) (acc : tokens) :
  correct_tokens_from idx (JDict d :: rest) acc
  = if flagged_correct d
    then correct_tokens_from (S idx) rest
           (fold_left
              (fun acc t =>
                 if negb (is_none t) && negb (String.eqb (Py.strip (py_str t)) "")
                 then {[ _norm_token t ]} ∪ acc else acc)
              (option_tokens idx d) acc)
    else correct_tokens_from (S idx) rest acc.
Proof. reflexivity. Qed.

Lemma elem_of_correct_tokens_from (options : list json) (idx : nat) (acc : tokens)
    (x : string) :
  x ∈ correct_tokens_from idx options acc
  <-> x ∈ acc
      \/ exists k d t,
           nth_error options k = Some (JDict d) /\ flagged_correct d = true
           /\ In t (option_tokens (idx + k) d) /\ is_none t = false
           /\ Py.strip (py_str t) <> "" /\ x = _norm_token t.
Proof.
  revert idx acc. induction options as [|o options IH]; intros idx acc.
  - simpl. split; [auto|]. intros [H|(k & d & t & Hk & _)]; [exact H|].
    destruct k; discriminate Hk.
  - assert (forall acc',
              x ∈ correct_tokens_from (S idx) options acc'
              <-> x ∈ acc'
                  \/ exists k d t,
                       nth_error (o :: options) (S k) = Some (JDict d)
                       /\ flagged_correct d = true
                       /\ In t (option_tokens (idx + S k) d) /\ is_none t = false
                       /\ Py.strip (py_str t) <> "" /\ x = _norm_token t) as Hrest.
    { intros acc'. rewrite IH. simpl.
      split; intros [H|(k & d & t & H)]; auto; right; exists k, d, t;
        replace (idx + S k)%nat with (S (idx + k)) in * by lia; exact H. }
    destruct o as [| b | n | s | l | d0];
      try (simpl correct_tokens_from; rewrite Hrest; split;
           [ intros [H|(k & d & t & H)]; [left; exact H|];
             right; exists (S k), d, t; exact H
           | intros [H|(k & d & t & Hk & H)]; [left; exact H|];
             destruct k as [|k]; [discriminate Hk|];
             right; exists k, d, t; split; [exact Hk|exact H] ]).
    rewrite correct_tokens_from_dict.
    destruct (flagged_correct d0) eqn:Hf.
    + rewrite Hrest, elem_of_option_fold. split.
      * intros [[H|(t & Hin & Hn & Hb & Hx)]|(k & d & t & H)].
        -- left. exact H.
        -- right. exists O, d0, t. rewrite Nat.add_0_r. simpl.
           repeat split; assumption || reflexivity.
        -- right. exists (S k), d, t. exact H.
      * intros [H|(k & d & t & Hk & Hfl & Hin & H)]; [left; left; exact H|].
        destruct k as [|k].
        -- simpl in Hk. injection Hk as <-. rewrite Nat.add_0_r in Hin.
           left. right. exists t. destruct H as (? & ? & ?). auto.
        -- right. exists k, d, t. auto.
    + rewrite Hrest. split.
      * intros [H|(k & d & t & H)]; [left; exact H|].
        right. exists (S k), d, t. exact H.
      * intros [H|(k & d & t & Hk & Hfl & H)]; [left; exact H|].
        destruct k as [|k].
        -- simpl in Hk. injection Hk as <-. congruence.
        -- right. exists k, d, t. auto.
Qed.

Lemma correct_tokens_no_blank (question : Question) :
  "" ∉ _extract_correct_tokens_from_options question.
Proof.
  unfold _extract_correct_tokens_from_options.
  rewrite elem_of_correct_tokens_from.
  intros [H|(k & d & t & _ & _ & _ & _ & Hb & Hx)]; [set_solver|].
  symmetry in Hx. revert Hx. apply _norm_token_not_blank, Hb.
Qed.

Lemma elem_of_explicit_tokens (l : list json) (x : string) :
  x ∈ explicit_tokens l
  <-> exists a, In a l /\ Py.strip (py_str a) <> "" /\ x = _norm_token a.
Proof.
  unfold explicit_tokens. rewrite elem_of_list_to_set, list_elem_of_In, in_map_iff.
  split.
  - intros (a & <- & Hin). apply list_elem_of_In, list_elem_of_filter in Hin as [Hb Hin].
    exists a. apply list_elem_of_In in Hin. auto.
  - intros (a & Hin & Hb & ->). exists a. split; [reflexivity|].
    apply list_elem_of_In, list_elem_of_filter. rewrite list_elem_of_In. auto.
Qed.

Lemma explicit_tokens_no_blank (l : list json) : "" ∉ explicit_tokens l.
Proof.
  rewrite elem_of_explicit_tokens. intros (a & _ & Hb & Hx).
  symmetry in Hx. revert Hx. apply _norm_token_not_blank, Hb.
Qed.

Lemma nonempty_false (s : tokens) : nonempty s = false <-> s = ∅.
Proof.
  unfold nonempty. rewrite bool_decide_eq_false. split; [|auto].
  intros H. destruct (decide (s = ∅)); [assumption|contradiction].
Qed.

(** The score for a submitted set that holds no token of the correct set
    and is not the correct set. *)
Lemma auto_evaluate_mcq_miss (question : Question) (v : json) :
  (forall c, c ∈ _extract_correct_tokens_from_options question ->
             c ∉ _tokens_from_answer v) ->
  (forall c, c ∈ explicit_tokens (q_correct_answers question) ->
             c ∉ _tokens_from_answer v) ->
  (_tokens_from_answer v = ∅
   \/ (exists x, x ∈ _tokens_from_answer v
                 /\ (x ∉ _extract_correct_tokens_from_options question)
                 /\ (x ∉ explicit_tokens (q_correct_answers question)))) ->
  auto_evaluate_mcq question v = 0.
Proof.
  intros Hopt Hexp Hv. unfold auto_evaluate_mcq.
  destruct (q_type question); try reflexivity.
  - replace (nonempty (_ ∩ _)) with false; [rewrite andb_false_r; reflexivity|].
    symmetry. apply nonempty_false. set_solver.
  - set (c := if nonempty _ then _ else _).
    destruct (nonempty c) eqn:Hc; [|reflexivity]. simpl.
    rewrite bool_decide_eq_false_2; [reflexivity|].
    apply nonempty_true in Hc. intros Heq. rewrite <- Heq in Hv.
    destruct Hv as [Hv|(x & Hx & Hn1 & Hn2)]; [contradiction|].
    subst c. destruct (nonempty _); contradiction.
Qed.

(** X2. An answer that was left empty earns nothing, whatever the question:
    [None], the initial [{}], an empty list and a blank text all score 0. *)
Theorem unanswered_scores_zero (question : Question) (s : string) :
  Py.strip s = "" ->
  auto_evaluate_mcq question JNull = 0
  /\ auto_evaluate_mcq question (JDict []) = 0
  /\ auto_evaluate_mcq question (JList []) = 0
  /\ auto_evaluate_mcq question (JStr s) = 0.
Proof.
  intros Hs.
  repeat split;
    try (apply auto_evaluate_mcq_miss; [set_solver | set_solver | left; reflexivity]).
  assert (_tokens_from_answer (JStr s) = {[ "" ]}) as Ht.
  { rewrite _tokens_from_answer_scalar by reflexivity.
    unfold _norm_token. simpl. rewrite Hs. reflexivity. }
  pose proof (correct_tokens_no_blank question).
  pose proof (explicit_tokens_no_blank (q_correct_answers question)).
  apply auto_evaluate_mcq_miss; rewrite Ht.
  - set_solver.
  - set_solver.
  - right. exists "". set_solver.
Qed.

Lemma unanswered_scores_zero_witness :
  auto_evaluate_mcq Scenario.question JNull = 0
  /\ auto_evaluate_mcq Scenario.question (JDict []) = 0
  /\ auto_evaluate_mcq Scenario.question (JList []) = 0
  /\ auto_evaluate_mcq Scenario.question (JStr "  ") = 0.
Proof. apply (unanswered_scores_zero Scenario.question "  "). reflexivity. Defined.

Lemma answer_list_order_is_irrelevant_witness :
  auto_evaluate_mcq Scenario.blank_question (JList [JStr "a"; JInt 1; JInt 0])
  = auto_evaluate_mcq Scenario.blank_question
      (JList [JInt 0; JStr "a"; JInt 1; JStr "a"]).
Proof.
  apply (answer_list_order_is_irrelevant Scenario.blank_question
           [JStr "a"; JInt 1; JInt 0] [JInt 0; JStr "a"; JInt 1; JStr "a"]).
  intros x. simpl. intuition.
Defined.

(** X3. A single-choice question accepts every name of an option flagged
    correct: an answer equal to the option's id, value or text, to its
    0-based or its 1-based position or, for one of the first 191 options, to
    its letter earns the full points, as long as that name is one text,
    number or truth value and not blank. *)
Theorem mcq_accepts_every_name_of_a_correct_option (question : Question) (k : nat)
    (d : list (string * json)) (t : json) :
  q_type question = mcq ->
  nth_error (q_options question) k = Some (JDict d) ->
  flagged_correct d = true ->
  In t (option_tokens k d) ->
  (t = letter_label k -> (k < 191)%nat) ->
  is_scalar t = true ->
  Py.strip (py_str t) <> "" ->
  auto_evaluate_mcq question t = q_points question.
Proof.
  intros Hty Hk Hf Hin _ Hsc Hb. unfold auto_evaluate_mcq. rewrite Hty.
  rewrite (_tokens_from_answer_scalar t Hsc).
  assert (_norm_token t ∈ _extract_correct_tokens_from_options question) as Hmem.
  { unfold _extract_correct_tokens_from_options.
    apply elem_of_correct_tokens_from. right. exists k, d, t.
    repeat split; try assumption. destruct t; try reflexivity; discriminate Hsc. }
  replace (nonempty (_extract_correct_tokens_from_options question)) with true
    by (symmetry; apply nonempty_true; set_solver).
  replace (nonempty (_ ∩ _)) with true
    by (symmetry; apply nonempty_true; set_solver).
  reflexivity.
Qed.

(** The second option is the correct one: the answer B names it by its
    letter. *)
Lemma mcq_accepts_every_name_of_a_correct_option_witness :
  auto_evaluate_mcq Sample.capital_question (JStr "B")
  = q_points Sample.capital_question.
Proof.
  apply (mcq_accepts_every_name_of_a_correct_option Sample.capital_question 1
           [("text", JStr "Rome"); ("isCorrect", JBool true)] (JStr "B")).
  - reflexivity.
  - reflexivity.
  - reflexivity.
  - simpl. auto 10.
  - intros _. lia.
  - reflexivity.
  - vm_compute. discriminate.
Defined.

(** The answer 1 is taken both as a 0-based and as a 1-based position: it
    earns the points when the second option is the correct one and when the
    first one is. *)
Example position_one_names_two_options :
  auto_evaluate_mcq Sample.capital_question (JInt 1) = 500
  /\ auto_evaluate_mcq Scenario.question (JInt 1) = 1000.
Proof. split; vm_compute; reflexivity. Qed.

(** X4. Round trip of the answer key of a multi-select question: when the
    explicit [correct_answers] list is not empty and each entry is one text,
    number or truth value that is not blank, submitting that list earns the
    full points. *)
Theorem multiple_mcq_answer_key_round_trip (question : Question) :
  q_type question = multiple_mcq ->
  q_correct_answers question <> [] ->
  Forall (fun a => is_scalar a = true /\ Py.strip (py_str a) <> "")
    (q_correct_answers question) ->
  auto_evaluate_mcq question (JList (q_correct_answers question))
  = q_points question.
Proof.
  intros Hty Hne Hall. unfold auto_evaluate_mcq. rewrite Hty.
  rewrite Stdlib.Lists.List.Forall_forall in Hall.
  assert (explicit_tokens (q_correct_answers question)
          = _tokens_from_answer (JList (q_correct_answers question))) as Heq.
  { apply set_eq. intros x. simpl.
    rewrite elem_of_explicit_tokens, elem_of_tokens_of_items. split.
    - intros (a & Hin & _ & ->). right. exists a. split; [exact Hin|].
      rewrite item_tokens_scalar by (apply Hall, Hin). set_solver.
    - intros [H|(a & Hin & Hx)]; [set_solver|].
      rewrite item_tokens_scalar in Hx by (apply Hall, Hin).
      exists a. split; [exact Hin|]. split; [apply Hall, Hin|set_solver]. }
  assert (nonempty (explicit_tokens (q_correct_answers question)) = true) as Hn.
  { apply nonempty_true. destruct (q_correct_answers question) as [|a l] eqn:Hl;
      [contradiction|].
    assert (_norm_token a ∈ explicit_tokens (a :: l)) as Hin.
    { apply elem_of_explicit_tokens. exists a.
      split; [left; reflexivity|]. split; [|reflexivity].
      apply Hall. left. reflexivity. }
    set_solver. }
  rewrite Hn. simpl. rewrite Hn. simpl.
  rewrite bool_decide_eq_true_2 by exact Heq. reflexivity.
Qed.

Lemma multiple_mcq_answer_key_round_trip_witness :
  auto_evaluate_mcq Sample.primes_question
    (JList (q_correct_answers Sample.primes_question))
  = q_points Sample.primes_question.
Proof.
  apply (multiple_mcq_answer_key_round_trip Sample.primes_question).
  - reflexivity.
  - discriminate.
  - repeat constructor; vm_compute; discriminate.
Defined.

(** ** The grading status of a list of answers *)

Lemma filter_length_zero {A} (p : A -> bool) (l : list A) :
  length (List.filter p l) = O <-> forall a, In a l -> p a = false.
Proof.
  induction l as [|x l IH]; simpl.
  - split; [intros _ a []|reflexivity].
  - destruct (p x) eqn:Hx; simpl.
    + split; [discriminate|]. intros H. specialize (H x (or_introl eq_refl)). congruence.
    + rewrite IH. split.
      * intros H a [<-|Ha]; [exact Hx|apply H, Ha].
      * intros H a Ha. apply H. right. exact Ha.
Qed.

Lemma filter_length_le {A} (p : A -> bool) (l : list A) :
  (length (List.filter p l) <= length l)%nat.
Proof. induction l as [|x l IH]; simpl; [lia|]. destruct (p x); simpl; lia. Qed.

Lemma filter_length_full {A} (p : A -> bool) (l : list A) :
  length (List.filter p l) = length l <-> forall a, In a l -> p a = true.
Proof.
  induction l as [|x l IH]; simpl.
  - split; [intros _ a []|reflexivity].
  - pose proof (filter_length_le p l) as Hle. destruct (p x) eqn:Hx; simpl.
    + split.
      * intros H a [<-|Ha]; [exact Hx|]. apply IH; [lia|exact Ha].
      * intros H. f_equal. apply IH. intros a Ha. apply H. right. exact Ha.
    + split; [lia|]. intros H. specialize (H x (or_introl eq_refl)). congruence.
Qed.

(** The status in terms of the two counts the code compares. *)
Lemma _compute_grading_status_counts (l : list Answer) :
  let manual := length (List.filter is_manual l) in
  let graded_count := length (List.filter is_graded (List.filter is_manual l)) in
  _compute_grading_status l
  = if (manual =? 0)%nat then fully_graded
    else if (graded_count =? 0)%nat then grading_pending
    else if (graded_count <? manual)%nat then partially_graded
    else fully_graded.
Proof.
  unfold _compute_grading_status.
  destruct (List.filter is_manual l) as [|a m]; reflexivity.
Qed.

Lemma in_manual (l : list Answer) (a : Answer) :
  In a (List.filter is_manual l) <-> In a l /\ is_manual a = true.
Proof. apply filter_In. Qed.

(** X5. The grading status of an attempt is [fully_graded] exactly when
    every descriptive or coding answer has a score (in particular when there
    is none), [pending] exactly when there is such an answer and none of
    them has a score, and [partially_graded] exactly when some have a score
    and some have not. *)
Theorem grading_status_characterised (answers : list Answer) :
  (_compute_grading_status answers = fully_graded
   <-> forall a, In a answers -> is_manual a = true -> is_graded a = true)
  /\ (_compute_grading_status answers = grading_pending
      <-> (exists a, In a answers /\ is_manual a = true)
          /\ forall a, In a answers -> is_manual a = true -> is_graded a = false)
  /\ (_compute_grading_status answers = partially_graded
      <-> (exists a, In a answers /\ is_manual a = true /\ is_graded a = true)
          /\ (exists a, In a answers /\ is_manual a = true /\ is_graded a = false)).
Proof.
  rewrite _compute_grading_status_counts.
  set (m := List.filter is_manual answers).
  pose proof (filter_length_le is_graded m) as Hle.
  pose proof (filter_length_zero is_graded m) as Hzero.
  pose proof (filter_length_full is_graded m) as Hfull.
  assert (forall P : Answer -> Prop,
            (forall a, In a m -> P a)
            <-> (forall a, In a answers -> is_manual a = true -> P a)) as Hall.
  { intros P. split.
    - intros H a Ha Hm. apply H, in_manual. auto.
    - intros H a Ha. apply in_manual in Ha as [Ha Hm]. auto. }
  rewrite Hall in Hzero, Hfull.
  assert (length m = O <-> forall a, In a answers -> is_manual a = false) as Hnone.
  { subst m. apply filter_length_zero. }
  assert ((exists a, In a answers /\ is_manual a = true) <-> length m <> O) as Hsome.
  { split.
    - intros (a & Ha & Hm) H0. rewrite Hnone in H0. specialize (H0 a Ha). congruence.
    - intros Hne. destruct m as [|a m'] eqn:Hm; [contradiction|].
      exists a. apply in_manual. fold m. rewrite Hm. left. reflexivity. }
  assert (forall b, (exists a, In a answers /\ is_manual a = true /\ is_graded a = b)
                    <-> exists a, In a m /\ is_graded a = b) as Hex.
  { intros b. split.
    - intros (a & Ha & Hm & Hg). exists a. split; [apply in_manual; auto|exact Hg].
    - intros (a & Ha & Hg). apply in_manual in Ha as [Ha Hm]. exists a. auto. }
  assert ((exists a, In a m /\ is_graded a = true)
          <-> length (List.filter is_graded m) <> O) as Hsg.
  { split.
    - intros (a & Ha & Hg) H0.
      pose proof (proj1 (filter_length_zero is_graded m) H0 a Ha). congruence.
    - intros Hne. destruct (List.filter is_graded m) as [|a r] eqn:Hf; [contradiction|].
      assert (In a (List.filter is_graded m)) as Hin by (rewrite Hf; left; reflexivity).
      apply filter_In in Hin. exists a. exact Hin. }
  assert ((exists a, In a m /\ is_graded a = false)
          <-> length (List.filter is_graded m) <> length m) as Hsu.
  { split.
    - intros (a & Ha & Hg) Heq.
      pose proof (proj1 (filter_length_full is_graded m) Heq a Ha). congruence.
    - intros Hne. destruct (existsb (fun a => negb (is_graded a)) m) eqn:Hx.
      + apply existsb_exists in Hx as (a & Ha & Hg). exists a.
        apply negb_true_iff in Hg. auto.
      + exfalso. apply Hne. apply filter_length_full. intros a Ha.
        destruct (is_graded a) eqn:Hg; [reflexivity|].
        assert (existsb (fun a => negb (is_graded a)) m = true) as Hy
          by (apply existsb_exists; exists a; rewrite Hg; auto).
        congruence. }
  rewrite !Hex, Hsg, Hsu, Hsome. clear Hex Hsg Hsu Hsome Hall.
  destruct (Nat.eqb_spec (length m) 0) as [H0|H0].
  - split; [|split].
    + split; [|reflexivity]. intros _. apply Hfull.
      rewrite H0 in Hle. lia.
    + split; [discriminate|]. intros [H _]. contradiction.
    + split; [discriminate|]. intros [H _]. rewrite H0 in Hle. lia.
  - destruct (Nat.eqb_spec (length (List.filter is_graded m)) 0) as [Hg|Hg].
    + split; [|split].
      * split; [discriminate|]. intros H. apply Hfull in H. lia.
      * split; [|reflexivity]. intros _. split; [exact H0|]. apply Hzero, Hg.
      * split; [discriminate|]. intros [H _]. contradiction.
    + destruct (Nat.ltb_spec (length (List.filter is_graded m)) (length m)) as [Hlt|Hge].
      * split; [|split].
        -- split; [discriminate|]. intros H. apply Hfull in H. lia.
        -- split; [discriminate|]. intros [_ H]. apply Hzero in H. contradiction.
        -- split; [|reflexivity]. intros _. split; [exact Hg|lia].
      * split; [|split].
        -- split; [|reflexivity]. intros _. apply Hfull. lia.
        -- split; [discriminate|]. intros [_ H]. apply Hzero in H. contradiction.
        -- split; [discriminate|]. intros [_ H]. lia.
Qed.

Lemma filter_map_same {A} (p : A -> bool) (f : A -> A) (l : list A) :
  (forall a, In a l -> p (f a) = p a) ->
  List.filter p (map f l) = map f (List.filter p l).
Proof.
  induction l as [|x l IH]; intros H; simpl; [reflexivity|].
  rewrite (H x (or_introl eq_refl)). rewrite IH by (intros a Ha; apply H; right; exact Ha).
  destruct (p x); reflexivity.
Qed.

Lemma filter_map_more {A} (p : A -> bool) (f : A -> A) (l : list A) :
  (forall a, In a l -> p a = true -> p (f a) = true) ->
  (length (List.filter p l) <= length (List.filter p (map f l)))%nat.
Proof.
  induction l as [|x l IH]; intros H; simpl; [lia|].
  assert (length (List.filter p l) <= length (List.filter p (map f l)))%nat as Hl
    by (apply IH; intros a Ha; apply H; right; exact Ha).
  destruct (p x) eqn:Hx.
  - rewrite (H x (or_introl eq_refl) Hx). simpl. lia.
  - destruct (p (f x)); simpl; lia.
Qed.

(** X6. Grading never moves the grading status backwards: when the answers
    of an attempt are updated so that no answer changes between automatic and
    manual grading and no score is removed, the status stays or advances in
    the order pending, partially graded, fully graded. *)
Theorem grading_status_never_moves_backward (f : Answer -> Answer)
    (answers : list Answer) :
  (forall a, In a answers ->
     is_manual (f a) = is_manual a
     /\ (is_graded a = true -> is_graded (f a) = true)) ->
  (grading_rank (_compute_grading_status answers)
   <= grading_rank (_compute_grading_status (map f answers)))%nat.
Proof.
  intros Hf. rewrite !_compute_grading_status_counts.
  rewrite (filter_map_same is_manual f answers) by (intros a Ha; apply Hf, Ha).
  rewrite length_map.
  set (m := List.filter is_manual answers).
  pose proof (filter_map_more is_graded f m) as Hmore.
  assert (length (List.filter is_graded m)
          <= length (List.filter is_graded (map f m)))%nat as Hle.
  { apply Hmore. intros a Ha. apply in_manual in Ha as [Ha _]. apply Hf, Ha. }
  pose proof (filter_length_le is_graded (map f m)) as Hub.
  rewrite length_map in Hub.
  repeat match goal with
         | |- context [Nat.eqb ?a ?b] => destruct (Nat.eqb_spec a b)
         | |- context [Nat.ltb ?a ?b] => destruct (Nat.ltb_spec a b)
         end; simpl; lia.
Qed.

(** One essay is graded while the other is still open. *)
Lemma grading_status_never_moves_backward_witness :
  (grading_rank (_compute_grading_status Sample.two_essays)
   <= grading_rank (_compute_grading_status
                      (map (fun a => evaluated a 300%Z "Fair" 9%N) Sample.two_essays)))%nat.
Proof.
  apply (grading_status_never_moves_backward (fun a => evaluated a 300%Z "Fair" 9%N)
           Sample.two_essays).
  intros a _. split; [reflexivity|]. intros _. reflexivity.
Defined.

(** ** The percentage of a result *)

Lemma div_half_even_nonneg (x d : Z) : 0 <= x -> 0 < d -> 0 <= Dec.div_half_even x d.
Proof.
  intros Hx Hd. unfold Dec.div_half_even.
  pose proof (Z.div_pos x d Hx Hd).
  destruct (2 * (x mod d) ?= d); [destruct (Z.even (x / d))| |]; lia.
Qed.

Lemma div_half_even_le (x d K : Z) :
  0 < d -> x <= K * d -> Dec.div_half_even x d <= K.
Proof.
  intros Hd Hx. unfold Dec.div_half_even.
  pose proof (Z.div_mod x d ltac:(lia)) as Hdm.
  pose proof (Z.mod_pos_bound x d Hd) as Hr.
  set (q := x / d) in *. set (r := x mod d) in *.
  destruct (Z.compare_spec (2 * r) d) as [He|Hlt|Hgt];
    [destruct (Z.even q)| |]; nia.
Qed.

Lemma div_half_even_small (x d : Z) : 0 <= x -> 2 * x < d -> Dec.div_half_even x d = 0.
Proof.
  intros Hx Hd. unfold Dec.div_half_even.
  rewrite Z.div_small, Z.mod_small by lia.
  destruct (Z.compare_spec (2 * x) d); [lia|reflexivity|lia].
Qed.

Lemma pow10_pos (k : Z) : 0 <= k -> 0 < 10 ^ k.
Proof. intros Hk. apply Z.pow_pos_nonneg; lia. Qed.

Lemma quotient_bounds (n d : Z) :
  0 < d -> 0 <= n <= d -> (0 <= Dec.quotient n d <= 1)%Q.
Proof.
  intros Hd Hn. unfold Dec.quotient.
  destruct (Z.eqb_spec n 0) as [H0|H0]; [split; discriminate|].
  rewrite (Z.abs_eq n), (Z.abs_eq d) by lia.
  replace (Z.sgn n * Z.sgn d) with 1
    by (rewrite (Z.sgn_pos n), (Z.sgn_pos d); lia).
  set (s := Dec.digits d - Dec.digits n + (Dec.prec - 1)).
  match goal with
  | |- context [if ?c then s + 1 else s] => set (k := if c then s + 1 else s)
  end.
  clearbody k. clear s.
  destruct (Z.leb_spec 0 k) as [Hk|Hk]; cbn [fst snd].
  - pose proof (pow10_pos k Hk) as Hp.
    assert (0 <= Dec.div_half_even (n * 10 ^ k) d) as Hlo
      by (apply div_half_even_nonneg; nia).
    assert (Dec.div_half_even (n * 10 ^ k) d <= 10 ^ k) as Hhi
      by (apply div_half_even_le; nia).
    unfold Qle. simpl Qnum. simpl Qden.
    rewrite Z2Pos.id by exact Hp. lia.
  - assert (10 <= 10 ^ (- k)) as Hp.
    { replace 10 with (10 ^ 1) at 1 by reflexivity.
      apply Z.pow_le_mono_r; lia. }
    rewrite div_half_even_small by nia.
    split; discriminate.
Qed.

Lemma quotient_full (t : Z) : 0 < t -> (Dec.quotient t t == 1)%Q.
Proof.
  intros Ht. unfold Dec.quotient.
  destruct (Z.eqb_spec t 0) as [H0|H0]; [lia|].
  rewrite (Z.abs_eq t) by lia.
  replace (Z.sgn t * Z.sgn t) with 1 by (rewrite (Z.sgn_pos t); lia).
  replace (Dec.digits t - Dec.digits t + (Dec.prec - 1)) with 27
    by (unfold Dec.prec; lia).
  change (0 <=? 27) with true. cbn [fst snd].
  replace (t * 10 ^ 27 <? 10 ^ (Dec.prec - 1) * t) with false
    by (symmetry; apply Z.ltb_ge; unfold Dec.prec; simpl (28 - 1); lia).
  change (0 <=? 27) with true. cbn [fst snd].
  assert (Dec.div_half_even (t * 10 ^ 27) t = 10 ^ 27) as ->.
  { unfold Dec.div_half_even.
    rewrite (Z.mul_comm t), Z.div_mul, Z.mod_mul by lia.
    destruct (Z.compare_spec (2 * 0) t); [lia|reflexivity|lia]. }
  reflexivity.
Qed.

Lemma percent_bounds (obtained total : Z) :
  0 < total -> 0 <= obtained <= total ->
  (0 <= Dec.percent obtained total <= 100)%Q.
Proof.
  intros Ht Ho. unfold Dec.percent. rewrite Qred_correct.
  destruct (quotient_bounds obtained total Ht Ho) as [Hlo Hhi].
  split.
  - apply Qmult_le_0_compat; [exact Hlo|discriminate].
  - apply Qle_trans with (1 * inject_Z 100)%Q; [|discriminate].
    apply Qmult_le_compat_r; [exact Hhi|discriminate].
Qed.

Lemma percent_full (total : Z) : 0 < total -> Dec.percent total total = 100%Q.
Proof.
  intros Ht. unfold Dec.percent.
  change (100%Q) with (Qred (1 * inject_Z 100)).
  apply Qred_complete. rewrite (quotient_full total Ht). reflexivity.
Qed.

(** Apart from [is_published], the result [update_or_create] returns holds
    the fields of [defaults]. *)
Lemma update_or_create_result_defaults (i : uuid) (defaults : Result) :
  keeps (fun _ => True) (update_or_create_result i defaults)
    (fun r => r_total_marks r = r_total_marks defaults
              /\ r_obtained_marks r = r_obtained_marks defaults
              /\ r_percentage r = r_percentage defaults).
Proof.
  unfold update_or_create_result.
  eapply keeps_bind; [apply keeps_any|].
  intros rows _. destruct rows as [|old [|]].
  - do 2 (eapply keeps_bind; [apply keeps_any|]; intros ? _). apply keeps_ret. auto.
  - do 2 (eapply keeps_bind; [apply keeps_any|]; intros ? _). apply keeps_ret. auto.
  - apply keeps_raise.
Qed.

Lemma calculate_exam_result_percentage (attempt : ExamAttempt) :
  keeps (fun _ => True) (calculate_exam_result attempt)
    (fun ra => r_total_marks (fst ra) = e_total_marks (ea_exam attempt)
               /\ r_percentage (fst ra)
                  = if 0 <? r_total_marks (fst ra)
                    then Dec.percent (r_obtained_marks (fst ra)) (r_total_marks (fst ra))
                    else 0%Q).
Proof.
  unfold calculate_exam_result.
  eapply keeps_bind; [apply keeps_any|]. intros answers0 _.
  eapply keeps_bind; [apply keeps_any|]. intros answers1 _.
  eapply keeps_bind; [apply keeps_any|]. intros _ _.
  eapply keeps_bind; [apply keeps_any|]. intros _ _.
  eapply keeps_bind; [apply keeps_any|]. intros t _.
  eapply keeps_bind; [apply update_or_create_result_defaults|].
  intros r (Ht & Ho & Hp). apply keeps_ret. simpl in *.
  rewrite Hp, Ht, Ho. auto.
Qed.

(** X7. The percentage of every result [calculate_exam_result] returns,
    under any clock and any storage errors: it lies between 0 and 100 when
    the obtained marks lie between 0 and the total marks, it is exactly 100
    at full marks, and it is 0, without a division, when the total marks of
    the exam are not positive. *)
Theorem result_percentage_bounds (env : Env) (w w' : World)
    (attempt attempt' : ExamAttempt) (r : Result) :
  calculate_exam_result attempt env w = (Ok (r, attempt'), w') ->
  (0 <= r_obtained_marks r <= r_total_marks r ->
     (0 <= r_percentage r <= 100)%Q)
  /\ (0 < r_total_marks r -> r_obtained_marks r = r_total_marks r ->
        r_percentage r = 100%Q)
  /\ (r_total_marks r <= 0 -> r_percentage r = 0%Q).
Proof.
  intros Hrun.
  destruct (calculate_exam_result_percentage attempt env w Logic.I) as [_ H].
  specialize (H (r, attempt')). rewrite Hrun in H. destruct (H eq_refl) as [_ Hp].
  simpl in Hp. rewrite Hp. clear H Hp.
  destruct (Z.ltb_spec 0 (r_total_marks r)) as [Ht|Ht].
  - split; [|split].
    + intros Ho. apply percent_bounds; assumption.
    + intros _ ->. apply percent_full, Ht.
    + lia.
  - split; [|split].
    + intros _. split; discriminate.
    + lia.
    + reflexivity.
Qed.

(** The first student of the running scenario answered the one question
    right: full marks, and a percentage of exactly 100. *)
Lemma result_percentage_bounds_witness :
  let obj := auto_finalized (Scenario.attempt 100 Scenario.student) in
  let r := recomputed_result obj (minutes 60) Scenario.db_running in
  (0 <= r_percentage r <= 100)%Q /\ r_percentage r = 100%Q.
Proof.
  intros obj r.
  assert (calculate_exam_result obj Scenario.env_late (world_of Scenario.db_running)
          = (Ok (r, rescored obj Scenario.db_running),
             snd (calculate_exam_result obj Scenario.env_late
                    (world_of Scenario.db_running)))) as Hrun
    by (vm_compute; reflexivity).
  destruct (result_percentage_bounds _ _ _ _ _ _ Hrun) as (Hin & Hfull & _).
  split.
  - apply Hin. vm_compute. split; discriminate.
  - apply Hfull; vm_compute; reflexivity.
Defined.

(** ** Department names *)

Ltac each_char_with c :=
  destruct c as [[] [] [] [] [] [] [] []]; vm_compute; intros; congruence.

Lemma alnum_not_space (c : ascii) :
  Text.is_alnum_lower c = true -> Py.is_space c = false.
Proof. each_char_with c. Qed.

Lemma alnum_lower_fixed (c : ascii) :
  Text.is_alnum_lower c = true -> Py.lower_char c = c.
Proof. each_char_with c. Qed.

Lemma squash_spaced (gap : bool) (s : string) : spaced gap (Text.squash gap s) = true.
Proof.
  revert gap. induction s as [|c s IH]; intros gap; simpl; [reflexivity|].
  destruct (Text.is_alnum_lower c) eqn:Hc; simpl.
  - rewrite Hc. apply IH.
  - destruct gap; [apply IH|]. simpl. apply IH.
Qed.

Lemma spaced_weaken (gap : bool) (s : string) :
  spaced true s = true -> spaced gap s = true.
Proof.
  destruct s as [|c s]; simpl; [reflexivity|].
  destruct (Text.is_alnum_lower c); [auto|].
  rewrite andb_false_r. discriminate.
Qed.

Lemma spaced_solid (s : string) : spaced true s = true -> starts_solid s.
Proof.
  destruct s as [|c s]; simpl; [auto|].
  destruct (Text.is_alnum_lower c) eqn:Hc; [intros _; apply alnum_not_space, Hc|].
  rewrite andb_false_r. discriminate.
Qed.

Lemma spaced_lstrip (gap : bool) (s : string) :
  spaced gap s = true -> spaced true (Py.lstrip s) = true.
Proof.
  destruct s as [|c s]; simpl; [reflexivity|].
  destruct (Text.is_alnum_lower c) eqn:Hc.
  - rewrite (alnum_not_space c Hc). simpl. rewrite Hc. auto.
  - intros H. apply andb_true_iff in H as [H Hs]. apply andb_true_iff in H as [Hb _].
    apply Ascii.eqb_eq in Hb. subst c. simpl.
    rewrite (lstrip_solid s (spaced_solid s Hs)). exact Hs.
Qed.

Lemma spaced_rstrip (gap : bool) (s : string) :
  spaced gap s = true -> spaced gap (Py.rstrip s) = true.
Proof.
  revert gap. induction s as [|c s IH]; intros gap; simpl; [reflexivity|].
  destruct (Text.is_alnum_lower c) eqn:Hc.
  - intros Hs. specialize (IH false Hs).
    destruct (Py.rstrip s) eqn:Hr.
    + rewrite (alnum_not_space c Hc). simpl. rewrite Hc. reflexivity.
    + simpl. rewrite Hc. exact IH.
  - intros H. apply andb_true_iff in H as [H Hs]. apply andb_true_iff in H as [Hb Hg].
    specialize (IH true Hs).
    destruct (Py.rstrip s) eqn:Hr.
    + destruct (Py.is_space c); [reflexivity|]. simpl. rewrite Hc, Hb, Hg. reflexivity.
    + simpl. rewrite Hc, Hb, Hg. exact IH.
Qed.

Lemma spaced_lower (gap : bool) (s : string) : spaced gap s = true -> Py.lower s = s.
Proof.
  revert gap. induction s as [|c s IH]; intros gap; simpl; [reflexivity|].
  destruct (Text.is_alnum_lower c) eqn:Hc.
  - intros Hs. rewrite (alnum_lower_fixed c Hc), (IH false Hs). reflexivity.
  - intros H. apply andb_true_iff in H as [H Hs]. apply andb_true_iff in H as [Hb _].
    apply Ascii.eqb_eq in Hb. subst c. rewrite (IH true Hs). reflexivity.
Qed.

Lemma spaced_squash (gap : bool) (s : string) :
  spaced gap s = true -> Text.squash gap s = s.
Proof.
  revert gap. induction s as [|c s IH]; intros gap; simpl; [reflexivity|].
  destruct (Text.is_alnum_lower c) eqn:Hc.
  - intros Hs. rewrite (IH false Hs). reflexivity.
  - intros H. apply andb_true_iff in H as [H Hs]. apply andb_true_iff in H as [Hb Hg].
    apply Ascii.eqb_eq in Hb. subst c. apply negb_true_iff in Hg. subst gap.
    rewrite (IH true Hs). reflexivity.
Qed.

Lemma spaced_alphabet (gap : bool) (s : string) :
  spaced gap s = true ->
  Forall (fun c => Text.is_alnum_lower c = true \/ c = " "%char)
    (list_ascii_of_string s).
Proof.
  revert gap. induction s as [|c s IH]; intros gap; simpl; [constructor|].
  destruct (Text.is_alnum_lower c) eqn:Hc.
  - intros Hs. constructor; [left; exact Hc|]. apply (IH false Hs).
  - intros H. apply andb_true_iff in H as [H Hs]. apply andb_true_iff in H as [Hb _].
    apply Ascii.eqb_eq in Hb. constructor; [right; exact Hb|]. apply (IH true Hs).
Qed.

(** The shape of every normalised department name. *)
Lemma _norm_department_shape (value : json) :
  let n := _norm_department value in
  spaced true n = true /\ Py.rstrip n = n.
Proof.
  unfold _norm_department. destruct value; try (split; reflexivity);
    (split; [apply spaced_rstrip, (spaced_lstrip false), squash_spaced
            |apply rstrip_idem]).
Qed.

Lemma _norm_department_fixed (n : string) :
  spaced true n = true -> Py.rstrip n = n -> _norm_department (JStr n) = n.
Proof.
  intros Hs Hr. unfold _norm_department. simpl.
  assert (Py.strip n = n) as Hstrip.
  { unfold Py.strip. rewrite (lstrip_solid n (spaced_solid n Hs)). exact Hr. }
  rewrite Hstrip, (spaced_lower true n Hs).
  rewrite (spaced_squash false n (spaced_weaken false n Hs)). exact Hstrip.
Qed.

Lemma _norm_department_idem (value : json) :
  _norm_department (JStr (_norm_department value)) = _norm_department value.
Proof.
  destruct (_norm_department_shape value) as [Hs Hr].
  apply _norm_department_fixed; assumption.
Qed.

(** X8. A normalised department name holds lower-case letters, digits and
    blanks only, and normalising it again changes nothing. *)
Theorem norm_department_is_a_normal_form (value : json) :
  Forall (fun c => Text.is_alnum_lower c = true \/ c = " "%char)
    (list_ascii_of_string (_norm_department value))
  /\ _norm_department (JStr (_norm_department value)) = _norm_department value.
Proof.
  split; [|apply _norm_department_idem].
  apply (spaced_alphabet true), _norm_department_shape.
Qed.

(** ** The tokens of a department *)

Lemma _expand_department_tokens_norm (value : json) :
  _expand_department_tokens (JStr (_norm_department value))
  = _expand_department_tokens value.
Proof. unfold _expand_department_tokens. rewrite _norm_department_idem. reflexivity. Qed.

Lemma alias_fold_grows (norm : string) (aliases : list (string * string))
    (acc : gset string) (x : string) :
  x ∈ acc ->
  x ∈ fold_left
        (fun tokens alias =>
           let tokens := if String.eqb norm (fst alias)
                         then {[ snd alias ]} ∪ tokens else tokens in
           if String.eqb norm (snd alias) then {[ fst alias ]} ∪ tokens else tokens)
        aliases acc.
Proof.
  revert acc. induction aliases as [|alias aliases IH]; intros acc Hx; simpl; [exact Hx|].
  apply IH. destruct (String.eqb norm (fst alias)), (String.eqb norm (snd alias));
    set_solver.
Qed.

Lemma _expand_department_tokens_self (value : json) :
  _norm_department value <> "" ->
  _norm_department value ∈ _expand_department_tokens value.
Proof.
  intros Hne. unfold _expand_department_tokens.
  apply String.eqb_neq in Hne. rewrite Hne.
  apply alias_fold_grows. set_solver.
Qed.

Lemma _expand_department_tokens_blank (value : json) :
  _norm_department value = "" -> _expand_department_tokens value = ∅.
Proof. intros He. unfold _expand_department_tokens. rewrite He. reflexivity. Qed.

Lemma allowed_tokens_of_cons (dept : json) (rest : list json) (acc : gset string) :
  allowed_tokens_of (dept :: rest) acc
  = if String.eqb (_norm_department dept) "" then allowed_tokens_of rest acc
    else if is_wildcard (_norm_department dept) then None
    else allowed_tokens_of rest
           (_expand_department_tokens (JStr (_norm_department dept)) ∪ acc).
Proof. reflexivity. Qed.

Lemma allowed_tokens_of_wildcard (l : list json) (acc : gset string) :
  allowed_tokens_of l acc = None
  <-> exists dept, In dept l /\ is_wildcard (_norm_department dept) = true.
Proof.
  revert acc. induction l as [|dept l IH]; intros acc.
  - simpl. split; [discriminate|]. intros (d & [] & _).
  - rewrite allowed_tokens_of_cons.
    destruct (String.eqb (_norm_department dept) "") eqn:Hb.
    + rewrite IH. apply String.eqb_eq in Hb. split.
      * intros (d & Hin & Hw). exists d. split; [right; exact Hin|exact Hw].
      * intros (d & [<-|Hin] & Hw); [rewrite Hb in Hw; discriminate Hw|].
        exists d. auto.
    + destruct (is_wildcard (_norm_department dept)) eqn:Hw.
      * split; [|reflexivity]. intros _. exists dept. split; [left; reflexivity|exact Hw].
      * rewrite IH. split.
        -- intros (d & Hin & Hd). exists d. split; [right; exact Hin|exact Hd].
        -- intros (d & [<-|Hin] & Hd); [congruence|]. exists d. auto.
Qed.

Lemma elem_of_allowed_tokens (l : list json) (acc t : gset string) (x : string) :
  allowed_tokens_of l acc = Some t ->
  x ∈ t <-> x ∈ acc
            \/ exists dept, In dept l /\ x ∈ _expand_department_tokens dept.
Proof.
  revert acc. induction l as [|dept l IH]; intros acc.
  - simpl. intros [= <-]. split; [auto|]. intros [H|(d & [] & _)]. exact H.
  - rewrite allowed_tokens_of_cons.
    destruct (String.eqb (_norm_department dept) "") eqn:Hb.
    + intros H. rewrite (IH acc H). apply String.eqb_eq in Hb. split.
      * intros [Hx|(d & Hin & Hx)]; [auto|]. right. exists d.
        split; [right; exact Hin|exact Hx].
      * intros [Hx|(d & [<-|Hin] & Hx)]; [auto| |right; exists d; auto].
        rewrite (_expand_department_tokens_blank dept Hb) in Hx. set_solver.
    + destruct (is_wildcard _); [discriminate|].
      intros H. rewrite (IH _ H), _expand_department_tokens_norm, elem_of_union.
      split.
      * intros [[Hx|Hx]|(d & Hin & Hx)].
        -- right. exists dept. split; [left; reflexivity|exact Hx].
        -- left. exact Hx.
        -- right. exists d. split; [right; exact Hin|exact Hx].
      * intros [Hx|(d & [<-|Hin] & Hx)]; [auto|auto|right; exists d; auto].
Qed.

Lemma truthy_list (l : list json) (a : json) : In a l -> truthy (JList l) = true.
Proof. destruct l; [intros []|reflexivity]. Qed.

(** X9. An entry [all], [any] or [everyone], in any spelling that
    normalises to it and anywhere in the list of allowed departments, opens
    the exam to every user, also to one without a department. The marker
    [*] does not: it normalises to the empty text and is skipped like a
    blank entry. *)
Theorem wildcard_opens_exam_to_all (user_department dept : json) (l : list json) :
  In dept l ->
  In (_norm_department dept) ["all"; "any"; "everyone"] ->
  is_department_allowed user_department (JList l) = true
  /\ forall rest acc,
       allowed_tokens_of (JStr "*" :: rest) acc = allowed_tokens_of rest acc.
Proof.
  intros Hin Hw. split; [|reflexivity].
  unfold is_department_allowed. rewrite (truthy_list l dept Hin). simpl.
  replace (allowed_tokens_of l ∅) with (@None (gset string)); [reflexivity|].
  symmetry. apply allowed_tokens_of_wildcard. exists dept. split; [exact Hin|].
  unfold is_wildcard. simpl in Hw.
  destruct Hw as [<-|[<-|[<-|[]]]]; reflexivity.
Qed.

Lemma wildcard_opens_exam_to_all_witness :
  is_department_allowed JNull (JList [JStr "CSE"; JStr " Everyone! "]) = true
  /\ forall rest acc,
       allowed_tokens_of (JStr "*" :: rest) acc = allowed_tokens_of rest acc.
Proof.
  apply (wildcard_opens_exam_to_all JNull (JStr " Everyone! ")
           [JStr "CSE"; JStr " Everyone! "]).
  - simpl. auto.
  - vm_compute. auto.
Defined.

Lemma startswith_refl (s : string) : Text.startswith s s = true.
Proof.
  induction s as [|c s IH]; simpl; [reflexivity|]. rewrite Ascii.eqb_refl. exact IH.
Qed.

Lemma contains_refl (s : string) : Text.contains s s = true.
Proof. destruct s; simpl; [reflexivity|]. rewrite Ascii.eqb_refl, startswith_refl. reflexivity. Qed.

(** X10. A user is admitted to a restricted exam as soon as the normalised
    department of the user and the normalised name of one allowed department
    are contained one in the other (in particular when they are equal),
    provided neither is blank. *)
Theorem department_match_admits (user_department dept : json) (l : list json) :
  In dept l ->
  _norm_department dept <> "" ->
  _norm_department user_department <> "" ->
  Text.contains (_norm_department user_department) (_norm_department dept)
  || Text.contains (_norm_department dept) (_norm_department user_department) = true ->
  is_department_allowed user_department (JList l) = true.
Proof.
  intros Hin Hd Hu Hsub.
  unfold is_department_allowed. rewrite (truthy_list l dept Hin). simpl.
  destruct (allowed_tokens_of l ∅) as [t|] eqn:Ht; [|reflexivity].
  assert (_norm_department dept ∈ t) as Hdt.
  { apply (elem_of_allowed_tokens l ∅ t _ Ht). right. exists dept.
    split; [exact Hin|]. apply _expand_department_tokens_self, Hd. }
  pose proof (_expand_department_tokens_self user_department Hu) as Hut.
  rewrite bool_decide_eq_false_2 by set_solver.
  rewrite bool_decide_eq_false_2 by set_solver.
  case_bool_decide; [reflexivity|].
  apply existsb_exists. exists (_norm_department user_department).
  split; [apply list_elem_of_In, elem_of_elements, Hut|].
  apply existsb_exists. exists (_norm_department dept).
  split; [apply list_elem_of_In, elem_of_elements, Hdt|exact Hsub].
Qed.

Lemma department_match_admits_witness :
  is_department_allowed (JStr "Science")
    (JList [JStr "Physics"; JStr "Computer-Science"]) = true.
Proof.
  apply (department_match_admits (JStr "Science") (JStr "Computer-Science")
           [JStr "Physics"; JStr "Computer-Science"]).
  - simpl. auto.
  - vm_compute. discriminate.
  - vm_compute. discriminate.
  - vm_compute. reflexivity.
Defined.

(** X11. A user without a department (none, or a blank one) is refused by
    every exam whose list of allowed departments names a department and
    holds no wildcard. *)
Theorem missing_department_is_refused (user_department dept : json) (l : list json) :
  _norm_department user_department = "" ->
  In dept l ->
  _norm_department dept <> "" ->
  (forall d, In d l -> is_wildcard (_norm_department d) = false) ->
  is_department_allowed user_department (JList l) = false.
Proof.
  intros Hu Hin Hd Hnw.
  unfold is_department_allowed. rewrite (truthy_list l dept Hin). simpl.
  destruct (allowed_tokens_of l ∅) as [t|] eqn:Ht.
  - assert (_norm_department dept ∈ t) as Hdt.
    { apply (elem_of_allowed_tokens l ∅ t _ Ht). right. exists dept.
      split; [exact Hin|]. apply _expand_department_tokens_self, Hd. }
    rewrite bool_decide_eq_false_2 by set_solver.
    rewrite (_expand_department_tokens_blank _ Hu).
    rewrite bool_decide_eq_true_2 by reflexivity. reflexivity.
  - apply allowed_tokens_of_wildcard in Ht as (d & Hdl & Hw).
    rewrite (Hnw d Hdl) in Hw. discriminate Hw.
Qed.

Lemma missing_department_is_refused_witness :
  is_department_allowed (JStr " ") (JList [JStr "CSE"; JStr "IT"]) = false.
Proof.
  apply (missing_department_is_refused (JStr " ") (JStr "CSE")
           [JStr "CSE"; JStr "IT"]).
  - reflexivity.
  - simpl. auto.
  - vm_compute. discriminate.
  - intros d [<-|[<-|[]]]; reflexivity.
Defined.

(** ** Properties of single rows under every operation *)

Lemma Forall_In {A} (P : A -> Prop) (l : list A) (a : A) :
  Forall P l -> In a l -> P a.
Proof. intros H Ha. rewrite Stdlib.Lists.List.Forall_forall in H. apply H, Ha. Qed.

Lemma Forall_replace {A} (P : A -> Prop) (f : A -> A) (l : list A) :
  (forall r, P r -> P (f r)) -> Forall P l -> Forall P (map f l).
Proof.
  intros Hf Hl. induction Hl as [|x l Hx Hl IH]; simpl; constructor; auto.
Qed.

Lemma Forall_filter_In {A} (P : A -> Prop) (p : A -> bool) (l : list A) :
  Forall P l -> Forall P (List.filter p l).
Proof.
  intros Hl. apply Stdlib.Lists.List.Forall_forall. intros a Ha.
  apply filter_In in Ha as [Ha _]. eapply Forall_In; eassumption.
Qed.

Lemma Forall_save_attempt_rows (P : ExamAttempt -> Prop) (obj : ExamAttempt)
    (rows : list ExamAttempt) :
  P obj -> Forall P rows -> Forall P (save_attempt_rows obj rows).
Proof.
  intros Ho Hr. unfold save_attempt_rows. destruct (existsb _ rows).
  - apply Forall_replace; [|exact Hr]. intros r Hp.
    destruct (same_attempt obj r); assumption.
  - constructor; assumption.
Qed.

Lemma Forall_save_answer_rows (P : Answer -> Prop) (a : Answer) (rows : list Answer) :
  P a -> Forall P rows -> Forall P (save_answer_rows a rows).
Proof.
  intros Ha Hr. unfold save_answer_rows. destruct (existsb _ rows).
  - apply Forall_replace; [|exact Hr]. intros r Hp.
    destruct (same_answer a r); assumption.
  - apply Forall_app. split; [exact Hr|]. constructor; [exact Ha|constructor].
Qed.

Section Rows.

Variables (PQ : Question -> Prop) (PE : ExamAttempt -> Prop)
  (PA : Answer -> Prop) (PR : Result -> Prop).

Hypothesis blank_ok : forall (i : uuid) (q : Question), PQ q ->
  PA {| an_attempt := i; an_question := q; an_answer := JDict []; an_code := None;
        an_score := None; an_evaluated_by := None; an_feedback := None |}.
Hypothesis graded_ok : forall a, PA a -> PA (graded a).
Hypothesis answer_ok : forall a v, PA a -> v <> JNull -> PA (with_answer a v).
Hypothesis code_ok : forall a c, PA a -> PA (with_code a c).
Hypothesis evaluated_ok : forall a score feedback grader,
  PA a -> 0 <= score <= q_points (an_question a) ->
  PA (evaluated a score feedback grader).
Hypothesis new_ok : forall i exam student t,
  PE {| ea_id := i; ea_exam := exam; ea_student := student; ea_start_time := t;
        ea_submit_time := None; ea_status := in_progress;
        ea_total_score := None; ea_obtained_score := None |}.
Hypothesis finalized_ok : forall a st t,
  PE a -> ea_status a = in_progress -> terminal st = true -> PE (finalized a st t).
Hypothesis scores_ok : forall a answers,
  PE a -> Forall PA answers ->
  PE (with_scores a (e_total_marks (ea_exam a)) (sum_scores answers)).
Hypothesis result_ok : forall a answers t published,
  PE a -> Forall PA answers ->
  fits_columns (result_for a answers t published) = true ->
  PR (as_stored (result_for a answers t published)).

Local Abbreviation I := (rows_satisfy PQ PE PA PR).

Lemma rows_save_attempt (obj : ExamAttempt) :
  PE obj -> keeps I (save_attempt obj) (fun _ => True).
Proof.
  intros Ho. apply keeps_write. intros d (Hq & He & Ha & Hr).
  repeat split; try assumption. simpl. apply Forall_save_attempt_rows; assumption.
Qed.

Lemma rows_save_answer (a : Answer) :
  PA a -> keeps I (save_answer a) (fun _ => True).
Proof.
  intros Hp. apply keeps_write. intros d (Hq & He & Ha & Hr).
  repeat split; try assumption. simpl. apply Forall_save_answer_rows; assumption.
Qed.

Lemma rows_grade_answer (a : Answer) :
  PA a -> keeps I (grade_answer a) PA.
Proof.
  intros Hp. unfold grade_answer.
  pose proof (graded_ok a Hp) as Hg. unfold graded, is_auto in Hg.
  destruct (q_type (an_question a)); try (apply keeps_ret; exact Hp);
    (eapply keeps_bind; [apply rows_save_answer; exact Hg|];
     intros _ _; apply keeps_ret; exact Hg).
Qed.

Lemma rows_grade_answers (l : list Answer) :
  Forall PA l -> keeps I (grade_answers l) (Forall PA).
Proof.
  induction l as [|a l IH]; intros Hl; simpl.
  - apply keeps_ret. constructor.
  - inversion Hl as [|? ? Ha Hl']; subst.
    eapply keeps_bind; [apply rows_grade_answer; exact Ha|]. intros a' Ha'.
    eapply keeps_bind; [apply IH; exact Hl'|]. intros l' Hl''.
    apply keeps_ret. constructor; assumption.
Qed.

Lemma rows_results_write (k : uuid) (f : list Result -> list Result) :
  (forall rows, Forall PR rows -> Forall PR (f rows)) ->
  keeps I (write Results k (set_results f)) (fun _ => True).
Proof.
  intros Hf. apply keeps_write. intros d (Hq & He & Ha & Hr).
  repeat split; try assumption. simpl. apply Hf, Hr.
Qed.

Lemma rows_update_or_create (a : ExamAttempt) (answers : list Answer)
    (t : timestamp) :
  PE a -> Forall PA answers ->
  keeps I (update_or_create_result (ea_id a) (result_for a answers t false))
    (fun _ => True).
Proof.
  intros Ha Hl. unfold update_or_create_result.
  eapply keeps_bind; [apply keeps_query_any|]. intros rows _.
  destruct rows as [|old [|]].
  - eapply keeps_bind; [apply keeps_result_row|]. intros row [-> Hfits].
    eapply keeps_bind; [|intros _ _; keeps_done].
    apply rows_results_write. intros rows Hr. constructor; [|exact Hr].
    apply result_ok; assumption.
  - eapply keeps_bind; [apply keeps_result_row|]. intros row [-> Hfits].
    eapply keeps_bind; [|intros _ _; keeps_done].
    apply rows_results_write. intros rows Hr. apply Forall_replace; [|exact Hr].
    intros r Hp. destruct (_ =? _)%N; [|exact Hp].
    apply (result_ok a answers t (r_is_published old)); assumption.
  - apply keeps_raise.
Qed.

Lemma rows_answers_of (i : uuid) :
  keeps I (query (answers_of i)) (Forall PA).
Proof.
  apply keeps_query. intros d (_ & _ & Ha & _). apply Forall_filter_In, Ha.
Qed.

Lemma rows_calculate (obj : ExamAttempt) :
  PE obj -> keeps I (calculate_exam_result obj) (fun _ => True).
Proof.
  intros Ho. unfold calculate_exam_result.
  eapply keeps_bind; [apply rows_answers_of|]. intros answers0 H0.
  eapply keeps_bind; [apply rows_grade_answers; exact H0|]. intros answers1 H1.
  eapply keeps_bind; [apply keeps_to_column|]. intros _ _.
  eapply keeps_bind; [apply rows_save_attempt, scores_ok; assumption|]. intros _ _.
  eapply keeps_bind with (Q := fun _ => True).
  { simpl. destruct (ea_submit_time obj); [keeps_done|apply keeps_now]. }
  intros t _.
  eapply keeps_bind; [|intros r _; keeps_done].
  apply (rows_update_or_create obj answers1 t); assumption.
Qed.

Lemma rows_in_progress_attempts :
  keeps I (query in_progress_attempts)
    (fun l => forall a, In a l -> PE a /\ ea_status a = in_progress).
Proof.
  apply keeps_query. intros d (_ & He & _) a Ha.
  apply filter_In in Ha as [Ha Hst]. apply bool_decide_eq_true in Hst.
  split; [eapply Forall_In; eassumption|exact Hst].
Qed.

Lemma rows_attempts_with_in_progress (e u : uuid) :
  keeps I (query (fun d => head (attempts_with e u [in_progress] d)))
    (fun o => forall a, o = Some a -> PE a /\ ea_status a = in_progress).
Proof.
  apply keeps_query. intros d (_ & He & _) a Ha.
  apply head_In, attempts_with_In in Ha as (Ha & Hst & _).
  apply list_elem_of_singleton in Hst.
  split; [eapply Forall_In; eassumption|exact Hst].
Qed.

Lemma rows_sweep_task : keeps I auto_submit_expired_exams (fun _ => True).
Proof.
  unfold auto_submit_expired_exams.
  eapply keeps_bind; [apply keeps_now|]. intros now _.
  eapply keeps_bind; [apply rows_in_progress_attempts|]. intros l Hl.
  apply keeps_for_fold with (Inv := fun _ => True); [|exact Logic.I].
  intros count a Ha _. destruct (Hl a Ha) as [Hp Hst].
  destruct (get_attempt_end_time a <? now); [|keeps_done].
  assert (PE (finalized a auto_submitted (get_attempt_end_time a))) as Hf
    by (apply finalized_ok; auto).
  eapply keeps_bind; [apply rows_save_attempt, Hf|]. intros _ _.
  eapply keeps_bind; [apply rows_calculate, Hf|]. intros _ _.
  keeps_done.
Qed.

Lemma rows_sweep_command : keeps I Command.handle (fun _ => True).
Proof.
  unfold Command.handle.
  eapply keeps_bind; [apply keeps_now|]. intros now _.
  eapply keeps_bind; [apply rows_in_progress_attempts|]. intros l Hl.
  apply keeps_for_fold with (Inv := fun _ => True); [|exact Logic.I].
  intros count a Ha _. destruct (Hl a Ha) as [Hp Hst].
  destruct (get_attempt_end_time a <? now); [|keeps_done].
  assert (PE (finalized a auto_submitted (get_attempt_end_time a))) as Hf
    by (apply finalized_ok; auto).
  eapply keeps_bind; [apply rows_save_attempt, Hf|]. intros _ _.
  apply keeps_try.
  - eapply keeps_bind; [apply rows_calculate, Hf|]. intros _ _. keeps_done.
  - intros e. keeps_done.
Qed.

Lemma rows_save_answer_fields (answer : Answer) (upd_answer upd_code : bool) :
  (upd_answer = true -> an_answer answer <> JNull) ->
  keeps I (save_answer_fields answer upd_answer upd_code) (fun _ => True).
Proof.
  intros Hv. apply keeps_write. intros d (Hq & He & Ha & Hr).
  repeat split; try assumption. simpl. apply Forall_replace; [|exact Ha].
  intros r Hp. destruct (same_answer answer r); [|exact Hp].
  destruct upd_answer, upd_code; auto.
Qed.

Lemma rows_persist (attempt : ExamAttempt) (payload : json) :
  keeps I (_persist_attempt_answers attempt payload) (fun _ => True).
Proof.
  unfold _persist_attempt_answers.
  apply keeps_for_fold with (Inv := fun _ => True); [|exact Logic.I].
  intros n item _ _.
  destruct (negb (truthy _)); [keeps_done|].
  eapply keeps_bind; [apply keeps_convert|]. intros key _.
  eapply keeps_bind; [apply keeps_query_any|]. intros found _.
  destruct found as [|answer [|]]; [keeps_done | | apply keeps_raise].
  destruct (dict_has "answer" item) eqn:Hans; simpl.
  - eapply keeps_bind; [|intros _ _; keeps_done].
    apply rows_save_answer_fields. intros _.
    destruct (dict_has "code" item); [|destruct (_ && _)]; simpl;
      destruct (dict_get "answer" item); simpl; discriminate.
  - destruct (dict_has "code" item); [|keeps_done].
    eapply keeps_bind; [|intros _ _; keeps_done].
    apply rows_save_answer_fields. discriminate.
Qed.

Lemma rows_save_view (user : User) (exam_id : uuid) (payload : json) :
  keeps I (StudentSaveAnswerView.update user exam_id payload) (fun _ => True).
Proof.
  unfold StudentSaveAnswerView.update.
  eapply keeps_bind; [apply keeps_query_any|]. intros found _.
  destruct found as [|attempt [|]]; [keeps_done | | apply keeps_raise].
  eapply keeps_bind; [apply keeps_now|]. intros now _.
  destruct (_ <? now); [keeps_done|].
  destruct (_payload_answer_items payload); [keeps_done|].
  eapply keeps_bind; [apply rows_persist|]. intros n _.
  eapply keeps_bind; [apply keeps_now|]. intros t _.
  keeps_done.
Qed.

Lemma rows_submit_view (user : User) (exam_id : uuid) (payload : json) :
  keeps I (StudentSubmitExamView.create user exam_id payload) (fun _ => True).
Proof.
  unfold StudentSubmitExamView.create.
  eapply keeps_bind; [apply rows_attempts_with_in_progress|].
  intros [attempt|] Ha.
  - destruct (Ha attempt eq_refl) as [Hp Hst].
    eapply keeps_bind; [apply rows_persist|]. intros n _.
    eapply keeps_bind; [apply keeps_now|]. intros now _.
    assert (PE (finalized attempt submitted now)) as Hf
      by (apply finalized_ok; auto).
    eapply keeps_bind; [apply rows_save_attempt, Hf|]. intros _ _.
    eapply keeps_bind; [apply rows_calculate, Hf|]. intros _ _.
    keeps_done.
  - eapply keeps_bind; [apply keeps_query_any|]. intros [already|] _; keeps_done.
Qed.

Lemma rows_create_attempt (new_id : uuid) (exam : Exam) (student : uuid)
    (t : timestamp) :
  keeps I (create_attempt new_id exam student t) (fun _ => True).
Proof.
  unfold create_attempt.
  eapply keeps_bind; [apply keeps_query_any|]. intros [|] _; [apply keeps_raise|].
  eapply keeps_bind; [|intros _ _; keeps_done].
  apply keeps_write. intros d (Hq & He & Ha & Hr).
  repeat split; try assumption. simpl. constructor; [apply new_ok|exact He].
Qed.

Lemma rows_remaining (a : ExamAttempt) :
  keeps I (get_attempt_remaining_time a) (fun _ => True).
Proof.
  unfold get_attempt_remaining_time.
  eapply keeps_bind; [apply keeps_now|]. intros now _.
  destruct (_ <? now); keeps_done.
Qed.

Lemma rows_eligibility (user : User) (exam : Exam) :
  keeps I (check_exam_eligibility user exam) (fun _ => True).
Proof.
  unfold check_exam_eligibility.
  eapply keeps_bind; [apply keeps_now|]. intros now _.
  repeat (match goal with |- keeps _ (if ?c then _ else _) _ => destruct c end;
          [keeps_done|]).
  eapply keeps_bind; [apply keeps_query_any|]. intros [|] _; keeps_done.
Qed.

Lemma rows_create_answer (attempt : ExamAttempt) (q : Question) :
  PQ q -> keeps I (create_answer attempt q) (fun _ => True).
Proof.
  intros Hp. unfold create_answer.
  eapply keeps_bind; [apply keeps_query_any|]. intros [|] _; [apply keeps_raise|].
  apply keeps_write. intros d (Hq & He & Ha & Hr).
  repeat split; try assumption. simpl.
  apply Forall_app. split; [exact Ha|]. constructor; [|constructor].
  apply blank_ok, Hp.
Qed.

Lemma rows_start_view (user : User) (exam_id new_id : uuid) :
  keeps I (StudentStartExamView.create user exam_id new_id) (fun _ => True).
Proof.
  unfold StudentStartExamView.create.
  eapply keeps_bind; [apply keeps_query_any|]. intros [exam|] _; [|keeps_done].
  eapply keeps_bind; [apply rows_attempts_with_in_progress|].
  intros [existing|] Ha.
  - destruct (Ha existing eq_refl) as [Hp Hst].
    eapply keeps_bind; [apply rows_remaining|]. intros remaining _.
    eapply keeps_bind with (Q := fun _ => True).
    { destruct (remaining <=? 0); [keeps_done|].
      eapply keeps_bind; [apply keeps_now|]. intros; keeps_done. }
    intros [|] _; [|keeps_done].
    eapply keeps_bind; [apply keeps_now|]. intros now _.
    assert (PE (finalized existing auto_submitted now)) as Hf
      by (apply finalized_ok; auto).
    eapply keeps_bind; [apply rows_save_attempt, Hf|]. intros _ _.
    eapply keeps_bind; [apply rows_calculate, Hf|]. intros _ _.
    keeps_done.
  - eapply keeps_bind; [apply keeps_query_any|]. intros [done|] _; [keeps_done|].
    eapply keeps_bind; [apply rows_eligibility|]. intros eligible _.
    destruct (negb (fst eligible)); [keeps_done|].
    eapply keeps_bind; [apply keeps_now|]. intros t _.
    eapply keeps_bind; [apply rows_create_attempt|]. intros attempt _.
    eapply keeps_bind; [apply rows_remaining|]. intros remaining _.
    eapply keeps_bind with (Q := Forall PQ).
    { apply keeps_query. intros d (Hq & _). apply Forall_filter_In, Hq. }
    intros qs Hqs.
    eapply keeps_bind; [|intros _ _; keeps_done].
    apply keeps_for_each. intros q Hq. apply rows_create_answer.
    eapply Forall_In; eassumption.
Qed.

Lemma rows_evaluate_view (grader attempt_id : uuid) (question_id : json)
    (score : Decimal) (feedback : string) :
  keeps I (StaffEvaluateAnswerView.create grader attempt_id question_id score feedback)
    (fun _ => True).
Proof.
  unfold StaffEvaluateAnswerView.create.
  eapply keeps_bind with (Q := Forall PA).
  { destruct (is_none question_id); [apply keeps_ret; constructor|].
    eapply keeps_bind; [apply keeps_convert|]. intros key _.
    apply keeps_query. intros d (_ & _ & Ha & _). apply Forall_filter_In, Ha. }
  intros found Hfound.
  destruct found as [|answer [|]]; [keeps_done | | apply keeps_raise].
  inversion Hfound as [|? ? Hp _]; subst.
  destruct (Z.ltb_spec score 0); [keeps_done|].
  destruct (Z.ltb_spec (q_points (an_question answer)) score); [keeps_done|].
  eapply keeps_bind; [apply rows_save_answer, evaluated_ok; [exact Hp|lia]|].
  intros _ _.
  eapply keeps_bind with (Q := PE).
  { unfold attempt_of.
    eapply keeps_bind with (Q := fun o => forall a, o = Some a -> PE a).
    - apply keeps_query. intros d (_ & He & _) a Ha.
      apply head_In, filter_In in Ha as [Ha _]. eapply Forall_In; eassumption.
    - intros [a|] Ha; [apply keeps_ret; auto | apply keeps_raise]. }
  intros attempt Hat.
  eapply keeps_bind; [apply rows_calculate, Hat|]. intros _ _.
  keeps_done.
Qed.

Lemma rows_finalize_results (exam_id : uuid) :
  keeps I (StaffExamViewSet.finalize_results exam_id) (fun _ => True).
Proof.
  unfold StaffExamViewSet.finalize_results.
  eapply keeps_bind; [apply keeps_query_any|]. intros [exam|] _; [|keeps_done].
  eapply keeps_bind; [apply keeps_now|]. intros now _.
  eapply keeps_bind with (Q := fun _ => True).
  { destruct (now <? _); [apply keeps_query_any|keeps_done]. }
  intros active _.
  destruct (0 <? active)%nat; [keeps_done|].
  eapply keeps_bind with (Q := Forall PE).
  { apply keeps_query. intros d (_ & He & _). apply Forall_filter_In, He. }
  intros l Hl.
  eapply keeps_bind with (Q := fun _ => True).
  { apply keeps_for_fold with (Inv := fun _ => True); [|exact Logic.I].
    intros counts a Ha _.
    eapply keeps_bind; [apply keeps_query_any|]. intros had _.
    eapply keeps_bind; [apply rows_calculate; eapply Forall_In; eassumption|].
    intros _ _. destruct had; keeps_done. }
  intros counts _.
  eapply keeps_bind; [apply keeps_query_any|]. intros rs _.
  keeps_done.
Qed.

Lemma rows_perform (op : operation) : keeps I (perform op) (fun _ => True).
Proof.
  destruct op; simpl; (eapply keeps_bind; [|intros _ _; keeps_done]).
  - apply rows_start_view.
  - apply rows_save_view.
  - apply rows_submit_view.
  - apply rows_evaluate_view.
  - apply rows_finalize_results.
  - apply rows_sweep_task.
  - apply rows_sweep_command.
Qed.

Lemma rows_run_ops (env : Env) (ops : list operation) (w : World) :
  I (db w) -> I (db (run_ops env ops w)).
Proof.
  revert w. unfold run_ops.
  induction ops as [|op ops IH]; intros w Hw; simpl; [exact Hw|].
  apply IH. apply (rows_perform op env w Hw).
Qed.

End Rows.

(** ** Scores stay within the points of their question *)

Lemma auto_evaluate_mcq_zero_or_full (question : Question) (v : json) :
  auto_evaluate_mcq question v = 0 \/ auto_evaluate_mcq question v = q_points question.
Proof.
  unfold auto_evaluate_mcq. destruct (q_type question); auto;
    match goal with |- context [if ?c then _ else _] => destruct c end; auto.
Qed.

Lemma sum_scores_from (answers : list Answer) (acc : Z) :
  Forall score_in_range answers ->
  acc <= fold_left (fun obtained a =>
                      match an_score a with
                      | Some s => obtained + s
                      | None => obtained
                      end) answers acc.
Proof.
  intros Hl. revert acc. induction Hl as [|a l [_ Ha] Hl IH]; intros acc; simpl; [lia|].
  destruct (an_score a) as [s|]; [|apply IH].
  specialize (Ha s eq_refl). specialize (IH (acc + s)). lia.
Qed.

Lemma sum_scores_nonneg (answers : list Answer) :
  Forall score_in_range answers -> 0 <= sum_scores answers.
Proof. apply sum_scores_from. Qed.

(** X12. Scores stay in range under every sequence of operations, with any
    clock and any storage errors: when no question has negative points,
    every score lies between 0 and the points of its question and no attempt
    or result holds negative obtained marks, the same is true afterwards.
    In particular automatic grading awards 0 or the full points, and manual
    grading never stores a score outside the points of the question. *)
Theorem scores_stay_in_range (env : Env) (ops : list operation) (w : World) :
  scores_in_range (db w) -> scores_in_range (db (run_ops env ops w)).
Proof.
  unfold scores_in_range. apply rows_run_ops.
  - intros i q Hq. split; [exact Hq|]. simpl. discriminate.
  - intros a [Hp Hs]. unfold graded. destruct (is_auto a); [|split; assumption].
    split; [exact Hp|]. simpl. intros s [= <-].
    destruct (auto_evaluate_mcq_zero_or_full (an_question a) (an_answer a)) as [->| ->];
      lia.
  - intros a v Ha _. exact Ha.
  - intros a c Ha. exact Ha.
  - intros a score feedback grader [Hp _] Hs. split; [exact Hp|].
    simpl. intros s [= <-]. exact Hs.
  - simpl. discriminate.
  - intros a st t Ha _ _. exact Ha.
  - intros a answers _ Hl. simpl. intros s [= <-]. apply sum_scores_nonneg, Hl.
  - intros a answers t published _ Hl _. simpl. apply sum_scores_nonneg, Hl.
Qed.

Lemma scores_stay_in_range_witness :
  scores_in_range
    (db (run_ops Scenario.env_failing Sample.submit_then_grade
           (world_of Scenario.db_running))).
Proof.
  apply (scores_stay_in_range Scenario.env_failing Sample.submit_then_grade
           (world_of Scenario.db_running)).
  unfold scores_in_range, rows_satisfy, score_in_range. simpl.
  repeat split; repeat constructor; simpl; intros; try discriminate; lia.
Defined.

(** ** Stored answers are never null *)

(** X13. No stored answer is JSON null, under every sequence of operations
    with any clock and any storage errors: a new answer holds [{}], and a
    [None] a student sends is stored as [{}]. *)
Theorem answers_stay_not_null (env : Env) (ops : list operation) (w : World) :
  answers_not_null (db w) -> answers_not_null (db (run_ops env ops w)).
Proof.
  intros Hw.
  assert (rows_satisfy (fun _ => True) (fun _ => True)
            (fun a => an_answer a <> JNull) (fun _ => True)
            (db (run_ops env ops w))) as (_ & _ & H & _); [|exact H].
  apply rows_run_ops; try (intros; exact Logic.I).
  - intros i q _. simpl. discriminate.
  - intros a Ha. unfold graded. destruct (is_auto a); exact Ha.
  - intros a v _ Hv. exact Hv.
  - intros a c Ha. exact Ha.
  - intros a score feedback grader Ha _. exact Ha.
  - unfold rows_satisfy.
    repeat split; try exact Hw; apply Forall_forall; intros; exact Logic.I.
Qed.

Lemma answers_stay_not_null_witness :
  answers_not_null
    (db (run_ops Sample.env_early Sample.submit_then_grade
           (world_of Scenario.db_running))).
Proof.
  apply (answers_stay_not_null Sample.env_early Sample.submit_then_grade
           (world_of Scenario.db_running)).
  unfold answers_not_null. simpl. repeat constructor; discriminate.
Defined.

(** The [None] the first student saves during the exam is stored as [{}],
    and earns nothing when the attempt is submitted. *)
Example saved_none_is_stored_as_empty_dict :
  map (fun a => (an_attempt a, an_answer a, an_score a))
    (answers (db (run_ops Sample.env_early Sample.submit_then_grade
                    (world_of Scenario.db_running))))
  = [(100%N, JDict [], Some 0); (101%N, JStr "2", None)].
Proof. vm_compute. reflexivity. Qed.

(** ** Submit times *)

(** X14. An attempt has a submit time exactly when it is submitted or
    auto-submitted; this holds for every attempt after every sequence of
    operations, with any clock and any storage errors, when it held
    before. *)
Theorem submit_time_follows_status (env : Env) (ops : list operation) (w : World) :
  submit_time_marks_terminal (db w) ->
  submit_time_marks_terminal (db (run_ops env ops w)).
Proof.
  intros Hw.
  assert (rows_satisfy (fun _ => True)
            (fun a => ea_submit_time a = None <-> ea_status a = in_progress)
            (fun _ => True) (fun _ => True)
            (db (run_ops env ops w))) as (_ & H & _); [|exact H].
  apply rows_run_ops; try (intros; exact Logic.I).
  - intros i exam student t. simpl. split; reflexivity.
  - intros a st t _ _ Hst. simpl. split; [discriminate|].
    intros ->. discriminate Hst.
  - intros a answers Ha _. exact Ha.
  - unfold rows_satisfy.
    repeat split; try exact Hw; apply Forall_forall; intros; exact Logic.I.
Qed.

Lemma submit_time_follows_status_witness :
  submit_time_marks_terminal
    (db (run_ops Scenario.env_failing Sample.submit_then_grade
           (world_of Scenario.db_running))).
Proof.
  apply (submit_time_follows_status Scenario.env_failing Sample.submit_then_grade
           (world_of Scenario.db_running)).
  unfold submit_time_marks_terminal. simpl.
  repeat constructor; simpl; intros; congruence.
Defined.

(** ** Stored results *)


(** Two of three: the result object holds the quotient with 28 digits, the
    row 66.67. *)
Example stored_percentage_takes_two_places :
  let submitted := StudentSubmitExamView.create Scenario.student 3 JNull
                     Sample.env_early (world_of Sample.db_thirds_sitting) in
  Dec.percent 200 300 = 66.66666666666666666666666667%Q
  /\ map (fun r => (r_obtained_marks r, r_total_marks r, r_percentage r))
       (results (db (snd submitted)))
     = [(200, 300, Dec.of_hundredths 6667)]
  /\ Dec.quantize2 (125 # 1000) = 12 /\ Dec.quantize2 (375 # 1000) = 38.
Proof. repeat split; vm_compute; reflexivity. Qed.


(** ** What saving answers may change *)

(** Every write of [_persist_attempt_answers] edits rows of the attempt in
    place and leaves their marking alone. *)
Lemma persist_frame (I : DB -> Prop) (attempt : ExamAttempt) (payload : json) :
  (forall f d, I d ->
     (forall r, an_attempt r <> ea_id attempt -> f r = r) ->
     (forall r, marking (f r) = marking r) ->
     I (set_answers (map f) d)) ->
  keeps I (_persist_attempt_answers attempt payload) (fun _ => True).
Proof.
  intros HI. unfold _persist_attempt_answers.
  apply keeps_for_fold with (Inv := fun _ => True); [|exact Logic.I].
  intros n item _ _.
  destruct (negb (truthy _)); [keeps_done|].
  eapply keeps_bind; [apply keeps_convert|]. intros key _.
  eapply keeps_bind with (Q := fun l => forall x, In x l -> an_attempt x = ea_id attempt).
  { apply keeps_query. intros d _ x Hx. apply filter_In in Hx as [_ Hx].
    apply andb_true_iff in Hx as [Hx _]. apply N.eqb_eq in Hx. exact Hx. }
  intros found Hfound.
  destruct found as [|answer [|]]; [keeps_done | | apply keeps_raise].
  specialize (Hfound answer (or_introl eq_refl)).
  destruct (dict_has "answer" item || dict_has "code" item); [|keeps_done].
  eapply keeps_bind; [|intros _ _; keeps_done].
  unfold save_answer_fields.
  match goal with |- context [same_answer ?obj] => set (saved := obj) end.
  assert (Hsaved : an_attempt saved = ea_id attempt).
  { subst saved. destruct (dict_has "answer" item), (dict_has "code" item);
      simpl; try exact Hfound;
      match goal with |- context [if ?c then _ else _] => destruct c end;
      simpl; exact Hfound. }
  apply keeps_write. intros d Hd. apply HI; [exact Hd| |].
  - intros r Hr. destruct (same_answer saved r) eqn:Hs; [|reflexivity].
    exfalso. apply andb_true_iff in Hs as [Hs _]. apply N.eqb_eq in Hs. congruence.
  - intros r. destruct (same_answer saved r); [|reflexivity].
    destruct (dict_has "answer" item), (dict_has "code" item || _); reflexivity.
Qed.

Lemma save_view_frame (I : DB -> Prop) (P : ExamAttempt -> Prop) (user : User)
    (exam_id : uuid) (payload : json) :
  (forall d a, I d ->
     In a (attempts_with exam_id (u_id user) [in_progress] d) -> P a) ->
  (forall a, P a -> keeps I (_persist_attempt_answers a payload) (fun _ => True)) ->
  keeps I (StudentSaveAnswerView.update user exam_id payload) (fun _ => True).
Proof.
  intros HP Hp. unfold StudentSaveAnswerView.update.
  eapply keeps_bind with (Q := fun l => forall a, In a l -> P a).
  { apply keeps_query. intros d Hd a Ha. apply (HP d a Hd Ha). }
  intros found Hfound.
  destruct found as [|attempt [|]]; [keeps_done | | apply keeps_raise].
  eapply keeps_bind; [apply keeps_now|]. intros now _.
  destruct (_ <? now); [keeps_done|].
  destruct (_payload_answer_items payload); [keeps_done|].
  eapply keeps_bind; [apply Hp, Hfound; left; reflexivity|]. intros n _.
  eapply keeps_bind; [apply keeps_now|]. intros t _.
  keeps_done.
Qed.

Lemma map_marking_frame (f : Answer -> Answer) (rows : list Answer) :
  (forall r, marking (f r) = marking r) ->
  map marking (map f rows) = map marking rows.
Proof. intros Hf. rewrite map_map. apply map_ext. exact Hf. Qed.

Lemma answers_of_frame (i : uuid) (f : Answer -> Answer) (d : DB) :
  (forall r, an_attempt r = i -> f r = r) ->
  (forall r, marking (f r) = marking r) ->
  answers_of i (set_answers (map f) d) = answers_of i d.
Proof.
  intros Hi Hm. unfold answers_of. simpl. apply filter_map_frame.
  - intros r. specialize (Hm r). unfold marking in Hm. injection Hm as -> _ _ _ _.
    reflexivity.
  - intros r Hr. apply N.eqb_eq in Hr. apply Hi, Hr.
Qed.

(** X16. A save request edits nothing but the answer and code columns of
    answers, whatever the payload, the clock and the storage errors: it
    creates and deletes no row, changes no score, feedback or grader, and
    leaves exams, questions, attempts and results as they are. Moreover it
    leaves every answer of every attempt other than the requesting student's
    in-progress attempt of that exam untouched. *)
Theorem save_only_edits_own_answers (env : Env) (w : World) (user : User)
    (exam_id : uuid) (payload : json) :
  let d' := db (snd (StudentSaveAnswerView.update user exam_id payload env w)) in
  only_answers_edited (db w) d'
  /\ forall i,
       (forall a, In a (attempts_with exam_id (u_id user) [in_progress] (db w)) ->
                  ea_id a <> i) ->
       answers_of i d' = answers_of i (db w).
Proof.
  split.
  - apply (save_view_frame (only_answers_edited (db w)) (fun _ => True)
             user exam_id payload);
      [auto| |unfold only_answers_edited; repeat split; reflexivity].
    intros attempt _. apply persist_frame.
    intros f d (He & Hq & Ha & Hr & Hx & Hm) _ Hf.
    unfold only_answers_edited. simpl. repeat split; try assumption.
    rewrite map_marking_frame by exact Hf. exact Hm.
  - intros i Hother.
    apply (save_view_frame
             (fun d => attempts d = attempts (db w)
                       /\ answers_of i d = answers_of i (db w))
             (fun a => ea_id a <> i) user exam_id payload);
      [| |split; reflexivity].
    + intros d a [Hatt _] Hin. apply Hother.
      unfold attempts_with, attempts_of_pair in *. rewrite <- Hatt. exact Hin.
    + intros attempt Hne. apply persist_frame. intros f d [Hatt Hans] Hfix Hm.
      split; [exact Hatt|]. rewrite <- Hans. apply answers_of_frame; [|exact Hm].
      intros r Hr. apply Hfix. congruence.
Qed.

(** The first student overwrites an answer during the exam: the other
    student's answers and every score stay as they were. *)
Example save_only_edits_own_answers_example :
  let w' := snd (StudentSaveAnswerView.update Scenario.student 1
                   (JDict [("questionId", JInt 1); ("answer", JStr "2")])
                   Sample.env_early (world_of Scenario.db_running)) in
  answers_of 100 (db w') = [Scenario.answer 100 (JStr "2")]
  /\ answers_of 101 (db w') = answers_of 101 Scenario.db_running.
Proof. split; vm_compute; reflexivity. Qed.

(** ** The effect of evaluating an answer *)

Lemma answer_key_evaluated (a : Answer) (score : Decimal) (feedback : string)
    (grader : uuid) :
  answer_key (evaluated a score feedback grader) = answer_key a.
Proof. reflexivity. Qed.

Lemma answers_for_In (i q : uuid) (d : DB) (a : Answer) :
  In a (answers_for i q d) <-> In a (answers d) /\ answer_key a = (i, q).
Proof.
  unfold answers_for, answer_key. rewrite filter_In, andb_true_iff, !N.eqb_eq.
  split; [intros (H & -> & ->); auto | intros (H & [= -> ->]); auto].
Qed.

(** With one answer per (attempt, question), the pair selects the row. *)
Lemma answers_for_unique (rows : list Answer) (a : Answer) :
  NoDup (map answer_key rows) -> In a rows ->
  List.filter (fun r => (an_attempt r =? an_attempt a)%N
                        && (q_id (an_question r) =? q_id (an_question a))%N) rows
  = [a].
Proof.
  intros Hnd Hin. apply (filter_unique_key answer_key); [|exact Hnd|exact Hin].
  intros x. rewrite andb_true_iff, !N.eqb_eq. unfold answer_key.
  split; [intros [-> ->]; reflexivity | intros [= -> ->]; auto].
Qed.

Lemma answers_recomputed (obj : ExamAttempt) (t : timestamp) (d : DB) :
  answers (recomputed obj t d) = grade_rows (answers_of (ea_id obj) d) (answers d).
Proof. reflexivity. Qed.

Section Evaluate.

Variables (env : Env) (w : World) (grader attempt_id qid : uuid)
  (question_id : json) (score : Decimal) (feedback : string)
  (answer : Answer) (attempt : ExamAttempt) (t : timestamp).

Hypothesis quiet : forall tb n, fault_at env tb attempt_id n = false.
Hypothesis key_given : is_none question_id = false.
Hypothesis key_read : to_uuid env question_id = Some qid.
Hypothesis unique_answers : answers_unique (db w).
Hypothesis one_result : (length (results_of attempt_id (db w)) <= 1)%nat.
Hypothesis answer_found : In answer (answers (db w)).
Hypothesis answer_key_is : answer_key answer = (attempt_id, qid).
Hypothesis attempt_found : find_attempt attempt_id (db w) = Some attempt.
Hypothesis attempt_submitted : ea_submit_time attempt = Some t.
Hypothesis score_in_points : 0 <= score <= q_points (an_question answer).

Local Abbreviation answer1 := (evaluated answer score feedback grader).
Local Abbreviation d1 := (set_answers (save_answer_rows answer1) (db w)).

Hypothesis marks_fit : fits_columns (recomputed_result attempt t d1) = true.

Lemma evaluate_found : answers_for attempt_id qid (db w) = [answer].
Proof.
  injection answer_key_is as Ha Hq. unfold answers_for. rewrite <- Ha, <- Hq.
  apply answers_for_unique; assumption.
Qed.

Lemma evaluate_attempt_id : ea_id attempt = attempt_id.
Proof.
  unfold find_attempt in attempt_found. apply head_In, filter_In in attempt_found.
  destruct attempt_found as [_ H]. apply N.eqb_eq in H. exact H.
Qed.

Lemma evaluate_saved_rows :
  save_answer_rows answer1 (answers (db w))
  = map (fun r => if same_answer answer r then answer1 else r) (answers (db w)).
Proof.
  unfold save_answer_rows.
  assert (existsb (same_answer answer1) (answers (db w)) = true) as ->; [|reflexivity].
  apply existsb_exists. exists answer. split; [exact answer_found|].
  apply same_answer_key. reflexivity.
Qed.

Lemma evaluate_unique1 : answers_unique d1.
Proof.
  unfold answers_unique. simpl. rewrite evaluate_saved_rows, map_map.
  replace (map (fun x => answer_key (if same_answer answer x then answer1 else x))
             (answers (db w)))
    with (map answer_key (answers (db w))); [exact unique_answers|].
  apply map_ext. intros r. destruct (same_answer answer r) eqn:Hs; [|reflexivity].
  apply same_answer_key in Hs. rewrite <- Hs. reflexivity.
Qed.

Lemma evaluate_in1 : In answer1 (answers d1).
Proof.
  simpl. rewrite evaluate_saved_rows. apply in_map_iff. exists answer.
  rewrite (proj2 (same_answer_key answer answer) eq_refl). auto.
Qed.

(** The run of the view, step by step. *)
Lemma evaluate_runs :
  exists w',
    StaffEvaluateAnswerView.create grader attempt_id question_id score feedback env w
    = (Ok {| data := JDict [("success", JBool true);
                            ("message", JStr "Answer evaluated successfully")];
             status := 200 |}, w')
    /\ db w' = recomputed attempt t d1.
Proof.
  pose proof evaluate_attempt_id as Hid.
  assert (an_attempt answer = attempt_id) as Han
    by (injection answer_key_is as H _; exact H).
  unfold StaffEvaluateAnswerView.create. rewrite key_given.
  unfold bind at 1. unfold bind at 1. unfold convert_uuid at 1. rewrite key_read.
  unfold query at 1. rewrite evaluate_found.
  assert ((score <? 0) = false) as -> by (apply Z.ltb_ge; lia).
  assert ((q_points (an_question answer) <? score) = false) as -> by (apply Z.ltb_ge; lia).
  unfold bind at 1. unfold save_answer. simpl an_attempt. rewrite Han.
  rewrite (write_quiet env attempt_id quiet).
  set (w1 := {| db := _ |}).
  unfold bind at 1. unfold attempt_of at 1. unfold bind at 1. unfold query at 1.
  change (an_attempt answer1) with (an_attempt answer). rewrite Han.
  assert (head (List.filter (fun r => (ea_id r =? attempt_id)%N) (attempts (db w1)))
          = Some attempt) as -> by exact attempt_found.
  unfold ret at 1.
  destruct (calculate_exam_result_quiet env attempt_id quiet attempt t w1 Hid
              attempt_submitted) as (w' & Hrun & Hdb & _).
  { exact marks_fit. }
  { rewrite Hid. exact one_result. }
  unfold bind at 1. rewrite Hrun. exists w'. split; [reflexivity|exact Hdb].
Qed.

Lemma evaluate_stored :
  answers_for attempt_id qid (recomputed attempt t d1) = [graded answer1].
Proof.
  pose proof evaluate_attempt_id as Hid.
  injection answer_key_is as Han Hq.
  unfold answers_for. rewrite answers_recomputed, Hid.
  rewrite (grade_rows_of_attempt attempt_id d1 evaluate_unique1).
  assert (In (graded answer1)
            (map (fun r => if (an_attempt r =? attempt_id)%N then graded r else r)
               (answers d1))) as Hin.
  { apply in_map_iff. exists answer1. split; [|exact evaluate_in1].
    simpl an_attempt. rewrite Han, N.eqb_refl. reflexivity. }
  assert (NoDup (map answer_key
                   (map (fun r => if (an_attempt r =? attempt_id)%N then graded r else r)
                      (answers d1)))) as Hnd.
  { rewrite map_map.
    replace (map (fun x => answer_key (if (an_attempt x =? attempt_id)%N
                                       then graded x else x)) (answers d1))
      with (map answer_key (answers d1)); [exact evaluate_unique1|].
    apply map_ext. intros r. destruct (an_attempt r =? attempt_id)%N; [|reflexivity].
    rewrite answer_key_graded. reflexivity. }
  pose proof (answers_for_unique _ (graded answer1) Hnd Hin) as Hsel.
  rewrite an_attempt_graded in Hsel. simpl an_attempt in Hsel.
  assert (q_id (an_question (graded answer1)) = qid) as Hq1.
  { pose proof (answer_key_graded answer1) as Hk. unfold answer_key in Hk.
    injection Hk as _ Hk. rewrite Hk. exact Hq. }
  rewrite Hq1, Han in Hsel. exact Hsel.
Qed.

End Evaluate.



(** ** Generating the results of an exam *)

Lemma query_ok {A} (f : DB -> A) (env : Env) (w w' : World) (a : A) :
  query f env w = (Ok a, w') -> a = f (db w) /\ w' = w.
Proof. intros [= <- <-]. auto. Qed.

Lemma now_ok (env : Env) (w w' : World) (t : timestamp) :
  timezone_now env w = (Ok t, w') ->
  t = now_at env (ticks w) /\ db w' = db w /\ ticks w' = S (ticks w).
Proof. unfold timezone_now. intros [= <- <-]. auto. Qed.

(** Every pass of the loop of [finalize_results] counts its attempt once,
    as new or as updated. *)
Lemma finalize_loop_counts (l : list ExamAttempt) (env : Env) :
  forall (counts counts' : nat * nat) (w w' : World),
    for_fold l
      (fun counts attempt =>
         do had_result <- query (fun d => match results_of (ea_id attempt) d with
                                          | [] => false
                                          | _ => true
                                          end);
         do _ <- calculate_exam_result attempt;
         if had_result then ret (fst counts, S (snd counts))
         else ret (S (fst counts), snd counts))
      counts env w = (Ok counts', w') ->
    (fst counts' + snd counts' = fst counts + snd counts + length l)%nat.
Proof.
  induction l as [|a l IH]; intros counts counts' w w' Hrun; simpl in Hrun.
  - apply ret_ok in Hrun as [-> _]. simpl. lia.
  - apply bind_ok in Hrun as (c1 & w1 & Hbody & Hrun).
    apply IH in Hrun. rewrite Hrun. clear Hrun IH.
    apply bind_ok in Hbody as (had & w2 & _ & Hbody).
    apply bind_ok in Hbody as (r & w3 & _ & Hbody).
    destruct had; apply ret_ok in Hbody as [-> _]; simpl; lia.
Qed.

(** X18. Generating the results of an exam ([finalize_results]), with any
    clock and any storage errors. A response other than 200 means nothing
    was written. A response of 200 means that the exam is over or nobody is
    still sitting it, that every submitted or auto-submitted attempt of the
    exam was counted exactly once (as a new or as an updated result), and
    that the reported numbers of results needing grading and fully graded
    add up to the reported total. *)
Theorem finalize_results_counts_every_submission (env : Env) (w w' : World)
    (exam_id : uuid) (resp : Response) :
  StaffExamViewSet.finalize_results exam_id env w = (Ok resp, w') ->
  (status resp <> 200%nat -> db w' = db w)
  /\ (status resp = 200%nat ->
      exists exam new_results updated_results needs_grading fully total,
        head (List.filter (fun e => (e_id e =? exam_id)%N) (exams (db w))) = Some exam
        /\ (now_at env (ticks w) < e_end_time exam ->
            exam_attempts (e_id exam) [in_progress] (db w) = [])
        /\ response_field "newResults" resp = JInt (Z.of_nat new_results)
        /\ response_field "updatedResults" resp = JInt (Z.of_nat updated_results)
        /\ (new_results + updated_results
            = length (exam_attempts (e_id exam) [submitted; auto_submitted] (db w)))%nat
        /\ response_field "needsGrading" resp = JInt (Z.of_nat needs_grading)
        /\ response_field "fullyGraded" resp = JInt (Z.of_nat fully)
        /\ response_field "totalStudents" resp = JInt (Z.of_nat total)
        /\ (needs_grading + fully = total)%nat).
Proof.
  unfold StaffExamViewSet.finalize_results. intros Hrun.
  apply bind_ok in Hrun as (o & w0 & H0 & Hrun). apply query_ok in H0 as [-> ->].
  destruct (head _) as [exam|] eqn:Hexam.
  2:{ apply ret_ok in Hrun as [-> ->]. split; [reflexivity|]. simpl. discriminate. }
  apply bind_ok in Hrun as (now & w1 & H1 & Hrun).
  apply now_ok in H1 as (-> & Hdb1 & _).
  apply bind_ok in Hrun as (active & w2 & H2 & Hrun).
  assert (w2 = w1
          /\ (now_at env (ticks w) < e_end_time exam ->
              active = length (exam_attempts (e_id exam) [in_progress] (db w))))
    as [-> Hactive].
  { destruct (Z.ltb_spec (now_at env (ticks w)) (e_end_time exam)) as [Hlt|Hge].
    - apply query_ok in H2 as [-> ->]. rewrite Hdb1. auto.
    - apply ret_ok in H2 as [-> ->]. split; [reflexivity|]. lia. }
  clear H2.
  destruct (Nat.ltb_spec 0 active) as [Hpos|Hzero].
  { apply ret_ok in Hrun as [-> ->]. split; [intros _; exact Hdb1|].
    simpl. discriminate. }
  apply bind_ok in Hrun as (l & w3 & H3 & Hrun). apply query_ok in H3 as [-> ->].
  apply bind_ok in Hrun as (counts & w4 & H4 & Hrun).
  apply finalize_loop_counts in H4. simpl in H4.
  apply bind_ok in Hrun as (rs & w5 & H5 & Hrun). apply query_ok in H5 as [-> ->].
  apply ret_ok in Hrun as [-> ->].
  split; [simpl; intros H; contradiction H; reflexivity|]. intros _.
  set (rs := List.filter (fun r => (r_exam r =? e_id exam)%N) (results (db w4))).
  set (fully := length (List.filter
                          (fun r => bool_decide (r_grading_status r = fully_graded)) rs)).
  exists exam, (fst counts), (snd counts), (length rs - fully)%nat, fully, (length rs).
  split; [reflexivity|]. split.
  { intros Hlt. specialize (Hactive Hlt).
    destruct (exam_attempts (e_id exam) [in_progress] (db w)); [reflexivity|].
    simpl in Hactive. lia. }
  rewrite Hdb1 in H4.
  repeat split; try reflexivity; try exact H4.
  assert (fully <= length rs)%nat.
  { subst fully. clear. induction rs as [|r rs IH]; simpl; [lia|].
    destruct (bool_decide _); simpl; lia. }
  lia.
Qed.

(** While both students are sitting the exam the request is refused and
    the database stays as it was. *)
Lemma finalize_results_counts_every_submission_witness :
  db (snd (StaffExamViewSet.finalize_results 1 Sample.env_early
             (world_of Scenario.db_running)))
  = Scenario.db_running.
Proof.
  apply (proj1 (finalize_results_counts_every_submission Sample.env_early
                  (world_of Scenario.db_running)
                  (snd (StaffExamViewSet.finalize_results 1 Sample.env_early
                          (world_of Scenario.db_running)))
                  1
                  {| data := JDict
                       [("error", JStr "Cannot generate results: exam is still running with 2 active student(s). Wait until the exam ends.");
                        ("active_count", JInt 2)];
                     status := 400 |}
                  ltac:(vm_compute; reflexivity))).
  discriminate.
Defined.

(** In the essay scenario, ten minutes after the end: the one submitted
    attempt gets a new result, which still needs grading. *)
Example finalize_results_of_the_essay_exam :
  let resp := match fst (StaffExamViewSet.finalize_results 1 Scenario.env_late
                           (world_of Scenario.db_essay)) with
              | Ok resp => resp
              | Raise _ => error "" 500
              end in
  status resp = 200%nat
  /\ response_field "newResults" resp = JInt 1
  /\ response_field "updatedResults" resp = JInt 0
  /\ response_field "needsGrading" resp = JInt 1
  /\ response_field "fullyGraded" resp = JInt 0.
Proof. vm_compute. repeat split. Qed.

(** ** Starting an attempt *)

Lemma remaining_ok (a : ExamAttempt) (env : Env) (w w' : World) (r : Z) :
  get_attempt_remaining_time a env w = (Ok r, w') ->
  db w' = db w /\ ticks w' = S (ticks w)
  /\ r = if get_attempt_end_time a <? now_at env (ticks w) then 0
         else whole_seconds (get_attempt_end_time a - now_at env (ticks w)).
Proof.
  unfold get_attempt_remaining_time. intros H.
  apply bind_ok in H as (now & w1 & H1 & H). apply now_ok in H1 as (-> & Hdb & Ht).
  destruct (_ <? _); apply ret_ok in H as [-> ->]; auto.
Qed.

Lemma eligibility_ok (user : User) (exam : Exam) (env : Env) (w w' : World)
    (verdict : bool * string) :
  check_exam_eligibility user exam env w = (Ok verdict, w') ->
  db w' = db w /\ ticks w' = S (ticks w)
  /\ (fst verdict = true ->
      e_is_published exam = true
      /\ e_start_time exam <= now_at env (ticks w) <= e_end_time exam
      /\ is_department_allowed (u_department user) (e_allowed_departments exam) = true
      /\ attempts_of_pair (e_id exam) (u_id user) (db w) = []).
Proof.
  unfold check_exam_eligibility. intros H.
  apply bind_ok in H as (now & w1 & H1 & H). apply now_ok in H1 as (-> & Hdb & Ht).
  destruct (e_is_published exam); simpl in H;
    [|apply ret_ok in H as [-> ->]; repeat split; auto; discriminate].
  destruct (Z.ltb_spec (now_at env (ticks w)) (e_start_time exam));
    [apply ret_ok in H as [-> ->]; repeat split; auto; discriminate|].
  destruct (Z.ltb_spec (e_end_time exam) (now_at env (ticks w)));
    [apply ret_ok in H as [-> ->]; repeat split; auto; discriminate|].
  destruct (is_department_allowed _ _); simpl in H;
    [|apply ret_ok in H as [-> ->]; repeat split; auto; discriminate].
  apply bind_ok in H as (existing & w2 & H2 & H). apply query_ok in H2 as [-> ->].
  rewrite Hdb in H.
  destruct (attempts_of_pair _ _ (db w));
    apply ret_ok in H as [-> ->]; repeat split; auto; try lia; discriminate.
Qed.

Lemma create_answers_ok (attempt : ExamAttempt) (qs : list Question) (env : Env) :
  forall (w w' : World) (u : unit),
    for_each qs (create_answer attempt) env w = (Ok u, w') ->
    exams (db w') = exams (db w) /\ questions (db w') = questions (db w)
    /\ attempts (db w') = attempts (db w) /\ results (db w') = results (db w)
    /\ extensions (db w') = extensions (db w)
    /\ answers (db w') = (answers (db w) ++ map (unanswered (ea_id attempt)) qs)%list.
Proof.
  induction qs as [|q qs IH]; intros w w' u H; simpl in H.
  - apply ret_ok in H as [_ ->]. rewrite app_nil_r. repeat split; reflexivity.
  - apply bind_ok in H as (u1 & w1 & H1 & H).
    apply IH in H as (He & Hq & Ha & Hr & Hx & Hans).
    unfold create_answer in H1.
    apply bind_ok in H1 as (clash & w2 & H2 & H1). apply query_ok in H2 as [-> ->].
    destruct (existsb _ _); [discriminate H1|].
    apply write_ok in H1 as [Hdb _].
    rewrite He, Hq, Ha, Hr, Hx, Hans, Hdb. simpl.
    rewrite <- app_assoc. repeat split; reflexivity.
Qed.

(** X19. What a start request that is answered 201 has done, with any
    clock and any storage errors: the exam exists and is published, the
    clock read between its start and its end, the student's department is
    allowed and the student had no attempt of this exam; exactly one row was
    added to the attempts, in progress and without scores, and exactly one
    unanswered row ([{}], no score) was added per question of the exam;
    nothing else changed. *)
Theorem start_creates_one_blank_attempt (env : Env) (w w' : World) (user : User)
    (exam_id new_id : uuid) (resp : Response) :
  StudentStartExamView.create user exam_id new_id env w = (Ok resp, w') ->
  status resp = 201%nat ->
  exists exam,
    head (List.filter (fun e => (e_id e =? exam_id)%N) (exams (db w))) = Some exam
    /\ e_is_published exam = true
    /\ e_start_time exam <= now_at env (ticks w) <= e_end_time exam
    /\ is_department_allowed (u_department user) (e_allowed_departments exam) = true
    /\ attempts_of_pair (e_id exam) (u_id user) (db w) = []
    /\ attempts (db w')
       = new_attempt new_id exam (u_id user) (now_at env (S (ticks w)))
         :: attempts (db w)
    /\ answers (db w')
       = (answers (db w)
          ++ map (unanswered new_id) (questions_of (e_id exam) (db w)))%list
    /\ results (db w') = results (db w)
    /\ exams (db w') = exams (db w) /\ questions (db w') = questions (db w).
Proof.
  unfold StudentStartExamView.create. intros Hrun Hok.
  apply bind_ok in Hrun as (o & w0 & H0 & Hrun). apply query_ok in H0 as [-> ->].
  destruct (head _) as [exam|] eqn:Hexam;
    [|apply ret_ok in Hrun as [-> _]; discriminate Hok].
  exists exam. split; [reflexivity|].
  apply bind_ok in Hrun as (o & w0 & H0 & Hrun). apply query_ok in H0 as [-> ->].
  destruct (head (attempts_with (e_id exam) (u_id user) [in_progress] (db w)))
    as [existing|].
  { exfalso.
    apply bind_ok in Hrun as (remaining & w1 & _ & Hrun).
    apply bind_ok in Hrun as (expired & w2 & _ & Hrun).
    destruct expired.
    - apply bind_ok in Hrun as (now & w3 & _ & Hrun).
      apply bind_ok in Hrun as (u & w4 & _ & Hrun).
      apply bind_ok in Hrun as (r & w5 & _ & Hrun).
      apply ret_ok in Hrun as [-> _]. discriminate Hok.
    - apply ret_ok in Hrun as [-> _]. discriminate Hok. }
  apply bind_ok in Hrun as (o & w0 & H0 & Hrun). apply query_ok in H0 as [-> ->].
  destruct (head (attempts_with (e_id exam) (u_id user) [submitted; auto_submitted]
                    (db w)));
    [apply ret_ok in Hrun as [-> _]; discriminate Hok|].
  apply bind_ok in Hrun as (verdict & w1 & H1 & Hrun).
  apply eligibility_ok in H1 as (Hdb1 & Ht1 & Helig).
  destruct (fst verdict); simpl in Hrun;
    [|apply ret_ok in Hrun as [-> _]; discriminate Hok].
  destruct (Helig eq_refl) as (Hpub & Hwin & Hdept & Hnone).
  apply bind_ok in Hrun as (start_time & w2 & H2 & Hrun).
  apply now_ok in H2 as (-> & Hdb2 & Ht2).
  apply bind_ok in Hrun as (attempt & w3 & H3 & Hrun).
  unfold create_attempt in H3.
  apply bind_ok in H3 as (clash & w4 & H4 & H3). apply query_ok in H4 as [-> ->].
  destruct (existsb _ _); [discriminate H3|].
  apply bind_ok in H3 as (u & w5 & H5 & H3). apply ret_ok in H3 as [-> ->].
  apply write_ok in H5 as [Hdb3 _].
  apply bind_ok in Hrun as (remaining & w6 & H6 & Hrun).
  apply remaining_ok in H6 as (Hdb6 & _ & _).
  apply bind_ok in Hrun as (qs & w7 & H7 & Hrun). apply query_ok in H7 as [-> ->].
  apply bind_ok in Hrun as (u' & w8 & H8 & Hrun).
  apply ret_ok in Hrun as [_ ->].
  apply create_answers_ok in H8 as (He & Hq & Ha & Hr & Hx & Hans).
  rewrite He, Hq, Ha, Hr, Hans, Hdb6, Hdb3. simpl.
  rewrite Hdb2, Hdb1, Ht1.
  repeat split; try assumption; try reflexivity; apply Hwin.
Qed.

(** The second student of the fresh scenario starts ten minutes in. *)
Lemma start_creates_one_blank_attempt_witness :
  exists exam,
    head (List.filter (fun e => (e_id e =? 1)%N) (exams Scenario.db_fresh)) = Some exam
    /\ e_is_published exam = true
    /\ e_start_time exam <= Scenario.clock_from (minutes 10) 0 <= e_end_time exam
    /\ is_department_allowed (u_department Scenario.student2)
         (e_allowed_departments exam) = true
    /\ attempts_of_pair (e_id exam) 8 Scenario.db_fresh = []
    /\ attempts (db (snd (StudentStartExamView.create Scenario.student2 1 102
                            Sample.env_early (world_of Scenario.db_fresh))))
       = [new_attempt 102 exam 8 (Scenario.clock_from (minutes 10) 1)]
    /\ answers (db (snd (StudentStartExamView.create Scenario.student2 1 102
                           Sample.env_early (world_of Scenario.db_fresh))))
       = ([] ++ map (unanswered 102) (questions_of (e_id exam) Scenario.db_fresh))%list
    /\ results (db (snd (StudentStartExamView.create Scenario.student2 1 102
                           Sample.env_early (world_of Scenario.db_fresh))))
       = []
    /\ exams (db (snd (StudentStartExamView.create Scenario.student2 1 102
                         Sample.env_early (world_of Scenario.db_fresh))))
       = exams Scenario.db_fresh
    /\ questions (db (snd (StudentStartExamView.create Scenario.student2 1 102
                             Sample.env_early (world_of Scenario.db_fresh))))
       = questions Scenario.db_fresh.
Proof.
  apply (start_creates_one_blank_attempt Sample.env_early
           (world_of Scenario.db_fresh)
           (snd (StudentStartExamView.create Scenario.student2 1 102
                   Sample.env_early (world_of Scenario.db_fresh)))
           Scenario.student2 1 102
           {| data := JDict
                [("message", JStr "Exam attempt started");
                 ("attempt_id", JInt 102); ("attemptId", JInt 102);
                 ("startTime", JInt (minutes 10 + 1));
                 ("endTime", JInt (minutes 60));
                 ("time_remaining_seconds", JInt 2999)];
              status := 201 |}).
  - vm_compute. reflexivity.
  - reflexivity.
Defined.

(** X20. A start request that is answered 200, 404 or 409 has written
    nothing. A 200 resumes the student's attempt that is in progress and
    still has time: the clock read at most the end of the exam, and the
    response reports the whole seconds up to that end; a 409 tells that the
    student has a submitted or auto-submitted attempt of the exam and none in
    progress. This holds with any clock and any storage errors. *)
Theorem start_resumes_without_writing (env : Env) (w w' : World) (user : User)
    (exam_id new_id : uuid) (resp : Response) :
  StudentStartExamView.create user exam_id new_id env w = (Ok resp, w') ->
  (status resp = 200%nat \/ status resp = 404%nat \/ status resp = 409%nat ->
   db w' = db w)
  /\ (status resp = 200%nat ->
      exists exam existing,
        head (List.filter (fun e => (e_id e =? exam_id)%N) (exams (db w))) = Some exam
        /\ head (attempts_with (e_id exam) (u_id user) [in_progress] (db w))
           = Some existing
        /\ now_at env (ticks w) <= get_attempt_end_time existing
        /\ response_field "attempt_id" resp = JInt (Z.of_N (ea_id existing))
        /\ response_field "time_remaining_seconds" resp
           = JInt (whole_seconds (get_attempt_end_time existing
                                  - now_at env (ticks w))))
  /\ (status resp = 409%nat ->
      exists exam done,
        head (List.filter (fun e => (e_id e =? exam_id)%N) (exams (db w))) = Some exam
        /\ attempts_with (e_id exam) (u_id user) [in_progress] (db w) = []
        /\ head (attempts_with (e_id exam) (u_id user) [submitted; auto_submitted]
                   (db w)) = Some done).
Proof.
  unfold StudentStartExamView.create. intros Hrun.
  apply bind_ok in Hrun as (o & w0 & H0 & Hrun). apply query_ok in H0 as [-> ->].
  destruct (head _) as [exam|] eqn:Hexam.
  2:{ apply ret_ok in Hrun as [-> ->].
      split; [reflexivity|]. split; simpl; discriminate. }
  apply bind_ok in Hrun as (o & w0 & H0 & Hrun). apply query_ok in H0 as [-> ->].
  destruct (head (attempts_with _ _ [in_progress] _)) as [existing|] eqn:Hexisting.
  - apply bind_ok in Hrun as (remaining & w1 & H1 & Hrun).
    apply remaining_ok in H1 as (Hdb1 & Ht1 & Hrem).
    apply bind_ok in Hrun as (expired & w2 & H2 & Hrun).
    assert (db w2 = db w /\ (expired = false -> 0 < remaining)) as [Hdb2 Hleft].
    { destruct (Z.leb_spec remaining 0).
      - apply ret_ok in H2 as [-> ->]. split; [exact Hdb1|discriminate].
      - apply bind_ok in H2 as (now & w3 & H3 & H2).
        apply now_ok in H3 as (_ & Hdb3 & _). apply ret_ok in H2 as [_ ->].
        split; [congruence|auto]. }
    destruct expired.
    + apply bind_ok in Hrun as (now & w3 & _ & Hrun).
      apply bind_ok in Hrun as (u & w4 & _ & Hrun).
      apply bind_ok in Hrun as (r & w5 & _ & Hrun).
      apply ret_ok in Hrun as [-> _]. simpl.
      split; [intros [H|[H|H]]; discriminate H|]. split; discriminate.
    + apply ret_ok in Hrun as [-> ->]. specialize (Hleft eq_refl).
      split; [intros _; exact Hdb2|]. split; [|simpl; discriminate].
      intros _. exists exam, existing.
      destruct (Z.ltb_spec (get_attempt_end_time existing) (now_at env (ticks w)))
        as [Hlate|Hin]; [lia|].
      repeat split; try reflexivity; try assumption.
      simpl. rewrite Hrem. reflexivity.
  - apply bind_ok in Hrun as (o & w0 & H0 & Hrun). apply query_ok in H0 as [-> ->].
    destruct (head (attempts_with _ _ [submitted; auto_submitted] _)) as [done|]
      eqn:Hdone.
    + apply ret_ok in Hrun as [-> ->].
      split; [reflexivity|]. split; [simpl; discriminate|].
      intros _. exists exam, done. repeat split; try reflexivity; [|exact Hdone].
      revert Hexisting.
      destruct (attempts_with _ _ [in_progress] _); [reflexivity|discriminate].
    + apply bind_ok in Hrun as (verdict & w1 & H1 & Hrun).
      destruct (negb (fst verdict)).
      * apply ret_ok in Hrun as [-> _]. simpl.
        split; [intros [H|[H|H]]; discriminate H|]. split; discriminate.
      * apply bind_ok in Hrun as (start_time & w2 & _ & Hrun).
        apply bind_ok in Hrun as (attempt & w3 & _ & Hrun).
        apply bind_ok in Hrun as (remaining & w6 & _ & Hrun).
        apply bind_ok in Hrun as (qs & w7 & _ & Hrun).
        apply bind_ok in Hrun as (u' & w8 & _ & Hrun).
        apply ret_ok in Hrun as [-> _]. simpl.
        split; [intros [H|[H|H]]; discriminate H|]. split; discriminate.
Qed.

(** The first student of the running scenario comes back ten minutes in. *)
Lemma start_resumes_without_writing_witness :
  db (snd (StudentStartExamView.create Scenario.student 1 102 Sample.env_early
             (world_of Scenario.db_running)))
  = Scenario.db_running.
Proof.
  apply (proj1 (start_resumes_without_writing Sample.env_early
                  (world_of Scenario.db_running)
                  (snd (StudentStartExamView.create Scenario.student 1 102
                          Sample.env_early (world_of Scenario.db_running)))
                  Scenario.student 1 102
                  {| data := JDict
                       [("message", JStr "Exam resumed");
                        ("attempt_id", JInt 100); ("attemptId", JInt 100);
                        ("startTime", JInt (minutes 5));
                        ("endTime", JInt (minutes 60));
                        ("time_remaining_seconds", JInt 3000)];
                     status := 200 |}
                  ltac:(vm_compute; reflexivity))).
  left. reflexivity.
Defined.

(** ** The list of exams a student sees *)

(** Selecting rows by the keys of a sublist selects that sublist. *)
Lemma filter_by_keys {A} (key : A -> N) (p : A -> bool) (l : list A) (a : A) :
  NoDup (map key l) -> In a l ->
  existsb (N.eqb (key a)) (map key (List.filter p l)) = p a.
Proof.
  intros Hnd Hin. destruct (p a) eqn:Hp.
  - apply existsb_exists. exists (key a). split; [|apply N.eqb_refl].
    apply in_map, filter_In. auto.
  - apply not_true_iff_false. intros Hex.
    apply existsb_exists in Hex as (k & Hk & He). apply N.eqb_eq in He. subst k.
    apply in_map_iff in Hk as (b & Hkey & Hb). apply filter_In in Hb as [Hb Hpb].
    assert (b = a) as -> by (apply (NoDup_key_eq key l); assumption).
    congruence.
Qed.

Lemma in_allowed_exams (user : User) (exams : list Exam) (e : Exam) :
  NoDup (map e_id exams) ->
  In e match map e_id (List.filter (allowed_for user) exams) with
       | [] => []
       | _ => List.filter
                (fun exam => existsb (N.eqb (e_id exam))
                               (map e_id (List.filter (allowed_for user) exams)))
                exams
       end
  <-> In e exams /\ allowed_for user e = true.
Proof.
  intros Hnd.
  destruct (map e_id (List.filter (allowed_for user) exams)) as [|k ks] eqn:Hids.
  - split; [intros []|]. intros [Hin Hal].
    assert (In (e_id e) (map e_id (List.filter (allowed_for user) exams))) as Hk
      by (apply in_map, filter_In; auto).
    rewrite Hids in Hk. exact Hk.
  - rewrite <- Hids, filter_In. split.
    + intros [Hin Hex]. rewrite (filter_by_keys e_id _ exams e Hnd Hin) in Hex. auto.
    + intros [Hin Hal]. rewrite (filter_by_keys e_id _ exams e Hnd Hin). auto.
Qed.

Lemma get_queryset_ok (user : User) (status_filter : option string) (env : Env)
    (w w' : World) (l : list Exam) :
  exams_pk (db w) ->
  StudentExamListView.get_queryset user status_filter env w = (Ok l, w') ->
  forall e,
    In e l <-> In e (exams (db w)) /\ e_is_published e = true
               /\ allowed_for user e = true
               /\ match status_filter with
                  | Some phase => in_phase phase (now_at env (ticks w)) e = true
                  | None => True
                  end.
Proof.
  intros Hpk Hrun e. unfold StudentExamListView.get_queryset in Hrun.
  apply bind_ok in Hrun as (now & w1 & H1 & Hrun). apply now_ok in H1 as (-> & Hdb1 & _).
  apply bind_ok in Hrun as (published & w2 & H2 & Hrun).
  apply query_ok in H2 as [-> ->]. rewrite Hdb1 in Hrun.
  assert (NoDup (map e_id (List.filter e_is_published (exams (db w))))) as Hnd
    by (apply NoDup_map_filter, Hpk).
  pose proof (in_allowed_exams user _ e Hnd) as Hin. rewrite filter_In in Hin.
  set (allowed := match map e_id _ with [] => [] | _ => _ end) in *.
  assert (forall cond : Exam -> bool,
            In e (List.filter cond allowed)
            <-> In e (exams (db w)) /\ e_is_published e = true
                /\ allowed_for user e = true /\ cond e = true) as Hcond.
  { intros cond. rewrite filter_In, Hin. tauto. }
  destruct status_filter as [phase|].
  - unfold in_phase.
    destruct (String.eqb_spec phase "upcoming") as [->|Hu].
    { rewrite bool_decide_eq_true_2 in Hrun by reflexivity.
      apply ret_ok in Hrun as [-> _]. apply Hcond. }
    rewrite bool_decide_eq_false_2 in Hrun by congruence.
    destruct (String.eqb_spec phase "ongoing") as [->|Ho].
    { rewrite bool_decide_eq_true_2 in Hrun by reflexivity.
      apply ret_ok in Hrun as [-> _]. apply Hcond. }
    rewrite bool_decide_eq_false_2 in Hrun by congruence.
    destruct (String.eqb_spec phase "completed") as [->|Hc].
    { rewrite bool_decide_eq_true_2 in Hrun by reflexivity.
      apply ret_ok in Hrun as [-> _]. apply Hcond. }
    rewrite bool_decide_eq_false_2 in Hrun by congruence.
    apply ret_ok in Hrun as [-> _]. rewrite Hin. tauto.
  - rewrite !bool_decide_eq_false_2 in Hrun by discriminate.
    apply ret_ok in Hrun as [-> _]. rewrite Hin. tauto.
Qed.

Lemma get_status_ok (exam : Exam) (env : Env) (w w' : World) (label : string) :
  ExamListSerializer.get_status exam env w = (Ok label, w') ->
  label = if now_at env (ticks w) <? e_start_time exam then "upcoming"
          else if e_end_time exam <? now_at env (ticks w) then "completed"
          else "ongoing".
Proof.
  unfold ExamListSerializer.get_status. intros H.
  apply bind_ok in H as (now & w1 & H1 & H). apply now_ok in H1 as (-> & _ & _).
  destruct (_ <? _); [|destruct (_ <? _)]; apply ret_ok in H as [-> _]; reflexivity.
Qed.

(** X21. The list of exams and the label of an exam agree. For an exam whose
    times passed [ExamCreateUpdateSerializer.validate] (its start lies before
    its end), at one clock reading: the exam is in the list a student gets
    for the status upcoming, ongoing or completed exactly when it is
    published, open to the student's department and labelled with that status
    by [get_status]. Hence every such exam is in exactly one of the three
    lists. *)
Theorem exam_list_agrees_with_status_label (env : Env) (w w1 w2 w3 : World)
    (user : User) (exam : Exam) (phase label : string) (l : list Exam)
    (times : timestamp * timestamp) :
  ExamCreateUpdateSerializer.validate (e_start_time exam) (e_end_time exam) env w
  = (Ok times, w1) ->
  exams_pk (db w) -> In exam (exams (db w)) ->
  In phase ["upcoming"; "ongoing"; "completed"] ->
  StudentExamListView.get_queryset user (Some phase) env w = (Ok l, w2) ->
  ExamListSerializer.get_status exam env w = (Ok label, w3) ->
  (In exam l <-> e_is_published exam = true /\ allowed_for user exam = true
                 /\ label = phase).
Proof.
  intros Hvalid Hpk Hin Hphase Hlist Hlabel.
  unfold ExamCreateUpdateSerializer.validate in Hvalid.
  destruct (Z.leb_spec (e_end_time exam) (e_start_time exam)) as [|Hlt];
    [discriminate Hvalid|]. clear Hvalid.
  rewrite (get_queryset_ok user (Some phase) env w w2 l Hpk Hlist exam).
  apply get_status_ok in Hlabel. subst label.
  assert (in_phase phase (now_at env (ticks w)) exam = true
          <-> (if now_at env (ticks w) <? e_start_time exam then "upcoming"
               else if e_end_time exam <? now_at env (ticks w) then "completed"
               else "ongoing") = phase) as Hiff.
  { unfold in_phase. simpl in Hphase.
    destruct Hphase as [<-|[<-|[<-|[]]]]; simpl;
      destruct (Z.ltb_spec (now_at env (ticks w)) (e_start_time exam));
      destruct (Z.ltb_spec (e_end_time exam) (now_at env (ticks w)));
      try rewrite andb_true_iff; try rewrite !Z.leb_le;
      split; intros; try discriminate; try reflexivity; lia. }
  tauto.
Qed.

Lemma exam_list_agrees_with_status_label_witness :
  In Scenario.exam
    (match fst (StudentExamListView.get_queryset Scenario.student (Some "ongoing")
                  Sample.env_early (world_of Scenario.db_fresh)) with
     | Ok l => l
     | Raise _ => []
     end)
  <-> e_is_published Scenario.exam = true
      /\ allowed_for Scenario.student Scenario.exam = true
      /\ "ongoing" = "ongoing".
Proof.
  eapply (exam_list_agrees_with_status_label Sample.env_early
            (world_of Scenario.db_fresh) _ _ _ Scenario.student Scenario.exam
            "ongoing" "ongoing").
  - vm_compute. reflexivity.
  - apply NoDup_by_decide. vm_compute. reflexivity.
  - simpl. auto.
  - simpl. auto.
  - vm_compute. reflexivity.
  - vm_compute. reflexivity.
Defined.

(** X22. The list of ongoing exams, the eligibility check and the
    [has_attempted] flag agree, at one clock reading and with distinct exam
    keys: an exam of the table that the student is eligible to start is in
    the student's list of ongoing exams, and an exam of that list the student
    is not eligible for is flagged as attempted and refused for that
    reason. *)
Theorem ongoing_list_matches_eligibility (env : Env) (w w1 w2 w3 : World)
    (user : User) (exam : Exam) (l : list Exam) (verdict : bool * string)
    (attempted : bool) :
  exams_pk (db w) -> In exam (exams (db w)) ->
  StudentExamListView.get_queryset user (Some "ongoing") env w = (Ok l, w1) ->
  check_exam_eligibility user exam env w = (Ok verdict, w2) ->
  ExamListSerializer.get_has_attempted user exam env w = (Ok attempted, w3) ->
  (fst verdict = true -> In exam l /\ attempted = false)
  /\ (In exam l -> fst verdict = false ->
      attempted = true /\ snd verdict = "You have already attempted this exam").
Proof.
  intros Hpk Hin Hlist Helig Hflag.
  pose proof (get_queryset_ok user (Some "ongoing") env w w1 l Hpk Hlist exam) as Hl.
  unfold in_phase in Hl. simpl in Hl. rewrite andb_true_iff, !Z.leb_le in Hl.
  unfold ExamListSerializer.get_has_attempted in Hflag.
  apply bind_ok in Hflag as (existing & w4 & H4 & Hflag).
  apply query_ok in H4 as [-> ->]. apply ret_ok in Hflag as [-> _].
  split.
  - intros Hok. apply eligibility_ok in Helig as (_ & _ & Hcond).
    destruct (Hcond Hok) as (Hpub & Hwin & Hdept & Hnone).
    split; [|rewrite Hnone; reflexivity].
    apply Hl. repeat split; try assumption; apply Hwin.
  - intros Hlisted Hno. apply Hl in Hlisted as (_ & Hpub & Hdept & Hs & He).
    unfold check_exam_eligibility in Helig.
    apply bind_ok in Helig as (now & w5 & H5 & Helig).
    apply now_ok in H5 as (-> & Hdb5 & _).
    rewrite Hpub in Helig. simpl in Helig.
    destruct (Z.ltb_spec (now_at env (ticks w)) (e_start_time exam)); [lia|].
    destruct (Z.ltb_spec (e_end_time exam) (now_at env (ticks w))); [lia|].
    unfold allowed_for in Hdept. rewrite Hdept in Helig. simpl in Helig.
    apply bind_ok in Helig as (existing & w6 & H6 & Helig).
    apply query_ok in H6 as [-> ->]. rewrite Hdb5 in Helig.
    destruct (attempts_of_pair _ _ (db w)).
    + apply ret_ok in Helig as [-> _]. discriminate Hno.
    + apply ret_ok in Helig as [-> _]. split; reflexivity.
Qed.

(** The first student of the running scenario sees the exam as ongoing but
    has already started it. *)
Lemma ongoing_list_matches_eligibility_witness :
  true = true
  /\ snd (false, "You have already attempted this exam")
     = "You have already attempted this exam".
Proof.
  apply (proj2 (ongoing_list_matches_eligibility Sample.env_early
                  (world_of Scenario.db_running)
                  (snd (StudentExamListView.get_queryset Scenario.student
                          (Some "ongoing") Sample.env_early
                          (world_of Scenario.db_running)))
                  (snd (check_exam_eligibility Scenario.student Scenario.exam
                          Sample.env_early (world_of Scenario.db_running)))
                  (world_of Scenario.db_running)
                  Scenario.student Scenario.exam [Scenario.exam]
                  (false, "You have already attempted this exam") true
                  ltac:(apply NoDup_by_decide; vm_compute; reflexivity)
                  ltac:(simpl; auto)
                  ltac:(vm_compute; reflexivity)
                  ltac:(vm_compute; reflexivity)
                  ltac:(vm_compute; reflexivity))).
  - simpl. auto.
  - reflexivity.
Defined.

(** ** The detail of an exam *)

Lemma remaining_time_ok (exam : Exam) (env : Env) (w w' : World) (r : option Z) :
  ExamDetailSerializer.get_remaining_time exam env w = (Ok r, w') ->
  r = if now_at env (ticks w) <? e_start_time exam then None
      else if e_end_time exam <? now_at env (ticks w) then Some 0
      else Some (whole_seconds (e_end_time exam - now_at env (ticks w))).
Proof.
  unfold ExamDetailSerializer.get_remaining_time. intros H.
  apply bind_ok in H as (now & w1 & H1 & H). apply now_ok in H1 as (-> & _ & _).
  destruct (_ <? _); [|destruct (_ <? _)]; apply ret_ok in H as [-> _]; reflexivity.
Qed.

(** X23. The remaining time the detail of an exam reports fits the label of
    the exam and the helper the attempt views use, at one clock reading: it
    is absent exactly when the exam is labelled upcoming, and otherwise it is
    the value [get_attempt_remaining_time] gives for every attempt of the
    exam, which is 0 when the exam is labelled completed. *)
Theorem detail_remaining_time_is_consistent (env : Env) (w w1 w2 w3 : World)
    (attempt : ExamAttempt) (label : string) (r : option Z) (h : Z) :
  ExamListSerializer.get_status (ea_exam attempt) env w = (Ok label, w1) ->
  ExamDetailSerializer.get_remaining_time (ea_exam attempt) env w = (Ok r, w2) ->
  get_attempt_remaining_time attempt env w = (Ok h, w3) ->
  (r = None <-> label = "upcoming")
  /\ (label <> "upcoming" -> r = Some h)
  /\ (label = "completed" -> r = Some 0).
Proof.
  intros Hlabel Hr Hh.
  apply get_status_ok in Hlabel. apply remaining_time_ok in Hr.
  apply remaining_ok in Hh as (_ & _ & Hh). unfold get_attempt_end_time in Hh.
  subst label r h.
  destruct (Z.ltb_spec (now_at env (ticks w)) (e_start_time (ea_exam attempt)));
    destruct (Z.ltb_spec (e_end_time (ea_exam attempt)) (now_at env (ticks w)));
    repeat split; intros; try reflexivity; try discriminate; try congruence.
Qed.

Lemma detail_remaining_time_is_consistent_witness :
  (Some 3000 = None <-> "ongoing" = "upcoming")
  /\ ("ongoing" <> "upcoming" -> Some 3000 = Some 3000)
  /\ ("ongoing" = "completed" -> Some 3000 = Some 0).
Proof.
  apply (detail_remaining_time_is_consistent Sample.env_early
           (world_of Scenario.db_running)
           (snd (ExamListSerializer.get_status Scenario.exam Sample.env_early
                   (world_of Scenario.db_running)))
           (snd (ExamDetailSerializer.get_remaining_time Scenario.exam
                   Sample.env_early (world_of Scenario.db_running)))
           (snd (get_attempt_remaining_time
                   (Scenario.attempt 100 Scenario.student) Sample.env_early
                   (world_of Scenario.db_running)))
           (Scenario.attempt 100 Scenario.student) "ongoing" (Some 3000) 3000).
  - vm_compute. reflexivity.
  - vm_compute. reflexivity.
  - vm_compute. reflexivity.
Defined.

Lemma detail_queryset_ok (user : User) (env : Env) (w w' : World) (l : list Exam) :
  exams_pk (db w) ->
  StudentExamDetailView.get_queryset user env w = (Ok l, w') ->
  forall e,
    In e l <-> In e (exams (db w)) /\ e_is_published e = true
               /\ now_at env (ticks w) <= e_end_time e
               /\ allowed_for user e = true.
Proof.
  intros Hpk Hrun e. unfold StudentExamDetailView.get_queryset in Hrun.
  apply bind_ok in Hrun as (now & w1 & H1 & Hrun). apply now_ok in H1 as (-> & Hdb1 & _).
  apply bind_ok in Hrun as (open & w2 & H2 & Hrun).
  apply query_ok in H2 as [-> ->]. rewrite Hdb1 in Hrun.
  match type of Hrun with context [List.filter ?p (exams (db w))] =>
    set (visible := List.filter p (exams (db w))) in * end.
  assert (NoDup (map e_id visible)) as Hnd by (apply NoDup_map_filter, Hpk).
  pose proof (in_allowed_exams user visible e Hnd) as Hin.
  assert (l = match map e_id (List.filter (allowed_for user) visible) with
              | [] => []
              | _ => List.filter
                       (fun exam => existsb (N.eqb (e_id exam))
                                      (map e_id (List.filter (allowed_for user) visible)))
                       visible
              end) as ->.
  { destruct (map e_id (List.filter (allowed_for user) visible));
      apply ret_ok in Hrun as [-> _]; reflexivity. }
  rewrite Hin. subst visible. rewrite filter_In, andb_true_iff, Z.leb_le. tauto.
Qed.

(** X24. The detail view serves exactly the published exams open to the
    student's department that have not ended. So, at one clock reading and
    with distinct exam keys, every exam of the student's list of upcoming or
    of ongoing exams whose start lies before its end can be retrieved, and no
    exam of the list of completed exams can. *)
Theorem detail_serves_listed_exams_until_their_end (env : Env) (w w1 w2 : World)
    (user : User) (exam : Exam) (phase : string) (listed served : list Exam) :
  exams_pk (db w) ->
  e_start_time exam < e_end_time exam ->
  StudentExamListView.get_queryset user (Some phase) env w = (Ok listed, w1) ->
  StudentExamDetailView.get_queryset user env w = (Ok served, w2) ->
  In exam listed ->
  (phase = "upcoming" \/ phase = "ongoing" -> In exam served)
  /\ (phase = "completed" -> ~ In exam served).
Proof.
  intros Hpk Htimes Hlist Hdetail Hin.
  apply (get_queryset_ok user (Some phase) env w w1 listed Hpk Hlist exam) in Hin
    as (Hin & Hpub & Hal & Hph).
  rewrite (detail_queryset_ok user env w w2 served Hpk Hdetail exam).
  unfold in_phase in Hph. split.
  - intros [->| ->]; simpl in Hph.
    + apply Z.ltb_lt in Hph. repeat split; try assumption. lia.
    + apply andb_true_iff in Hph as [_ Hph]. apply Z.leb_le in Hph.
      repeat split; assumption.
  - intros ->. simpl in Hph. apply Z.ltb_lt in Hph. intros (_ & _ & Hend & _). lia.
Qed.

Lemma detail_serves_listed_exams_until_their_end_witness :
  ("ongoing" = "upcoming" \/ "ongoing" = "ongoing" ->
   In Scenario.exam [Scenario.exam])
  /\ ("ongoing" = "completed" -> ~ In Scenario.exam [Scenario.exam]).
Proof.
  apply (detail_serves_listed_exams_until_their_end Sample.env_early
           (world_of Scenario.db_running)
           (snd (StudentExamListView.get_queryset Scenario.student (Some "ongoing")
                   Sample.env_early (world_of Scenario.db_running)))
           (snd (StudentExamDetailView.get_queryset Scenario.student
                   Sample.env_early (world_of Scenario.db_running)))
           Scenario.student Scenario.exam "ongoing" [Scenario.exam] [Scenario.exam]).
  - apply NoDup_by_decide. vm_compute. reflexivity.
  - vm_compute. reflexivity.
  - vm_compute. reflexivity.
  - vm_compute. reflexivity.
  - simpl. auto.
Defined.

(** ** Publishing the results of an exam *)

Lemma eq_text_true (v : json) (s : string) : eq_text v s = true <-> v = JStr s.
Proof.
  destruct v; simpl; try (split; [discriminate|intros H; discriminate H]).
  rewrite String.eqb_eq. split; [intros ->; reflexivity|intros [= ->]; reflexivity].
Qed.

Lemma update_published_ok (exam_id : uuid) (b : bool) (env : Env) (w w' : World)
    (u : unit) :
  update_published exam_id b env w = (Ok u, w') ->
  (forall r, In r (exam_results exam_id (db w')) -> r_is_published r = b)
  /\ map (fun r => with_published r b) (exam_results exam_id (db w))
     = exam_results exam_id (db w')
  /\ (forall other, other <> exam_id ->
        exam_results other (db w') = exam_results other (db w))
  /\ attempts (db w') = attempts (db w) /\ answers (db w') = answers (db w)
  /\ exams (db w') = exams (db w) /\ questions (db w') = questions (db w).
Proof.
  unfold update_published. intros H. apply write_ok in H as [Hdb _]. rewrite Hdb.
  simpl. unfold exam_results. simpl.
  assert (List.filter (fun r => (r_exam r =? exam_id)%N)
            (map (fun r => if (r_exam r =? exam_id)%N then with_published r b else r)
               (results (db w)))
          = map (fun r => with_published r b)
              (List.filter (fun r => (r_exam r =? exam_id)%N) (results (db w)))) as Hsel.
  { induction (results (db w)) as [|r rows IH]; simpl; [reflexivity|].
    destruct (r_exam r =? exam_id)%N eqn:Hr; simpl; rewrite Hr; simpl; rewrite IH;
      reflexivity. }
  split; [|split; [|split]].
  - intros r Hr. rewrite Hsel in Hr. apply in_map_iff in Hr as (r0 & <- & _).
    reflexivity.
  - symmetry. exact Hsel.
  - intros other Hne. apply filter_map_frame.
    + intros r. destruct (r_exam r =? exam_id)%N; reflexivity.
    + intros r Hr. apply N.eqb_eq in Hr.
      destruct (N.eqb_spec (r_exam r) exam_id); [congruence|reflexivity].
  - repeat split; reflexivity.
Qed.

(** X25. Publishing all results of an exam, with any clock and any storage
    errors. A response other than 200 means nothing was written. A response
    of 200 means that the user created the exam or is an admin and that the
    action was publish or unpublish; after publish every result of the exam
    is published and fully graded (the request is refused while a result of
    the exam is not fully graded), after unpublish none is published; the
    results of the other exams, the attempts and the answers are as
    before. *)
Theorem bulk_publish_only_fully_graded (created_by : Exam -> uuid) (env : Env)
    (w w' : World) (user : Staff) (exam_id : uuid) (action : json)
    (resp : Response) :
  StaffBulkPublishResultsView.create created_by user exam_id action env w
  = (Ok resp, w') ->
  (status resp <> 200%nat -> db w' = db w)
  /\ (status resp = 200%nat ->
      exists exam,
        head (List.filter (fun e => (e_id e =? exam_id)%N) (exams (db w))) = Some exam
        /\ (created_by exam = st_id user \/ st_role user = "admin")
        /\ (action = JStr "publish"
            /\ (forall r, In r (exam_results (e_id exam) (db w')) ->
                  r_is_published r = true /\ r_grading_status r = fully_graded)
            \/ action = JStr "unpublish"
               /\ (forall r, In r (exam_results (e_id exam) (db w')) ->
                     r_is_published r = false))
        /\ (forall other, other <> e_id exam ->
              exam_results other (db w') = exam_results other (db w))
        /\ attempts (db w') = attempts (db w) /\ answers (db w') = answers (db w)).
Proof.
  unfold StaffBulkPublishResultsView.create. intros Hrun.
  apply bind_ok in Hrun as (o & w0 & H0 & Hrun). apply query_ok in H0 as [-> ->].
  destruct (head _) as [exam|] eqn:Hexam.
  2:{ apply ret_ok in Hrun as [-> ->]. split; [reflexivity|]. simpl. discriminate. }
  destruct (permission_denied created_by user exam) eqn:Hperm.
  { apply ret_ok in Hrun as [-> ->]. split; [reflexivity|]. simpl. discriminate. }
  assert (created_by exam = st_id user \/ st_role user = "admin") as Hallowed.
  { unfold permission_denied in Hperm. apply andb_false_iff in Hperm as [H|H];
      apply negb_false_iff in H; [left; apply N.eqb_eq, H|right; apply String.eqb_eq, H]. }
  destruct (eq_text action "publish") eqn:Hpub.
  - apply eq_text_true in Hpub.
    apply bind_ok in Hrun as (rs & w1 & H1 & Hrun). apply query_ok in H1 as [-> ->].
    destruct (Nat.ltb_spec 0 (length (List.filter (fun r => negb (is_fully_graded r))
                                        (exam_results (e_id exam) (db w)))))
      as [Hsome|Hnone].
    { apply ret_ok in Hrun as [-> ->]. split; [reflexivity|]. simpl. discriminate. }
    apply bind_ok in Hrun as (u & w2 & H2 & Hrun). apply ret_ok in Hrun as [-> ->].
    split; [simpl; intros H; contradiction H; reflexivity|]. intros _.
    apply update_published_ok in H2 as (Hflag & Hrows & Hother & Hatt & Hans & _).
    exists exam. repeat split; try assumption.
    left. split; [exact Hpub|]. intros r Hr. split; [apply Hflag, Hr|].
    rewrite <- Hrows in Hr. apply in_map_iff in Hr as (r0 & <- & Hr0). simpl.
    destruct (is_fully_graded r0) eqn:Hg.
    + apply bool_decide_eq_true in Hg. exact Hg.
    + exfalso.
      assert (In r0 (List.filter (fun r => negb (is_fully_graded r))
                       (exam_results (e_id exam) (db w)))) as Hin
        by (apply filter_In; rewrite Hg; auto).
      assert (forall (l : list Result) x, In x l -> (0 < length l)%nat) as Hpos
        by (intros [|? ?] x Hx; simpl; [contradiction|lia]).
      apply Hpos in Hin. lia.
  - destruct (eq_text action "unpublish") eqn:Hun.
    + apply eq_text_true in Hun.
      apply bind_ok in Hrun as (u & w2 & H2 & Hrun). apply ret_ok in Hrun as [-> ->].
      split; [simpl; intros H; contradiction H; reflexivity|]. intros _.
      apply update_published_ok in H2 as (Hflag & Hrows & Hother & Hatt & Hans & _).
      exists exam. repeat split; try assumption.
      right. split; [exact Hun|exact Hflag].
    + apply ret_ok in Hrun as [-> ->]. split; [reflexivity|]. simpl. discriminate.
Qed.

(** In the essay scenario the one result still needs grading: publishing is
    refused and nothing changes. *)
Lemma bulk_publish_only_fully_graded_witness :
  db (snd (StaffBulkPublishResultsView.create (fun _ => 9%N)
             {| st_id := 9; st_role := "staff" |} 1 (JStr "publish")
             Scenario.env_late (world_of Sample.db_essay_pending)))
  = Sample.db_essay_pending.
Proof.
  apply (proj1 (bulk_publish_only_fully_graded (fun _ => 9%N) Scenario.env_late
                  (world_of Sample.db_essay_pending)
                  (snd (StaffBulkPublishResultsView.create (fun _ => 9%N)
                          {| st_id := 9; st_role := "staff" |} 1 (JStr "publish")
                          Scenario.env_late (world_of Sample.db_essay_pending)))
                  {| st_id := 9; st_role := "staff" |} 1 (JStr "publish")
                  {| data := JDict
                       [("error", JStr "Cannot publish: 1 student(s) still need grading. Please grade all students before publishing.");
                        ("ungraded_count", JInt 1)];
                     status := 400 |}
                  ltac:(vm_compute; reflexivity))).
  discriminate.
Defined.

(** Once the essay is graded the same request publishes the result. *)
Example bulk_publish_after_grading :
  let w1 := snd (StaffEvaluateAnswerView.create 9 100 (JInt 3) 700 "Good"
                   Scenario.env_late (world_of Sample.db_essay_pending)) in
  let w2 := snd (StaffBulkPublishResultsView.create (fun _ => 9%N)
                   {| st_id := 9; st_role := "staff" |} 1 (JStr "publish")
                   Scenario.env_late w1) in
  map (fun r => (r_status r, r_is_published r)) (results (db w1)) = [(pass, false)]
  /\ map (fun r => (r_status r, r_is_published r)) (results (db w2)) = [(pass, true)].
Proof. split; vm_compute; reflexivity. Qed.

(** ** Results as students see them *)

(** X26. Publication hides a result from the student's list of results but
    not from the result view of its exam: with one result per (exam,
    student), the result view returns the student's result of the exam
    whether or not it is published, without writing, while the list of the
    student's results holds it exactly when it is published. *)
Theorem result_view_ignores_publication (env : Env) (w w' : World) (user : User)
    (r : Result) (listed : list Result) :
  results_pair_unique (db w) ->
  In r (results (db w)) ->
  r_student r = u_id user ->
  StudentMyResultsView.get_queryset user env w = (Ok listed, w') ->
  StudentExamResultView.get_object user (r_exam r) env w = (Ok (Some r), w)
  /\ (In r listed <-> r_is_published r = true).
Proof.
  intros Hnd Hin Hown Hlist. split.
  - unfold StudentExamResultView.get_object, bind, query.
    rewrite (filter_unique_key result_pair _ (results (db w)) r); [reflexivity| |exact Hnd|exact Hin].
    intros x. rewrite andb_true_iff, !N.eqb_eq, <- Hown. unfold result_pair.
    split; [intros [-> ->]; reflexivity|intros [= -> ->]; auto].
  - unfold StudentMyResultsView.get_queryset in Hlist.
    apply (query_ok _ env w w' listed) in Hlist as [-> _].
    rewrite filter_In, andb_true_iff, N.eqb_eq.
    tauto.
Qed.

(** The pending, unpublished result of the essay scenario is served to the
    student and is missing from the student's list. *)
Lemma result_view_ignores_publication_witness :
  let r := as_stored (recomputed_result Scenario.submitted_attempt (minutes 30)
                        Scenario.db_essay) in
  StudentExamResultView.get_object Scenario.student 1 Scenario.env_late
    (world_of Sample.db_essay_pending)
  = (Ok (Some r), world_of Sample.db_essay_pending)
  /\ (In r [] <-> r_is_published r = true).
Proof.
  intros r.
  apply (result_view_ignores_publication Scenario.env_late
           (world_of Sample.db_essay_pending) (world_of Sample.db_essay_pending)
           Scenario.student r []).
  - apply NoDup_by_decide. vm_compute. reflexivity.
  - left. vm_compute. reflexivity.
  - reflexivity.
  - vm_compute. reflexivity.
Defined.

(** ** The two grading endpoints *)

(** X27. Whatever the evaluation of a question of an exam accepts, the
    evaluation of an answer of an attempt accepts as well, and it leaves
    the same rows: when [StaffQuestionEvaluateView.create] answers 200,
    the requester is the creator of the exam or an administrator, the
    question is one of that exam, and
    [StaffEvaluateAnswerView.create] run on the same tables for the same
    attempt, question, score and feedback answers 200 and ends with the
    same tables. *)
Theorem question_evaluation_agrees_with_answer_evaluation
    (created_by : Exam -> uuid) (env : Env) (w w' : World) (user : Staff)
    (exam_id question_id attempt_id : uuid) (attempt_json question_json : json)
    (score : Decimal) (feedback : string) (resp : Response) :
  questions_consistent (db w) ->
  to_uuid env attempt_json = Some attempt_id ->
  to_uuid env question_json = Some question_id ->
  is_none question_json = false ->
  StaffQuestionEvaluateView.create created_by user exam_id question_id score feedback
    attempt_json env w = (Ok resp, w') ->
  status resp = 200%nat ->
  (exists exam question,
      In exam (exams (db w)) /\ e_id exam = exam_id
      /\ (created_by exam = st_id user \/ st_role user = "admin")
      /\ In question (questions (db w))
      /\ q_id question = question_id /\ q_exam question = e_id exam
      /\ 0 <= score <= q_points question)
  /\ exists resp1,
      StaffEvaluateAnswerView.create (st_id user) attempt_id question_json score feedback
        env w = (Ok resp1, w')
      /\ status resp1 = 200%nat.
Proof.
  intros [Hnd Hrows] Hatt Hq Hnone Hrun Hst.
  unfold StaffQuestionEvaluateView.create in Hrun.
  apply bind_ok in Hrun as (exam & w1 & Hexam & Hrun).
  apply query_ok in Hexam as [-> ->].
  destruct (head (List.filter (fun e => (e_id e =? exam_id)%N) (exams (db w))))
    as [exam|] eqn:Hexam;
    [|apply ret_ok in Hrun as [-> _]; discriminate].
  destruct (permission_denied created_by user exam) eqn:Hperm;
    [apply ret_ok in Hrun as [-> _]; discriminate|].
  apply bind_ok in Hrun as (question & w1 & Hquestion & Hrun).
  apply query_ok in Hquestion as [-> ->].
  destruct (head (List.filter (fun q => (q_id q =? question_id)%N && (q_exam q =? e_id exam)%N)
                    (questions (db w)))) as [question|] eqn:Hquestion;
    [|apply ret_ok in Hrun as [-> _]; discriminate].
  apply bind_ok in Hrun as (score' & w1 & Hscore & Hrun).
  unfold QuestionEvaluationSerializer.validate_score in Hscore.
  destruct (score <? 0) eqn:Hneg; [discriminate|].
  apply ret_ok in Hscore as [-> ->].
  destruct (q_points question <? score) eqn:Hover;
    [apply ret_ok in Hrun as [-> _]; discriminate|].
  destruct (truthy attempt_json);
    [|apply ret_ok in Hrun as [-> _]; discriminate].
  apply bind_ok in Hrun as (key & w1 & Hkey & Hrun).
  unfold convert_uuid in Hkey. rewrite Hatt in Hkey.
  injection Hkey as <- <-.
  apply bind_ok in Hrun as (found & w1 & Hfound & Hrun).
  apply query_ok in Hfound as [-> ->].
  apply head_In in Hexam. apply filter_In in Hexam as [Hexam Heid].
  apply N.eqb_eq in Heid.
  apply head_In in Hquestion. apply filter_In in Hquestion as [Hquestion Hqq].
  apply andb_true_iff in Hqq as [Hqid Hqexam].
  apply N.eqb_eq in Hqid. apply N.eqb_eq in Hqexam.
  split.
  { exists exam, question. repeat split; try assumption; try lia.
    unfold permission_denied in Hperm.
    apply andb_false_iff in Hperm as [Hperm|Hperm];
      apply negb_false_iff in Hperm.
    - left. apply N.eqb_eq. exact Hperm.
    - right. apply String.eqb_eq. exact Hperm. }
  unfold StaffEvaluateAnswerView.create. rewrite Hnone.
  unfold bind at 1. unfold bind at 1. unfold convert_uuid at 1. rewrite Hq.
  unfold query at 1.
  destruct (answers_for attempt_id question_id (db w)) as [|answer [|]] eqn:Hfound;
    [apply ret_ok in Hrun as [-> _]; discriminate| |discriminate].
  assert (an_question answer = question) as Hsame.
  { assert (In answer (answers_for attempt_id question_id (db w))) as Hin
      by (rewrite Hfound; left; reflexivity).
    unfold answers_for in Hin. apply filter_In in Hin as [Hin Hk].
    apply andb_true_iff in Hk as [_ Hk]. apply N.eqb_eq in Hk.
    apply (NoDup_key_eq q_id (questions (db w))); auto. congruence. }
  rewrite Hneg, Hsame, Hover.
  apply bind_ok in Hrun as (u & w1 & Hsave & Hrun).
  rewrite (bind_run _ _ env w w1 u Hsave).
  apply bind_ok in Hrun as (attempt & w2 & Hattempt & Hrun).
  rewrite (bind_run _ _ env w1 w2 attempt Hattempt).
  apply bind_ok in Hrun as (r & w3 & Hcalc & Hrun).
  rewrite (bind_run _ _ env w2 w3 r Hcalc).
  apply ret_ok in Hrun as [_ ->].
  eexists. split; reflexivity.
Qed.

(** In the essay scenario the creator of the exam grades the essay through
    either endpoint with the same effect. *)
Lemma question_evaluation_agrees_with_answer_evaluation_witness :
  exists resp1,
    StaffEvaluateAnswerView.create 9 100 (JInt 3) 700 "Good"
      Scenario.env_late (world_of Scenario.db_essay)
    = (Ok resp1,
       snd (StaffQuestionEvaluateView.create (fun _ => 9%N)
              {| st_id := 9; st_role := "staff" |} 1 3 700 "Good" (JInt 100)
              Scenario.env_late (world_of Scenario.db_essay)))
    /\ status resp1 = 200%nat.
Proof.
  apply (proj2 (question_evaluation_agrees_with_answer_evaluation (fun _ => 9%N)
                  Scenario.env_late (world_of Scenario.db_essay)
                  (snd (StaffQuestionEvaluateView.create (fun _ => 9%N)
                          {| st_id := 9; st_role := "staff" |} 1 3 700 "Good" (JInt 100)
                          Scenario.env_late (world_of Scenario.db_essay)))
                  {| st_id := 9; st_role := "staff" |} 1 3 100 (JInt 100) (JInt 3)
                  700 "Good"
                  {| data := JDict
                       [("success", JBool true);
                        ("message", JStr "Question evaluated successfully");
                        ("feedback", JStr "Good")];
                     status := 200 |}
                  ltac:(split;
                        [ apply NoDup_by_decide; vm_compute; reflexivity
                        | simpl; intros a [<-|[]]; left; reflexivity ])
                  ltac:(reflexivity) ltac:(reflexivity) ltac:(reflexivity)
                  ltac:(vm_compute; reflexivity) ltac:(reflexivity))).
Defined.

(** The converse fails: a staff member who did not create the exam is
    refused by the evaluation of a question, with nothing written, and
    grades the same answer through the evaluation of an answer. *)
Example answer_evaluation_has_no_owner_check :
  let other := {| st_id := 10; st_role := "staff" |} in
  let refused := StaffQuestionEvaluateView.create (fun _ => 9%N) other 1 3 700 "Good"
                   (JInt 100) Scenario.env_late (world_of Scenario.db_essay) in
  let graded := StaffEvaluateAnswerView.create (st_id other) 100 (JInt 3) 700 "Good"
                  Scenario.env_late (world_of Scenario.db_essay) in
  refused = (Ok (error "Permission denied" 403), world_of Scenario.db_essay)
  /\ option_map status (match fst graded with Ok r => Some r | Raise _ => None end)
     = Some 200%nat
  /\ map (fun a => (an_score a, an_evaluated_by a)) (answers (db (snd graded)))
     = [(Some 700, Some 10%N)].
Proof. vm_compute. repeat split; reflexivity. Qed.
